(** * irctest dashboard: the report builder of [irctest/dashboard/format.py]

    A shallow embedding of the result-aggregation pipeline: the parser of
    pytest's JUnit records, the job classifier, the identifier generator,
    the renderer of the XHTML test matrices and the pipeline driver,
    followed by the properties of the specification that were checked
    against it.

    Conventions of the embedding.
    - A Python [str] is a [string]; every [ascii] stands for one code point
      below 256, so [String.length] is Python's [len] and the order of
      [String.compare] is the order Python sorts strings by.
    - A raised exception is the [Raise] branch of [result]; nothing catches
      exceptions in the pipeline except the [KeyError] of the cell lookup,
      which is modelled where it is caught.
    - A [dict] is an association list in insertion order, a [set] that is
      only ever sorted or tested for membership is a list.
    - An [xml.etree] element is a finite tree [Element]. *)

From Stdlib Require Import List String Ascii Bool Arith ZArith Lia.
From Stdlib Require Import Permutation Sorted.
Import ListNotations.
Local Open Scope string_scope.

Set Implicit Arguments.
Set Warnings "-register-all".

(** ** Exceptions *)

Inductive exn : Type :=
| AssertionError
| ValueError
| KeyError
| AttributeError
| TypeError
| ImportError.

Inductive result (A : Type) : Type :=
| Ok (a : A)
| Raise (e : exn).

Arguments Ok {A} a.
Arguments Raise {A} e.

Definition bind {A B : Type} (m : result A) (f : A -> result B) : result B :=
  match m with
  | Ok a => f a
  | Raise e => Raise e
  end.

Notation "x <- m ;; k" := (bind m (fun x => k))
  (at level 61, m at next level, right associativity).
Notation "' p <- m ;; k" := (bind m (fun v => let p := v in k))
  (at level 61, p pattern, m at next level, right associativity).

Definition assert (b : bool) : result unit :=
  if b then Ok tt else Raise AssertionError.

(** [for x in l: body], with a state threaded through and exceptions
    leaving the loop. *)
Fixpoint for_each {A S : Type} (l : list A) (body : A -> S -> result S)
    (s : S) : result S :=
  match l with
  | [] => Ok s
  | x :: l' => s' <- body x s ;; for_each l' body s'
  end.

Definition is_ok {A : Type} (m : result A) : bool :=
  match m with Ok _ => true | Raise _ => false end.

(** ** Python strings *)

Module Py.

Definition code (c : ascii) : nat := nat_of_ascii c.

(** [str.isspace] on one code point below 256. *)
Definition isspace (c : ascii) : bool :=
  let n := code c in
  (((9 <=? n) && (n <=? 13)) || ((28 <=? n) && (n <=? 32))
   || (n =? 133) || (n =? 160))%nat.

(** [s.rstrip()] *)
Fixpoint rstrip (s : string) : string :=
  match s with
  | EmptyString => EmptyString
  | String c s' =>
      match rstrip s' with
      | EmptyString => if isspace c then EmptyString else String c EmptyString
      | t => String c t
      end
  end.

(** [s.startswith(p)] *)
Definition startswith (s p : string) : bool := String.prefix p s.

(** [s.endswith(suf)] *)
Fixpoint endswith (s suf : string) : bool :=
  (s =? suf) ||
  match s with
  | EmptyString => false
  | String _ s' => endswith s' suf
  end.

(** [s.endswith((suf1, suf2, ...))] *)
Definition endswith_any (s : string) (sufs : list string) : bool :=
  existsb (endswith s) sufs.

(** [sub in s] *)
Fixpoint contains (sub s : string) : bool :=
  String.prefix sub s ||
  match s with
  | EmptyString => false
  | String _ s' => contains sub s'
  end.

(** [c in s] for one character *)
Fixpoint mem_char (c : ascii) (s : string) : bool :=
  match s with
  | EmptyString => false
  | String c' s' => (c =? c')%char || mem_char c s'
  end.

(** [set(s) & t] is non-empty *)
Fixpoint intersects (s t : string) : bool :=
  match s with
  | EmptyString => false
  | String c s' => mem_char c t || intersects s' t
  end.

(** [s.rsplit(".", 1)]: [None] when there is no separator (Python then
    returns the one-element list [[s]]). *)
Fixpoint rsplit_dot (s : string) : option (string * string) :=
  match s with
  | EmptyString => None
  | String c s' =>
      match rsplit_dot s' with
      | Some (a, b) => Some (String c a, b)
      | None => if (c =? ".")%char then Some (EmptyString, s') else None
      end
  end.

(** Truthiness of an [Optional[str]]: [None] and [""] are false. *)
Definition truthy (o : option string) : bool :=
  match o with
  | None => false
  | Some EmptyString => false
  | Some _ => true
  end.

(** [o or d] for an [Optional[str]] *)
Definition or_else (o : option string) (d : string) : string :=
  match o with
  | Some (String c s) => String c s
  | _ => d
  end.

(** [str(n)] for a natural number *)
Definition digit (n : nat) : ascii := ascii_of_nat (48 + n).

Fixpoint str_of_nat_aux (fuel n : nat) (acc : string) : string :=
  match fuel with
  | 0 => acc
  | S fuel' =>
      let acc' := String (digit (n mod 10)) acc in
      if (n <? 10)%nat then acc' else str_of_nat_aux fuel' (n / 10) acc'
  end.

Definition str_of_nat (n : nat) : string := str_of_nat_aux (S n) n "".

(** The order [sorted] uses: [<=] read off a three-way comparison, which is
    [String.compare] on [str] and the lexicographic one on tuples. *)
Definition leb_of {A : Type} (cmp : A -> A -> comparison) (x y : A) : bool :=
  match cmp x y with
  | Gt => false
  | _ => true
  end.

Definition pair_compare {A B : Type} (cmpA : A -> A -> comparison)
    (cmpB : B -> B -> comparison) (x y : A * B) : comparison :=
  match cmpA (fst x) (fst y) with
  | Eq => cmpB (snd x) (snd y)
  | c => c
  end.

(** [sorted(l)], a stable insertion sort. *)
Fixpoint insert_sorted {A : Type} (leb : A -> A -> bool) (x : A)
    (l : list A) : list A :=
  match l with
  | [] => [x]
  | y :: l' => if leb x y then x :: l else y :: insert_sorted leb x l'
  end.

Fixpoint sorted {A : Type} (leb : A -> A -> bool) (l : list A) : list A :=
  match l with
  | [] => []
  | x :: l' => insert_sorted leb x (sorted leb l')
  end.

(** The elements of [set(l)], each kept at its first occurrence. *)
Fixpoint set_of {A : Type} (eqb : A -> A -> bool) (l : list A) : list A :=
  match l with
  | [] => []
  | x :: l' => x :: filter (fun y => negb (eqb y x)) (set_of eqb l')
  end.

Definition pair_eqb (x y : string * string) : bool :=
  (fst x =? fst y) && (snd x =? snd y).

(** A [dict], in insertion order. *)
Definition dict (K V : Type) : Type := list (K * V).

Fixpoint dict_get {K V : Type} (eqb : K -> K -> bool) (k : K)
    (d : dict K V) : option V :=
  match d with
  | [] => None
  | (k', v) :: d' => if eqb k' k then Some v else dict_get eqb k d'
  end.

(** [d[k] = v]: an existing key keeps its place. *)
Fixpoint dict_set {K V : Type} (eqb : K -> K -> bool) (k : K) (v : V)
    (d : dict K V) : dict K V :=
  match d with
  | [] => [(k, v)]
  | (k', v') :: d' =>
      if eqb k' k then (k', v) :: d' else (k', v') :: dict_set eqb k v d'
  end.

(** [sorted(d.items())]: the keys of a [dict] are distinct, so the order of
    the items is the order of their keys. *)
Definition sorted_items {K V : Type} (cmp : K -> K -> comparison)
    (d : dict K V) : list (K * V) :=
  sorted (fun x y => leb_of cmp (fst x) (fst y)) d.

End Py.

(** ** Regular expressions, as [re.match] runs them

    The fragment of Python's [re] syntax the program uses, matched by
    backtracking in the order of [re]: a greedy repetition tries the
    longest run first, a lazy one the shortest, an alternative its
    branches from left to right. Repetition is only ever applied to a
    single character class in the program's patterns, and so it is here. *)

Module Re.

(** A pattern that matches one character. *)
Inductive cclass : Type :=
| Chr (c : ascii)           (* a literal character *)
| Dot                       (* [.], anything but a line feed *)
| WordChar                  (* [\w] *)
| OneOf (cs : string).      (* [[...]] *)

Inductive regex : Type :=
| Eps
| Cls (c : cclass)
| Seq (r1 r2 : regex)
| Alt (r1 r2 : regex)       (* [r1|r2] *)
| Opt (r : regex)           (* [r?] *)
| Star (c : cclass)         (* [c*] *)
| Plus (c : cclass)         (* [c+] *)
| PlusLazy (c : cclass)     (* [c+?] *)
| Grp (r : regex)           (* [(r)], a numbered group the program never reads *)
| Named (name : string) (r : regex).  (* [(?P<name>r)] *)

(** [\w] on a code point below 256: [str.isalnum] or the underscore. *)
Definition is_word (c : ascii) : bool :=
  let n := Py.code c in
  (((48 <=? n) && (n <=? 57)) || ((65 <=? n) && (n <=? 90)) || (n =? 95)
   || ((97 <=? n) && (n <=? 122))
   || (n =? 170) || (n =? 178) || (n =? 179) || (n =? 181) || (n =? 185)
   || (n =? 186) || ((188 <=? n) && (n <=? 190))
   || ((192 <=? n) && (n <=? 214)) || ((216 <=? n) && (n <=? 246))
   || (248 <=? n))%nat.

Definition accepts (cl : cclass) (c : ascii) : bool :=
  match cl with
  | Chr c' => (c =? c')%char
  | Dot => negb (c =? "010")%char
  | WordChar => is_word c
  | OneOf cs => Py.mem_char c cs
  end.

(** The groups matched so far, latest first. *)
Definition groups : Type := list (string * string).

Fixpoint group (name : string) (g : groups) : option string :=
  match g with
  | [] => None
  | (n, v) :: g' => if n =? name then Some v else group name g'
  end.

(** The text consumed between the input [s] and what is left of it, [s']. *)
Definition consumed (s s' : string) : string :=
  String.substring 0 (String.length s - String.length s') s.

Definition cont : Type := string -> groups -> option groups.

Fixpoint star_greedy (cl : cclass) (s : string) (g : groups) (k : cont)
    : option groups :=
  match s with
  | String c s' =>
      if accepts cl c then
        match star_greedy cl s' g k with
        | Some r => Some r
        | None => k s g
        end
      else k s g
  | EmptyString => k s g
  end.

Fixpoint star_lazy (cl : cclass) (s : string) (g : groups) (k : cont)
    : option groups :=
  match k s g with
  | Some r => Some r
  | None =>
      match s with
      | String c s' => if accepts cl c then star_lazy cl s' g k else None
      | EmptyString => None
      end
  end.

Definition one (cl : cclass) (s : string) (g : groups) (k : cont)
    : option groups :=
  match s with
  | String c s' => if accepts cl c then k s' g else None
  | EmptyString => None
  end.

Fixpoint run (r : regex) (s : string) (g : groups) (k : cont)
    : option groups :=
  match r with
  | Eps => k s g
  | Cls cl => one cl s g k
  | Seq r1 r2 => run r1 s g (fun s' g' => run r2 s' g' k)
  | Alt r1 r2 =>
      match run r1 s g k with
      | Some r => Some r
      | None => run r2 s g k
      end
  | Opt r1 =>
      match run r1 s g k with
      | Some r => Some r
      | None => k s g
      end
  | Star cl => star_greedy cl s g k
  | Plus cl => one cl s g (fun s' g' => star_greedy cl s' g' k)
  | PlusLazy cl => one cl s g (fun s' g' => star_lazy cl s' g' k)
  | Grp r1 => run r1 s g k
  | Named n r1 => run r1 s g (fun s' g' => k s' ((n, consumed s s') :: g'))
  end.

(** [re.match(r, s)]: anchored at the start of [s], not at its end. *)
Definition rmatch (r : regex) (s : string) : option groups :=
  run r s [] (fun _ g => Some g).

(** A literal word, character by character. *)
Fixpoint lit (w : string) : regex :=
  match w with
  | EmptyString => Eps
  | String c w' => Seq (Cls (Chr c)) (lit w')
  end.

(** What one match of a pattern consumes and which groups it sets: the
    meaning of a pattern without the search order. *)
Inductive matches : regex -> string -> groups -> groups -> Prop :=
| m_eps g : matches Eps "" g g
| m_cls cl c g : accepts cl c = true -> matches (Cls cl) (String c "") g g
| m_seq r1 r2 s1 s2 g g1 g2 :
    matches r1 s1 g g1 -> matches r2 s2 g1 g2 ->
    matches (Seq r1 r2) (s1 ++ s2) g g2
| m_alt_l r1 r2 s g g' : matches r1 s g g' -> matches (Alt r1 r2) s g g'
| m_alt_r r1 r2 s g g' : matches r2 s g g' -> matches (Alt r1 r2) s g g'
| m_opt_some r s g g' : matches r s g g' -> matches (Opt r) s g g'
| m_opt_none r g : matches (Opt r) "" g g
| m_star_nil cl g : matches (Star cl) "" g g
| m_star_cons cl c s g :
    accepts cl c = true -> matches (Star cl) s g g ->
    matches (Star cl) (String c s) g g
| m_plus cl c s g :
    accepts cl c = true -> matches (Star cl) s g g ->
    matches (Plus cl) (String c s) g g
| m_plus_lazy cl c s g :
    accepts cl c = true -> matches (Star cl) s g g ->
    matches (PlusLazy cl) (String c s) g g
| m_grp r s g g' : matches r s g g' -> matches (Grp r) s g g'
| m_named n r s g g' :
    matches r s g g' -> matches (Named n r) s g ((n, s) :: g').

End Re.

(** ** [hashlib.md5] and [base64.urlsafe_b64encode]

    Bytes are integers in [0, 256); 32-bit words are integers with the
    wrap-around of their additions and rotations written out. *)

Module Hash.

Local Open Scope Z_scope.

Definition byte_of (c : ascii) : Z := Z.of_nat (Py.code c).

(** [text.encode()]: UTF-8; a code point from 128 to 255 takes two bytes. *)
Fixpoint encode (s : string) : list Z :=
  match s with
  | EmptyString => []
  | String c s' =>
      let n := byte_of c in
      if n <? 128 then n :: encode s'
      else Z.lor 192 (Z.shiftr n 6) :: Z.lor 128 (Z.land n 63) :: encode s'
  end.

Definition wrap32 (x : Z) : Z := x mod 4294967296.

Definition add32 (x y : Z) : Z := wrap32 (x + y).

Definition rotl32 (x n : Z) : Z :=
  Z.lor (wrap32 (Z.shiftl x n)) (Z.shiftr x (32 - n)).

Definition not32 (x : Z) : Z := 4294967295 - x.

(** [floor(2^32 * abs(sin(i + 1)))] for [i] from 0 to 63 *)
Definition sines : list Z :=
  [ 0xd76aa478; 0xe8c7b756; 0x242070db; 0xc1bdceee;
    0xf57c0faf; 0x4787c62a; 0xa8304613; 0xfd469501;
    0x698098d8; 0x8b44f7af; 0xffff5bb1; 0x895cd7be;
    0x6b901122; 0xfd987193; 0xa679438e; 0x49b40821;
    0xf61e2562; 0xc040b340; 0x265e5a51; 0xe9b6c7aa;
    0xd62f105d; 0x02441453; 0xd8a1e681; 0xe7d3fbc8;
    0x21e1cde6; 0xc33707d6; 0xf4d50d87; 0x455a14ed;
    0xa9e3e905; 0xfcefa3f8; 0x676f02d9; 0x8d2a4c8a;
    0xfffa3942; 0x8771f681; 0x6d9d6122; 0xfde5380c;
    0xa4beea44; 0x4bdecfa9; 0xf6bb4b60; 0xbebfbc70;
    0x289b7ec6; 0xeaa127fa; 0xd4ef3085; 0x04881d05;
    0xd9d4d039; 0xe6db99e5; 0x1fa27cf8; 0xc4ac5665;
    0xf4292244; 0x432aff97; 0xab9423a7; 0xfc93a039;
    0x655b59c3; 0x8f0ccc92; 0xffeff47d; 0x85845dd1;
    0x6fa87e4f; 0xfe2ce6e0; 0xa3014314; 0x4e0811a1;
    0xf7537e82; 0xbd3af235; 0x2ad7d2bb; 0xeb86d391 ].

Definition shifts : list Z :=
  [ 7; 12; 17; 22; 7; 12; 17; 22; 7; 12; 17; 22; 7; 12; 17; 22;
    5; 9; 14; 20; 5; 9; 14; 20; 5; 9; 14; 20; 5; 9; 14; 20;
    4; 11; 16; 23; 4; 11; 16; 23; 4; 11; 16; 23; 4; 11; 16; 23;
    6; 10; 15; 21; 6; 10; 15; 21; 6; 10; 15; 21; 6; 10; 15; 21 ].

(** The message with its padding: a [0x80] byte, zeros up to 56 modulo 64,
    and the length in bits as 8 little-endian bytes. *)
Definition le_bytes (n : nat) (x : Z) : list Z :=
  map (fun i => Z.land (Z.shiftr x (8 * Z.of_nat i)) 255) (seq 0 n).

Definition pad (msg : list Z) : list Z :=
  let len := Z.of_nat (List.length msg) in
  let zeros := Z.to_nat ((55 - len) mod 64) in
  msg ++ 128 :: repeat 0 zeros ++ le_bytes 8 ((8 * len) mod 18446744073709551616).

(** Little-endian 32-bit words of a byte string whose length is a multiple
    of four. *)
Fixpoint words (fuel : nat) (bs : list Z) : list Z :=
  match fuel, bs with
  | S fuel', b0 :: b1 :: b2 :: b3 :: bs' =>
      (b0 + 256 * b1 + 65536 * b2 + 16777216 * b3) :: words fuel' bs'
  | _, _ => []
  end.

Record state : Type := mk_state { sa : Z; sb : Z; sc : Z; sd : Z }.

Definition init : state :=
  mk_state 0x67452301 0xefcdab89 0x98badcfe 0x10325476.

Definition round (m : list Z) (st : state) (i : nat) : state :=
  let '(mk_state a b c d) := st in
  let zi := Z.of_nat i in
  let '(f, gidx) :=
    if zi <? 16 then (Z.lor (Z.land b c) (Z.land (not32 b) d), zi)
    else if zi <? 32 then
      (Z.lor (Z.land d b) (Z.land (not32 d) c), (5 * zi + 1) mod 16)
    else if zi <? 48 then (Z.lxor b (Z.lxor c d), (3 * zi + 5) mod 16)
    else (Z.lxor c (Z.lor b (not32 d)), (7 * zi) mod 16) in
  let x := add32 (add32 a f) (add32 (nth i sines 0) (nth (Z.to_nat gidx) m 0)) in
  mk_state d (add32 b (rotl32 x (nth i shifts 0))) b c.

Definition block (st : state) (m : list Z) : state :=
  let st' := fold_left (round m) (seq 0 64) st in
  mk_state (add32 (sa st) (sa st')) (add32 (sb st) (sb st'))
           (add32 (sc st) (sc st')) (add32 (sd st) (sd st')).

Fixpoint blocks (fuel : nat) (ws : list Z) (st : state) : state :=
  match fuel with
  | O => st
  | S fuel' =>
      match ws with
      | [] => st
      | _ => blocks fuel' (skipn 16 ws) (block st (firstn 16 ws))
      end
  end.

(** [hashlib.md5(msg).digest()] *)
Definition md5 (msg : list Z) : list Z :=
  let bs := pad msg in
  let ws := words (List.length bs) bs in
  let st := blocks (List.length ws) ws init in
  le_bytes 4 (sa st) ++ le_bytes 4 (sb st) ++ le_bytes 4 (sc st)
  ++ le_bytes 4 (sd st).

Definition alphabet : string :=
  "ABCDEFGHIJKLMNOPQRSTUVWXYZabcdefghijklmnopqrstuvwxyz0123456789-_".

Definition b64_char (n : Z) : ascii :=
  match String.get (Z.to_nat n) alphabet with
  | Some c => c
  | None => "="%char
  end.

(** [base64.urlsafe_b64encode(bs).decode()], padding kept *)
Fixpoint urlsafe_b64encode (fuel : nat) (bs : list Z) : string :=
  match fuel with
  | O => ""%string
  | S fuel' =>
      match bs with
      | [] => ""%string
      | [b0] =>
          String (b64_char (Z.shiftr b0 2))
            (String (b64_char (Z.land (Z.shiftl b0 4) 63)) "=="%string)
      | [b0; b1] =>
          String (b64_char (Z.shiftr b0 2))
            (String (b64_char (Z.land (Z.lor (Z.shiftl b0 4) (Z.shiftr b1 4)) 63))
               (String (b64_char (Z.land (Z.shiftl b1 2) 63)) "="%string))
      | b0 :: b1 :: b2 :: bs' =>
          String (b64_char (Z.shiftr b0 2))
            (String (b64_char (Z.land (Z.lor (Z.shiftl b0 4) (Z.shiftr b1 4)) 63))
               (String (b64_char (Z.land (Z.lor (Z.shiftl b1 2) (Z.shiftr b2 6)) 63))
                  (String (b64_char (Z.land b2 63))
                     (urlsafe_b64encode fuel' bs'))))
      end
  end.

End Hash.

(** [md5sum(text)] of the source *)
Definition md5sum (text : string) : string :=
  let digest := Hash.md5 (Hash.encode text) in
  Hash.urlsafe_b64encode (List.length digest) digest.

(** ** [xml.etree.ElementTree] elements *)

Module ET.

Inductive Element : Type :=
| Elem (tag : string) (attrib : Py.dict string string)
       (text : option string) (children : list Element).

Definition tag (e : Element) : string :=
  let '(Elem t _ _ _) := e in t.
Definition attrib (e : Element) : Py.dict string string :=
  let '(Elem _ a _ _) := e in a.
Definition text (e : Element) : option string :=
  let '(Elem _ _ x _) := e in x.
Definition children (e : Element) : list Element :=
  let '(Elem _ _ _ c) := e in c.

(** [ET.Element(tag)] *)
Definition element (t : string) : Element := Elem t [] None [].

(** [e.set(key, value)] *)
Definition set (e : Element) (key value : string) : Element :=
  let '(Elem t a x c) := e in Elem t (Py.dict_set String.eqb key value a) x c.

(** [e.text = value] *)
Definition set_text (e : Element) (value : string) : Element :=
  let '(Elem t a _ c) := e in Elem t a (Some value) c.

(** [e.append(child)], which [ET.SubElement(e, ...)] does with a new child *)
Definition append (e child : Element) : Element :=
  let '(Elem t a x c) := e in Elem t a x (c ++ [child]).

(** [key in e.attrib] and [e.attrib[key]] *)
Definition get (e : Element) (key : string) : option string :=
  Py.dict_get String.eqb key (attrib e).

End ET.

Import ET.

(** ** The result of one test case *)

(** [NETLIFY_CHAR_BLACKLIST]: the double quote, [:<>|*?], the carriage
    return, the line feed and [#] *)
Definition NETLIFY_CHAR_BLACKLIST : string :=
  String "034" (":<>|*?" ++ String "013" (String "010" "#")).

Record CaseResult : Type := mk_CaseResult {
  module_name : string;
  class_name : string;
  test_name : string;
  job : string;
  success : bool;
  skipped : bool;
  system_out : option string;
  details : option string;
  type : option string;
  message : option string
}.

Notation "r1 ~> r2" := (Re.Seq r1 r2) (at level 60, right associativity).

(** The pattern of [output_filename]:
    [(?P<function_name>\w+?)\[(?P<params>.+)\]] *)
Definition test_name_pattern : Re.regex :=
  Re.Named "function_name" (Re.PlusLazy Re.WordChar)
  ~> Re.Cls (Re.Chr "[")
  ~> Re.Named "params" (Re.Plus Re.Dot)
  ~> Re.Cls (Re.Chr "]").

(** [CaseResult.output_filename]; both groups take part in every match of
    the pattern, so the branch where one is missing is never taken. *)
Definition output_filename (self : CaseResult) : result string :=
  let name := test_name self in
  name' <-
    (if (50 <? String.length name)%nat || Py.intersects name NETLIFY_CHAR_BLACKLIST
     then
       match Re.rmatch test_name_pattern name with
       | Some m =>
           match Re.group "function_name" m, Re.group "params" m with
           | Some function_name, Some params =>
               Ok (function_name ++ "[" ++ md5sum params ++ "]")
           | _, _ => Raise AttributeError
           end
       | None => Raise AssertionError
       end
     else Ok name) ;;
  Ok (job self ++ "_" ++ module_name self ++ "." ++ class_name self ++ "."
      ++ name' ++ ".txt").

(** [group_by(list_, key)] *)
Definition setdefault_append {TK TV : Type} (eqb : TK -> TK -> bool)
    (groups : Py.dict TK (list TV)) (k : TK) (value : TV)
    : Py.dict TK (list TV) :=
  match Py.dict_get eqb k groups with
  | Some vs => Py.dict_set eqb k (vs ++ [value])%list groups
  | None => (groups ++ [(k, [value])])%list
  end.

Definition group_by {TK TV : Type} (eqb : TK -> TK -> bool)
    (list_ : list TV) (key : TV -> TK) : Py.dict TK (list TV) :=
  fold_left (fun groups value => setdefault_append eqb groups (key value) value)
    list_ [].

(** ** The record parser *)

(** The variables of the loop over the children of a case. *)
Record case_vars : Type := mk_case_vars {
  v_success : bool;
  v_skipped : bool;
  v_details : option string;
  v_system_out : option string;
  v_extra : Py.dict string string
}.

Definition case_vars_init : case_vars :=
  mk_case_vars true false None None [].

(** The body of [for child in case]. *)
Definition child_step (child : Element) (v : case_vars) : result case_vars :=
  if tag child =? "skipped" then
    Ok (mk_case_vars true true None (v_system_out v) (attrib child))
  else if (tag child =? "failure") || (tag child =? "error") then
    Ok (mk_case_vars false false (text child) (v_system_out v) (attrib child))
  else if tag child =? "system-out" then
    _ <- match v_system_out v with
         | None => Ok tt
         | Some previous =>
             match text child with
             | Some t => assert (Py.startswith t (Py.rstrip previous))
             | None => Raise AttributeError
             end
         end ;;
    Ok (mk_case_vars (v_success v) (v_skipped v) (v_details v) (text child)
          (v_extra v))
  else Raise AssertionError.

(** The pattern of [iter_job_results], piece by piece and in order:
    - [(.*/)?], an optional group of any characters and a slash;
    - [pytest], [[ -]], [results], [[ _]];
    - the group [name] around a greedy [.] star;
    - [[ _]], [[(]?], [(stable|release|devel|devel_release)], [[)]?];
    - [/pytest.xml], where the dot is the pattern [.];
    - [(.gz)?], where the dot is the pattern [.] again. *)
Definition job_file_pattern : Re.regex :=
  Re.Opt (Re.Grp (Re.Star Re.Dot ~> Re.Cls (Re.Chr "/")))
  ~> Re.lit "pytest" ~> Re.Cls (Re.OneOf " -")
  ~> Re.lit "results" ~> Re.Cls (Re.OneOf " _")
  ~> Re.Named "name" (Re.Star Re.Dot)
  ~> Re.Cls (Re.OneOf " _")
  ~> Re.Opt (Re.Cls (Re.OneOf "("))
  ~> Re.Grp (Re.Alt (Re.lit "stable")
              (Re.Alt (Re.lit "release")
                (Re.Alt (Re.lit "devel") (Re.lit "devel_release"))))
  ~> Re.Opt (Re.Cls (Re.OneOf ")"))
  ~> Re.lit "/pytest" ~> Re.Cls Re.Dot ~> Re.lit "xml"
  ~> Re.Opt (Re.Grp (Re.Cls Re.Dot ~> Re.lit "gz")).

(** [CaseResult(..., **extra)]: a keyword that is no field of the class, or
    one that is passed twice, is a [TypeError]; the fields left for [extra]
    are [type] and [message]. *)
Definition new_CaseResult (module_name class_name test_name job : string)
    (success skipped : bool) (details system_out : option string)
    (extra : Py.dict string string) : result CaseResult :=
  if forallb (fun kv => (fst kv =? "type") || (fst kv =? "message")) extra
  then
    Ok (mk_CaseResult module_name class_name test_name job success skipped
          system_out details
          (Py.dict_get String.eqb "type" extra)
          (Py.dict_get String.eqb "message" extra))
  else Raise TypeError.

(** The end of one turn of [for case in suite]: the class name is split,
    the file name is matched, the result is built and yielded. *)
Definition yield_result (job_file_name : string) (case : Element)
    (name : string) (v : case_vars) : result CaseResult :=
  classname <- match get case "classname" with
               | Some c => Ok c
               | None => Raise KeyError
               end ;;
  '(module_name, class_name) <-
     match Py.rsplit_dot classname with
     | Some p => Ok p
     | None => Raise ValueError
     end ;;
  m <- match Re.rmatch job_file_pattern job_file_name with
       | Some m => Ok m
       | None => Raise AssertionError
       end ;;
  j <- match Re.group "name" m with
       | Some j => Ok j
       | None => Raise AttributeError
       end ;;
  new_CaseResult module_name class_name name j (v_success v) (v_skipped v)
    (v_details v) (v_system_out v) (v_extra v).

(** One turn of [for case in suite], for a case that has a name. *)
Definition case_result (job_file_name : string) (case : Element)
    (name : string) : result CaseResult :=
  v <- for_each (children case) child_step case_vars_init ;;
  yield_result job_file_name case name v.

Fixpoint iter_cases (job_file_name : string) (cases : list Element)
    : result (list CaseResult) :=
  match cases with
  | [] => Ok []
  | case :: cases' =>
      match get case "name" with
      | None => iter_cases job_file_name cases'
      | Some name =>
          r <- case_result job_file_name case name ;;
          rs <- iter_cases job_file_name cases' ;;
          Ok (r :: rs)
      end
  end.

(** [iter_job_results(job_file_name, job)], on the root element of the
    record; the results it yields are collected in a list, as [main] does. *)
Definition iter_job_results (job_file_name : string) (root : Element)
    : result (list CaseResult) :=
  match children root with
  | [suite] => iter_cases job_file_name (children suite)
  | _ => Raise ValueError
  end.

(** ** The outside world

    What the pipeline does to the output directory is kept as the list of
    its effects, in order; an exception stops the list where it is raised. *)

Inductive effect : Type :=
| Mkdir (dir : string)
| WriteXml (dir file_name : string) (root : Element)
| WriteText (dir file_name : string) (content : string).

Definition io (A : Type) : Type := (list effect * result A)%type.

Definition io_ret {A : Type} (a : A) : io A := ([], Ok a).

Definition io_bind {A B : Type} (m : io A) (f : A -> io B) : io B :=
  match m with
  | (w, Ok a) => let '(w', r) := f a in ((w ++ w')%list, r)
  | (w, Raise e) => (w, Raise e)
  end.

Definition lift {A : Type} (r : result A) : io A := ([], r).

Definition emit (e : effect) : io unit := ([e], Ok tt).

Notation "x <~ m ;; k" := (io_bind m (fun x => k))
  (at level 61, m at next level, right associativity).
Notation "' p <~ m ;; k" := (io_bind m (fun v => let p := v in k))
  (at level 61, p pattern, m at next level, right associativity).

Fixpoint io_for_each {A S : Type} (l : list A) (body : A -> S -> io S)
    (s : S) : io S :=
  match l with
  | [] => io_ret s
  | x :: l' => s' <~ body x s ;; io_for_each l' body s'
  end.

(** [[f(x) for x in l]] where [f] may raise *)
Fixpoint map_result {A B : Type} (f : A -> result B) (l : list A)
    : result (list B) :=
  match l with
  | [] => Ok []
  | x :: l' => y <- f x ;; ys <- map_result f l' ;; Ok (y :: ys)
  end.

Inductive category : Type := client | server | server_with_services.

Definition category_eqb (a b : category) : bool :=
  match a, b with
  | client, client | server, server
  | server_with_services, server_with_services => true
  | _, _ => false
  end.

(** A module of the test suite as the renderer sees it: its docstring and
    the docstrings of its classes. *)
Record module_object : Type := mk_module_object {
  module_doc : option string;
  class_doc : string -> option (option string)
}.

Section Dashboard.

(** [importlib.import_module]; [None] when the import fails. *)
Variable import_module : string -> option module_object.

(** [rst_to_element], the docutils conversion of a docstring. *)
Variable rst_to_element : string -> result Element.

(** The stylesheet that lies next to the program. *)
Variable style_css : string.

(** [parse_xml_file]: the root element of the record stored in a file. *)
Variable parse_xml_file : string -> result Element.

Definition import (name : string) : result module_object :=
  match import_module name with
  | Some m => Ok m
  | None => Raise ImportError
  end.

Definition getattr (m : module_object) (name : string)
    : result (option string) :=
  match class_doc m name with
  | Some d => Ok d
  | None => Raise AttributeError
  end.

(** [append_docstring(element, obj)], given [obj.__doc__] *)
Definition append_docstring (element : Element) (doc : option string)
    : result Element :=
  match doc with
  | None => Ok element
  | Some s => e <- rst_to_element s ;; Ok (append element e)
  end.

(** The [head] that every page starts with. *)
Definition page_head (title : string) : Element :=
  Elem "head" [] None
    [ Elem "title" [] (Some title) [];
      Elem "link"
        [("rel", "stylesheet"); ("type", "text/css"); ("href", "./style.css")]
        None [] ].

(** One cell of the matrix: the body of [for job_name in jobs]. *)
Definition build_cell (results_by_job : Py.dict string (list CaseResult))
    (job_name : string) : result Element :=
  let cell := element "td" in
  match Py.dict_get String.eqb job_name results_by_job with
  | None => Ok (set_text (set cell "class" "deselected") "d")
  | Some [result] =>
      let '(cell, text) :=
        if skipped result then
          let cell := set cell "class" "skipped" in
          match type result with
          | Some t =>
              if t =? "pytest.skip" then (cell, Some "s")
              else if t =? "pytest.xfail" then
                (set cell "class" "expected-failure", Some "X")
              else (cell, Some t)
          | None => (cell, None)
          end
        else if success result then
          let cell := set cell "class" "success" in
          if Py.truthy (type result) then (cell, type result)
          else (cell, Some ".")
        else
          let cell := set cell "class" "failure" in
          if Py.truthy (type result) then (cell, type result)
          else (cell, Some "f") in
      cell <-
        (if Py.truthy (system_out result) then
           f <- output_filename result ;;
           Ok (append cell
                 (Elem "a" [("href", "./" ++ f)] (Some (Py.or_else text "?")) []))
         else Ok (set_text cell (Py.or_else text "?"))) ;;
      match message result with
      | Some (String c m) => Ok (set cell "title" (String c m))
      | _ => Ok cell
      end
  | Some _ => Raise ValueError
  end.

(** One row of the matrix: the body of
    [for test_name, test_results in sorted(results_by_test.items())]. *)
Definition build_row (jobs : list string) (qualified_class_name : string)
    (item : string * list CaseResult) : result Element :=
  let '(test_name, test_results) := item in
  let row_anchor := qualified_class_name ++ "." ++ test_name in
  let row_anchor :=
    if (50 <=? String.length row_anchor)%nat then md5sum row_anchor
    else row_anchor in
  let cell :=
    Elem "th" [("class", "test-name")] None
      [Elem "a" [("href", "#" ++ row_anchor)] (Some test_name) []] in
  let results_by_job := group_by String.eqb test_results job in
  cells <- map_result (build_cell results_by_job) jobs ;;
  Ok (Elem "tr" [("id", row_anchor)] None (cell :: cells)).

(** The rows of one class: the body of the loop over
    [sorted(results_by_module_and_class.items())]. *)
Definition build_class (jobs : list string) (multiple_modules : bool)
    (job_row : Element) (item : (string * string) * list CaseResult)
    : result (list Element) :=
  let '((module_name, class_name), class_results) := item in
  let qualified_class_name :=
    if multiple_modules then module_name ++ "." ++ class_name
    else class_name in
  module <- import module_name ;;
  let row_anchor := qualified_class_name in
  let th :=
    Elem "th" [("colspan", Py.str_of_nat (List.length jobs + 1))] None
      [Elem "h2" [] None
         [Elem "a" [("href", "#" ++ row_anchor); ("id", row_anchor)]
            (Some qualified_class_name) []]] in
  cls <- getattr module class_name ;;
  th <- append_docstring th cls ;;
  let header_row := Elem "tr" [] None [th] in
  let results_by_test := group_by String.eqb class_results test_name in
  rows <- map_result (build_row jobs qualified_class_name)
            (Py.sorted_items String.compare results_by_test) ;;
  Ok (header_row :: job_row :: rows).

(** [build_test_table(jobs, results)] *)
Definition build_test_table (jobs : list string) (results : list CaseResult)
    : result Element :=
  let multiple_modules :=
    (1 <? List.length (Py.set_of String.eqb (map module_name results)))%nat in
  let results_by_module_and_class :=
    group_by Py.pair_eqb results (fun r => (module_name r, class_name r)) in
  let job_row :=
    Elem "tr" [] None
      (element "th"
       :: map (fun j =>
                 Elem "th" [("class", "job-name")] None
                   [Elem "div" [] None [Elem "span" [] (Some j) []]])
            jobs) in
  groups <- map_result (build_class jobs multiple_modules job_row)
              (Py.sorted_items (Py.pair_compare String.compare String.compare)
                 results_by_module_and_class) ;;
  Ok (Elem "table" [] None (List.concat groups)).

(** [sorted({result.job for result in results})] *)
Definition jobs_of (results : list CaseResult) : list string :=
  Py.sorted (Py.leb_of String.compare)
    (Py.set_of String.eqb (map job results)).

(** [build_job_html(job, results)] *)
Definition build_job_html (j : string) (results : list CaseResult)
    : result Element :=
  let jobs := jobs_of results in
  table <- build_test_table jobs results ;;
  let table := set table "class" "job-results test-matrix" in
  Ok (Elem "html" [] None
        [ page_head j;
          Elem "body" [] None [Elem "h1" [] (Some j) []; table] ]).

(** [build_module_html(jobs, results, module_name)] *)
Definition build_module_html (jobs : list string)
    (results : list CaseResult) (module_name : string) : result Element :=
  module <- import module_name ;;
  body <- append_docstring
            (Elem "body" [] None [Elem "h1" [] (Some module_name) []])
            (module_doc module) ;;
  table <- build_test_table jobs results ;;
  let table := set table "class" "module-results test-matrix" in
  Ok (Elem "html" [] None [page_head module_name; append body table]).

(** [write_xml_file(filename, root)]; the bytes written are the
    serialization of the root, which is kept as the tree itself. *)
Definition write_xml_file (dir file_name : string) (root : Element)
    : io unit :=
  emit (WriteXml dir file_name
          (set root "xmlns" "http://www.w3.org/1999/xhtml")).

(** The two [any(...)] of the job classifier. *)
Definition is_client (results : list CaseResult) (j : string) : bool :=
  existsb (fun result =>
             Py.contains "client_tests" (module_name result)
             && (job result =? j)) results.

Definition is_server (results : list CaseResult) (j : string) : bool :=
  existsb (fun result =>
             Py.contains "server_tests" (module_name result)
             && (job result =? j)) results.

(** The body of [for job in jobs]: the category that is stored for the job
    in [job_categories]. *)
Definition job_category (results : list CaseResult) (j : string)
    : result category :=
  let is_client := is_client results j in
  let is_server := is_server results j in
  _ <- assert (negb (Bool.eqb is_client is_server)) ;;
  if Py.endswith_any j ["-atheme"; "-anope"; "-dlk"] then
    _ <- assert is_server ;;
    Ok server_with_services
  else if is_server then
    Ok server
  else
    _ <- assert is_client ;;
    Ok client.

Definition classify (results : list CaseResult) (j : string)
    (job_categories : Py.dict string category)
    : result (Py.dict string category) :=
  c <- job_category results j ;;
  Ok (Py.dict_set String.eqb j c job_categories).

(** [job_categories[job]] *)
Definition category_of (job_categories : Py.dict string category)
    (j : string) : result category :=
  match Py.dict_get String.eqb j job_categories with
  | Some c => Ok c
  | None => Raise KeyError
  end.

(** The jobs of the given category among the given ones:
    [[job for job in ... if job_categories[job] == category]] and, with a
    set of categories, [[job for job in jobs if job_categories[job] in
    module_categories]]. *)
Definition jobs_in (job_categories : Py.dict string category)
    (categories : list category) (jobs : list string)
    : result (list string) :=
  flags <- map_result
             (fun j =>
                c <- category_of job_categories j ;;
                Ok (j, existsb (category_eqb c) categories)) jobs ;;
  Ok (map fst (filter snd flags)).

Definition page : Type := (string * string * string)%type.

(** [module_categories] and, from it, [module_jobs]: the columns of the
    page of a module. *)
Definition module_categories_of (results : list CaseResult)
    (job_categories : Py.dict string category) (module_name_ : string)
    : result (list category) :=
  map_result (fun result => category_of job_categories (job result))
    (filter (fun result =>
               (module_name result =? module_name_) && negb (skipped result))
       results).

Definition module_jobs_of (results : list CaseResult) (jobs : list string)
    (job_categories : Py.dict string category) (module_name_ : string)
    : result (list string) :=
  module_categories <-
    module_categories_of results job_categories module_name_ ;;
  jobs_in job_categories module_categories jobs.

(** The body of the loop over [sorted(results_by_module.items())]. *)
Definition write_module_page (output_dir : string)
    (results : list CaseResult) (jobs : list string)
    (job_categories : Py.dict string category)
    (item : string * list CaseResult) (pages : list page)
    : io (list page) :=
  let '(module_name_, module_results) := item in
  module_jobs <~
    lift (module_jobs_of results jobs job_categories module_name_) ;;
  root <~ lift (build_module_html module_jobs module_results module_name_) ;;
  let file_name := module_name_ ++ ".xhtml" in
  _ <~ write_xml_file output_dir file_name root ;;
  io_ret (pages ++ [("module", module_name_, file_name)])%list.

(** [job_results], the results shown on the page of a job. *)
Definition job_results_of (results : list CaseResult) (j : string)
    : list CaseResult :=
  filter (fun result =>
            (job result =? j) || Py.startswith (job result) (j ++ "-"))
    results.

(** The body of the inner loop over the jobs of one category. *)
Definition write_job_page (output_dir : string) (results : list CaseResult)
    (j : string) (pages : list page) : io (list page) :=
  let job_results := job_results_of results j in
  root <~ lift (build_job_html j job_results) ;;
  let file_name := j ++ ".xhtml" in
  _ <~ write_xml_file output_dir file_name root ;;
  io_ret (pages ++ [("job", j, file_name)])%list.

(** [write_html_pages(output_dir, results)] *)
Definition write_html_pages (output_dir : string)
    (results : list CaseResult) : io (list page) :=
  _ <~ emit (Mkdir output_dir) ;;
  let results_by_module := group_by String.eqb results module_name in
  let jobs := jobs_of results in
  job_categories <~ lift (for_each jobs (classify results) []) ;;
  pages <~ io_for_each (Py.sorted_items String.compare results_by_module)
             (write_module_page output_dir results jobs job_categories) [] ;;
  io_for_each [server; client]
    (fun category pages =>
       category_jobs <~
         lift (jobs_in job_categories [category] (map fst job_categories)) ;;
       io_for_each category_jobs (write_job_page output_dir results) pages)
    pages.

(** [write_test_outputs(output_dir, results)] *)
Definition write_test_outputs (output_dir : string)
    (results : list CaseResult) : io unit :=
  io_for_each results
    (fun result _ =>
       match system_out result with
       | None => io_ret tt
       | Some out =>
           f <~ lift (output_filename result) ;;
           emit (WriteText output_dir f out)
       end) tt.

Definition page_compare : page -> page -> comparison :=
  Py.pair_compare (Py.pair_compare String.compare String.compare)
    String.compare.

(** [write_html_index(output_dir, pages)] *)
Definition write_html_index (output_dir : string) (pages : list page)
    : io unit :=
  '(module_pages, job_pages) <~
    lift (for_each (Py.sorted (Py.leb_of page_compare) pages)
            (fun p lists =>
               let '(page_type, title, file_name) := p in
               let '(module_pages, job_pages) := lists in
               if page_type =? "module" then
                 Ok ((module_pages ++ [(title, file_name)])%list, job_pages)
               else if page_type =? "job" then
                 Ok (module_pages, (job_pages ++ [(title, file_name)])%list)
               else Raise AssertionError)
            ([], [])) ;;
  let pair_leb := Py.leb_of (Py.pair_compare String.compare String.compare) in
  dl <~
    lift (for_each (Py.sorted pair_leb module_pages)
            (fun p dl =>
               let '(module_name, file_name) := p in
               module <- import module_name ;;
               let dt :=
                 Elem "dt" [] None
                   [Elem "a" [("href", "./" ++ file_name)] (Some module_name) []]
               in
               dd <- append_docstring (element "dd") (module_doc module) ;;
               Ok (append (append dl dt) dd))
            (Elem "dl" [("class", "module-index")] None [])) ;;
  let ul :=
    Elem "ul" [("class", "job-index")] None
      (map (fun p : string * string =>
              let '(j, file_name) := p in
              Elem "li" [] None
                [Elem "a" [("href", "./" ++ file_name)] (Some j) []])
         (Py.sorted pair_leb job_pages)) in
  let root :=
    Elem "html" [] None
      [ page_head "irctest dashboard";
        Elem "body" [] None
          [ Elem "h1" [] (Some "irctest dashboard") [];
            Elem "h2" [] (Some "Tests by command/specification") [];
            dl;
            Elem "h2" [] (Some "Tests by implementation") [];
            ul ] ] in
  write_xml_file output_dir "index.xhtml" root.

(** [write_assets(output_dir)] *)
Definition write_assets (output_dir : string) : io unit :=
  emit (WriteText output_dir "style.css" style_css).

(** The list comprehension of [main]: the results of every record, in the
    order of the file names. *)
Fixpoint read_results (filenames : list string) : result (list CaseResult) :=
  match filenames with
  | [] => Ok []
  | filename :: filenames' =>
      root <- parse_xml_file filename ;;
      rs <- iter_job_results filename root ;;
      rs' <- read_results filenames' ;;
      Ok (rs ++ rs')%list
  end.

(** [main(output_path, filenames)] *)
Definition main (output_path : string) (filenames : list string) : io nat :=
  results <~ lift (read_results filenames) ;;
  pages <~ write_html_pages output_path results ;;
  _ <~ write_html_index output_path pages ;;
  _ <~ write_test_outputs output_path results ;;
  _ <~ write_assets output_path ;;
  io_ret 0.

End Dashboard.

(** ** Notions the properties are stated with *)

(** An outcome-classification child of a case. *)
Definition is_outcome (child : Element) : bool :=
  (tag child =? "skipped") || (tag child =? "failure")
  || (tag child =? "error").

Definition with_children (e : Element) (cs : list Element) : Element :=
  Elem (tag e) (attrib e) (text e) cs.

(** The variables an outcome child leaves behind; only the captured output
    is carried over. *)
Definition outcome_vars (c : Element) (out : option string) : case_vars :=
  if tag c =? "skipped" then mk_case_vars true true None out (attrib c)
  else mk_case_vars false false (text c) out (attrib c).

Definition no_line_feed (s : string) : Prop := Py.mem_char "010" s = false.

(** [(stable|release|devel|devel_release)] *)
Definition channel : Re.regex :=
  Re.Alt (Re.lit "stable")
    (Re.Alt (Re.lit "release")
       (Re.Alt (Re.lit "devel") (Re.lit "devel_release"))).

(** The file names [job_file_pattern] stands for, with the job name read
    off them: what the pattern says without the order of the search. The
    two dots of the pattern are any character but a line feed, and anything
    may follow the match. *)
Inductive job_file_shape : string -> string -> Prop :=
| job_file_shape_intro prefix c1 c2 name c3 lp ch rp d gz rest :
    (prefix = "" \/ exists p, prefix = p ++ "/" /\ no_line_feed p) ->
    Py.mem_char c1 " -" = true ->
    Py.mem_char c2 " _" = true ->
    no_line_feed name ->
    Py.mem_char c3 " _" = true ->
    (lp = "" \/ lp = "(") ->
    In ch ["stable"; "release"; "devel"; "devel_release"] ->
    (rp = "" \/ rp = ")") ->
    d <> "010"%char ->
    (gz = "" \/ exists d', d' <> "010"%char /\ gz = String d' "gz") ->
    job_file_shape
      (prefix ++ "pytest" ++ String c1 ("results" ++ String c2 (name
       ++ String c3 (lp ++ ch ++ rp ++ "/pytest" ++ String d ("xml" ++ gz
       ++ rest)))))
      name.

(** A continuation that accepts a rest whatever the groups are. *)
Definition always (k : Re.cont) (s : string) : Prop :=
  forall g, k s g <> None.

Fixpoint all_chars (p : ascii -> bool) (s : string) : bool :=
  match s with
  | EmptyString => true
  | String c s' => p c && all_chars p s'
  end.

(** Whether a text ends in a whitespace character. *)
Fixpoint ends_in_space (s : string) : bool :=
  match s with
  | EmptyString => false
  | String c s' =>
      match s' with
      | EmptyString => Py.isspace c
      | String _ _ => ends_in_space s'
      end
  end.

(** [body] is [s] without its trailing whitespace: what was taken off is
    whitespace only, and what is left does not end in whitespace. *)
Definition stripped (s body : string) : Prop :=
  exists spaces,
    s = body ++ spaces
    /\ all_chars Py.isspace spaces = true
    /\ ends_in_space body = false.

(** The second captured output carries on from the first: it starts with
    the first one without its trailing whitespace. *)
Definition carries_on (first second : string) : Prop :=
  exists body rest, stripped first body /\ second = body ++ rest.

(** A test name of the exact shape [identifier[parameters]]. *)
Definition parametrized (name ident params : string) : Prop :=
  name = ident ++ "[" ++ params ++ "]"
  /\ ident <> "" /\ all_chars Re.is_word ident = true /\ params <> "".

(** The test of [output_filename] for a name that needs shortening. *)
Definition needs_shortening (name : string) : bool :=
  (50 <? String.length name)%nat || Py.intersects name NETLIFY_CHAR_BLACKLIST.

(** [f"{job}_{module_name}.{class_name}.{test_name}.txt"] *)
Definition file_name_of (r : CaseResult) (name : string) : string :=
  job r ++ "_" ++ module_name r ++ "." ++ class_name r ++ "." ++ name ++ ".txt".

Definition line_feed : string := String "010" "".
Definition carriage_return : string := String "013" "".

(** What a reader sees of a cell: its style class, its marker (the text of
    the cell or of its link) and the target of its link. *)
Definition cell_class (cell : Element) : option string := get cell "class".

Definition cell_marker (cell : Element) : option string :=
  match children cell with
  | [a] => text a
  | _ => text cell
  end.

Definition cell_link (cell : Element) : option string :=
  match children cell with
  | [a] => get a "href"
  | _ => None
  end.

(** The marker of a cell as the specification words it: [d] without a
    result; for a skipped result [X] when it is an expected failure and
    [s] otherwise; [.] for a success and [f] for a failure; a non-empty
    type in place of these defaults. *)
Definition stated_marker (o : option CaseResult) : string :=
  match o with
  | None => "d"
  | Some r =>
      if skipped r then
        match type r with
        | Some t =>
            if t =? "pytest.xfail" then "X"
            else if t =? "pytest.skip" then "s"
            else Py.or_else (Some t) "s"
        | None => "s"
        end
      else if success r then Py.or_else (type r) "."
      else Py.or_else (type r) "f"
  end.

(** The laws of a three-way comparison that make [leb_of] a total order. *)
Record order_laws (A : Type) (cmp : A -> A -> comparison) : Prop := {
  cmp_eq : forall x y, cmp x y = Eq -> x = y;
  cmp_antisym : forall x y, cmp x y = CompOpp (cmp y x);
  cmp_lt_trans : forall x y z, cmp x y = Lt -> cmp y z = Lt -> cmp x z = Lt
}.

(** [x <= y] for the order of [sorted]. *)
Definition le_of {A : Type} (cmp : A -> A -> comparison) (x y : A) : Prop :=
  Py.leb_of cmp x y = true.

(** The two tests of the job classifier as the specification words them:
    over the results of the job that are not skipped. *)
Definition stated_is_client (results : list CaseResult) (j : string) : bool :=
  existsb (fun result =>
             negb (skipped result)
             && Py.contains "client_tests" (module_name result)
             && (job result =? j)) results.

Definition stated_is_server (results : list CaseResult) (j : string) : bool :=
  existsb (fun result =>
             negb (skipped result)
             && Py.contains "server_tests" (module_name result)
             && (job result =? j)) results.

(** The root of a document as [write_xml_file] writes it. *)
Definition with_namespace (root : Element) : Element :=
  set root "xmlns" "http://www.w3.org/1999/xhtml".

Definition module_page (m : string) : page := ("module", m, m ++ ".xhtml").

Definition job_page (j : string) : page := ("job", j, j ++ ".xhtml").

(** The document a file of the output directory holds in the end: the
    last one written to it. *)
Definition last_xml (log : list effect) (dir file_name : string)
    : option Element :=
  fold_left
    (fun found e =>
       match e with
       | WriteXml d f root =>
           if (d =? dir) && (f =? file_name) then Some root else found
       | _ => found
       end) log None.

(** The results of one module, in their order. *)
Definition module_results_of (results : list CaseResult) (m : string)
    : list CaseResult :=
  filter (fun r => module_name r =? m) results.

(** The category a job got, when it got one. *)
Definition category_is (results : list CaseResult) (j : string)
    (c : category) : Prop :=
  job_category results j = Ok c.

(** The jobs that get a page: the servers, then the clients, each group in
    the order of the jobs. *)
Definition paged_jobs (results : list CaseResult) : list string :=
  (filter (fun j => match job_category results j with
                    | Ok server => true
                    | _ => false
                    end) (jobs_of results)
   ++ filter (fun j => match job_category results j with
                       | Ok client => true
                       | _ => false
                       end) (jobs_of results))%list.

(** ** Small inputs the properties are tried on *)

(** A passing result without captured output. *)
Definition sample_result (j m c t : string) : CaseResult :=
  mk_CaseResult m c t j true false None None None None.

(** A catalog in which every module and class exists and has no docstring. *)
Definition plain_catalog (name : string) : option module_object :=
  Some (mk_module_object None (fun _ => Some None)).

Definition plain_rst (s : string) : result Element :=
  Ok (Elem "div" [("class", "document")] (Some s) []).

(** The record of the scenario: one suite with one passing case. *)
Definition scenario_path : string :=
  "pytest-results_foo-server_(stable)/pytest.xml".

Definition scenario_case : Element :=
  Elem "testcase"
    [("classname", "irctest.server_tests.x.T"); ("name", "test_a")] None [].

Definition scenario_suite : Element :=
  Elem "testsuite" [] None [scenario_case].

Definition scenario_root : Element :=
  Elem "testsuites" [] None [scenario_suite].

(** A server and the same server with services, one result each. *)
Definition two_servers : list CaseResult :=
  [ sample_result "foo" "irctest.server_tests.x" "T" "test_a";
    sample_result "foo-atheme" "irctest.server_tests.x" "T" "test_a" ].

(** A case that was skipped: pytest writes its captured output twice, the
    second time with the output of the teardown. *)
Definition skipped_case : Element :=
  Elem "testcase"
    [("classname", "irctest.server_tests.x.T"); ("name", "test_b")] None
    [ Elem "system-out" [] (Some ("setup" ++ String "010" "")) [];
      Elem "skipped" [("type", "pytest.skip"); ("message", "no")] None [];
      Elem "system-out" [] (Some ("setup" ++ String "010" "teardown")) [] ].


(** An expected failure. *)
Definition xfail_result : CaseResult :=
  mk_CaseResult "irctest.server_tests.x" "T" "test_a" "foo-server"
    true true None None (Some "pytest.xfail") None.

(** A result whose captured output is empty. *)
Definition silent_result : CaseResult :=
  mk_CaseResult "irctest.server_tests.x" "T" "test_a" "foo-server"
    true false (Some "") None None None.

(** A case whose second captured output needs the first one stripped, and
    one whose second captured output is shorter than the first. *)
Definition teardown_case : Element :=
  Elem "testcase"
    [("classname", "irctest.server_tests.x.T"); ("name", "test_g")] None
    [ Elem "system-out" [] (Some ("setup" ++ String "010" (String "010" ""))) [];
      Elem "skipped" [("type", "pytest.skip")] None [];
      Elem "system-out" [] (Some ("setup" ++ String "010" "teardown")) [] ].

Definition shrunk_case : Element :=
  Elem "testcase"
    [("classname", "irctest.server_tests.x.T"); ("name", "test_h")] None
    [ Elem "system-out" [] (Some ("abc " ++ String "010" "")) [];
      Elem "system-out" [] (Some "abc") [] ].

(** A case whose first captured output is blank and whose second is an
    element without any text. *)
Definition blank_case : Element :=
  Elem "testcase"
    [("classname", "irctest.server_tests.x.T"); ("name", "test_i")] None
    [ Elem "system-out" [] (Some (" " ++ String "010" "")) [];
      Elem "system-out" [] None [] ].

(** ** The script

    What the file does when it is run: the block under
    [if __name__ == ...] at its end. *)

(** [(_, output_path, *filenames) = sys.argv] and then
    [exit(main(Path(output_path), list(map(Path, filenames))))] *)
Definition script (import_module : string -> option module_object)
    (rst_to_element : string -> result Element) (style_css : string)
    (parse_xml_file : string -> result Element) (argv : list string)
    : io nat :=
  match argv with
  | _ :: output_path :: filenames =>
      main import_module rst_to_element style_css parse_xml_file
        output_path filenames
  | _ => lift (Raise ValueError)
  end.

(** ** Further notions the properties are stated with *)

(** A case that bears a name, the only kind the parser reads. *)
Definition has_name (case : Element) : bool :=
  match get case "name" with
  | Some _ => true
  | None => false
  end.

(** A record without the cases that bear no name. *)
Definition named_only (root : Element) : Element :=
  with_children root
    (map (fun suite =>
            with_children suite (filter has_name (children suite)))
       (children root)).

(** The names of the cases that bear one, in their order. *)
Definition case_names (cases : list Element) : list string :=
  flat_map (fun case =>
              match get case "name" with
              | Some name => [name]
              | None => []
              end) cases.

(** A child of a case the parser knows what to do with. *)
Definition known_child (child : Element) : bool :=
  is_outcome child || (tag child =? "system-out").

(** An attribute of an outcome child that is a field of [CaseResult] left
    for it. *)
Definition result_field (kv : string * string) : bool :=
  (fst kv =? "type") || (fst kv =? "message").

(** A test name that starts as [identifier[parameters]] does, with
    anything after the closing bracket. *)
Definition bracketed (name ident params tail : string) : Prop :=
  name = ident ++ "[" ++ params ++ "]" ++ tail
  /\ ident <> "" /\ all_chars Re.is_word ident = true
  /\ params <> "" /\ no_line_feed params.

(** A character of the URL-safe base64 alphabet, or the padding. *)
Definition base64_char (c : ascii) : bool :=
  Py.mem_char c Hash.alphabet || (c =? "=")%char.

(** A result whose captured output is there, empty or not. *)
Definition has_output (r : CaseResult) : bool :=
  match system_out r with
  | Some _ => true
  | None => false
  end.

Definition xhtml_namespace : string := "http://www.w3.org/1999/xhtml".

(** The index of a run without any page. *)
Definition empty_index : Element :=
  Elem "html" [("xmlns", xhtml_namespace)] None
    [ page_head "irctest dashboard";
      Elem "body" [] None
        [ Elem "h1" [] (Some "irctest dashboard") [];
          Elem "h2" [] (Some "Tests by command/specification") [];
          Elem "dl" [("class", "module-index")] None [];
          Elem "h2" [] (Some "Tests by implementation") [];
          Elem "ul" [("class", "job-index")] None [] ] ].

(** The title and the file name of the pages of one type. *)
Definition pages_of_type (page_type : string) (pages : list page)
    : list (string * string) :=
  map (fun p : page => (snd (fst p), snd p))
    (filter (fun p : page => fst (fst p) =? page_type) pages).

(** The entries of the index: for a job a list item with a link, for a
    module a term with a link and then its description. *)
Definition index_job_item (p : string * string) : Element :=
  Elem "li" [] None [Elem "a" [("href", "./" ++ snd p)] (Some (fst p)) []].

Definition index_module_item (p : (string * string) * Element)
    : list Element :=
  [ Elem "dt" [] None
      [Elem "a" [("href", "./" ++ snd (fst p))] (Some (fst (fst p))) []];
    snd p ].

(** The text of the last captured output among the children of a case. *)
Definition last_output (cs : list Element) : option string :=
  fold_left (fun found c => if tag c =? "system-out" then text c else found)
    cs None.

(** What the loop over the children keeps true of its variables: a skip
    is a success, and a success has no details. *)
Definition coherent (v : case_vars) : Prop :=
  (v_skipped v = true -> v_success v = true)
  /\ (v_success v = true -> v_details v = None).

(** ** More small inputs *)

(** The results of the scenario and of the skipped case. *)
Definition scenario_result : CaseResult :=
  mk_CaseResult "irctest.server_tests.x" "T" "test_a" "foo-server"
    true false None None None None.

Definition skipped_result : CaseResult :=
  mk_CaseResult "irctest.server_tests.x" "T" "test_b" "foo-server"
    true true (Some ("setup" ++ String "010" "teardown")) None
    (Some "pytest.skip") (Some "no").

(** A record in which an element that is no case stands before two
    cases. *)
Definition mixed_suite : Element :=
  Elem "testsuite" [] None
    [ Elem "properties" [] None [Elem "property" [("k", "v")] None []];
      scenario_case; skipped_case ].

Definition mixed_root : Element := Elem "testsuites" [] None [mixed_suite].

(** The record of a single case. *)
Definition record_of (case : Element) : Element :=
  Elem "testsuites" [] None [Elem "testsuite" [] None [case]].

(** Cases the parser refuses: one with a child it does not know, one whose
    skip carries an attribute that is no field of a result, one whose
    class name holds no dot. *)
Definition odd_case : Element :=
  Elem "testcase"
    [("classname", "irctest.server_tests.x.T"); ("name", "test_d")] None
    [Elem "properties" [] None []].

Definition annotated_case : Element :=
  Elem "testcase"
    [("classname", "irctest.server_tests.x.T"); ("name", "test_e")] None
    [Elem "skipped" [("type", "pytest.skip"); ("reason", "later")] None []].

Definition flat_case : Element :=
  Elem "testcase" [("classname", "T"); ("name", "test_f")] None [].

(** A failure with its log and its message. *)
Definition logged_result : CaseResult :=
  mk_CaseResult "irctest.server_tests.x" "T" "test_a" "foo-server"
    false false (Some "log") (Some "traceback") None (Some "boom").

(** A result with a captured output whose name cannot be shortened. *)
Definition unnameable_result : CaseResult :=
  mk_CaseResult "irctest.server_tests.x" "T" "a:b" "foo-server"
    true false (Some "log") None None None.

(** A store that holds the record of the scenario under its file name,
    and a record without any suite under every other name. *)
Definition sample_parse (filename : string) : result Element :=
  if filename =? scenario_path then Ok scenario_root
  else Ok (Elem "testsuites" [] None []).

(** * Properties

    ** The loop over the children of a case *)

Lemma bind_ok A B (m : result A) (f : A -> result B) b :
  bind m f = Ok b -> exists a, m = Ok a /\ f a = Ok b.
Proof. destruct m; simpl; intros H; [eauto | discriminate]. Qed.

Lemma for_each_app A S (l1 l2 : list A) (body : A -> S -> result S) s :
  for_each (l1 ++ l2) body s = bind (for_each l1 body s) (for_each l2 body).
Proof.
  revert s; induction l1 as [|x l1 IH]; intros s; simpl; [reflexivity|].
  destruct (body x s); simpl; auto.
Qed.

Lemma child_step_outcome c v :
  is_outcome c = true ->
  child_step c v = Ok (outcome_vars c (v_system_out v)).
Proof.
  unfold is_outcome, child_step, outcome_vars.
  destruct (tag c =? "skipped"); [reflexivity|].
  simpl. intros H. rewrite H. reflexivity.
Qed.

(** What a child that is no outcome does depends on the variables only
    through the captured output, and it passes the others on. *)
Lemma child_step_other c v v' :
  is_outcome c = false ->
  v_system_out v = v_system_out v' ->
  match child_step c v, child_step c v' with
  | Ok w, Ok w' =>
      v_system_out w = v_system_out w' /\
      w = mk_case_vars (v_success v) (v_skipped v) (v_details v)
            (v_system_out w) (v_extra v) /\
      w' = mk_case_vars (v_success v') (v_skipped v') (v_details v')
            (v_system_out w') (v_extra v')
  | Raise e, Raise e' => e = e'
  | _, _ => False
  end.
Proof.
  unfold is_outcome, child_step. intros H Hv.
  destruct (tag c =? "skipped"); [discriminate|].
  simpl in H. rewrite H.
  destruct (tag c =? "system-out"); [|reflexivity].
  rewrite <- Hv.
  destruct (v_system_out v) as [previous|]; simpl.
  - destruct (text c) as [t|]; simpl; [|reflexivity].
    destruct (Py.startswith t (Py.rstrip previous)); simpl; auto.
  - auto.
Qed.





Lemma new_CaseResult_ok m c n j su sk d so ex r :
  new_CaseResult m c n j su sk d so ex = Ok r ->
  r = mk_CaseResult m c n j su sk so d
        (Py.dict_get String.eqb "type" ex)
        (Py.dict_get String.eqb "message" ex).
Proof.
  unfold new_CaseResult.
  destruct (forallb _ ex); intros H; inversion H; reflexivity.
Qed.

Lemma yield_result_ok path case name v r :
  yield_result path case name v = Ok r ->
  test_name r = name /\ success r = v_success v /\ skipped r = v_skipped v
  /\ details r = v_details v /\ system_out r = v_system_out v
  /\ type r = Py.dict_get String.eqb "type" (v_extra v)
  /\ message r = Py.dict_get String.eqb "message" (v_extra v)
  /\ exists m, Re.rmatch job_file_pattern path = Some m
               /\ Re.group "name" m = Some (job r).
Proof.
  unfold yield_result. intros H.
  apply bind_ok in H as (classname & _ & H).
  apply bind_ok in H as ([mn cn] & _ & H).
  apply bind_ok in H as (m & Hm & H).
  apply bind_ok in H as (j & Hj & H).
  apply new_CaseResult_ok in H. subst r. simpl.
  repeat split; try reflexivity.
  exists m. split.
  - destruct (Re.rmatch job_file_pattern path); inversion Hm; reflexivity.
  - destruct (Re.group "name" m); inversion Hj; reflexivity.
Qed.


Lemma for_each_outcomes_out cs : forall v,
  forallb is_outcome cs = true ->
  exists w, for_each cs child_step v = Ok w
            /\ v_system_out w = v_system_out v.
Proof.
  induction cs as [|x cs IH]; intros v H; simpl.
  - eauto.
  - simpl in H. apply andb_prop in H as [Hx H].
    rewrite child_step_outcome by assumption. simpl.
    destruct (IH (outcome_vars x (v_system_out v)) H) as (w & Hw & Ho).
    exists w. split; [assumption|]. rewrite Ho.
    unfold outcome_vars. destruct (tag x =? "skipped"); reflexivity.
Qed.

Lemma child_step_system_out c v :
  tag c = "system-out" ->
  child_step c v
  = (_ <- match v_system_out v with
          | None => Ok tt
          | Some previous =>
              match text c with
              | Some t => assert (Py.startswith t (Py.rstrip previous))
              | None => Raise AttributeError
              end
          end ;;
     Ok (mk_case_vars (v_success v) (v_skipped v) (v_details v) (text c)
           (v_extra v))).
Proof. intros H. unfold child_step. rewrite H. reflexivity. Qed.

(** What [rstrip] takes off and what it leaves. *)
Lemma rstrip_splits s :
  exists spaces,
    s = Py.rstrip s ++ spaces /\ all_chars Py.isspace spaces = true.
Proof.
  induction s as [|c s (ws & E & Hws)]; [exists ""; split; reflexivity|].
  cbn [Py.rstrip]. destruct (Py.rstrip s) as [|d t] eqn:R.
  - cbn [String.append] in E. subst ws.
    destruct (Py.isspace c) eqn:Hc.
    + exists (String c s). split; [reflexivity|].
      cbn [all_chars]. rewrite Hc, Hws. reflexivity.
    + exists s. split; [reflexivity | exact Hws].
  - exists ws. split; [|exact Hws]. cbn [String.append]. f_equal. exact E.
Qed.

Lemma rstrip_ends_in_no_space s : ends_in_space (Py.rstrip s) = false.
Proof.
  induction s as [|c s IH]; [reflexivity|].
  cbn [Py.rstrip]. destruct (Py.rstrip s) as [|d t] eqn:R.
  - destruct (Py.isspace c) eqn:Hc; [reflexivity|]. cbn. exact Hc.
  - exact IH.
Qed.

Lemma rstrip_spaces s : all_chars Py.isspace s = true -> Py.rstrip s = "".
Proof.
  induction s as [|c s IH]; [reflexivity|].
  cbn [all_chars Py.rstrip]. intros H. apply andb_true_iff in H as [Hc Hs].
  rewrite (IH Hs), Hc. reflexivity.
Qed.

Lemma rstrip_append body : forall spaces,
  all_chars Py.isspace spaces = true -> ends_in_space body = false ->
  Py.rstrip (body ++ spaces) = body.
Proof.
  induction body as [|c b IH]; intros ws Hws Hb.
  - apply rstrip_spaces. exact Hws.
  - cbn [String.append Py.rstrip]. destruct b as [|d b'].
    + cbn [String.append]. rewrite (rstrip_spaces _ Hws).
      cbn [ends_in_space] in Hb. rewrite Hb. reflexivity.
    + rewrite (IH ws Hws Hb). reflexivity.
Qed.

(** [Py.rstrip] takes off the trailing whitespace and nothing else. *)
Lemma rstrip_stripped s body : stripped s body <-> body = Py.rstrip s.
Proof.
  split.
  - intros (ws & -> & Hws & Hb). symmetry. apply rstrip_append; assumption.
  - intros ->. destruct (rstrip_splits s) as (ws & E & Hws).
    exists ws. split; [exact E|]. split; [exact Hws|].
    apply rstrip_ends_in_no_space.
Qed.

Lemma prefix_append p : forall s,
  String.prefix p s = true <-> exists rest, s = p ++ rest.
Proof.
  induction p as [|c p IH]; intros s.
  - split; [exists s; reflexivity|]. destruct s; reflexivity.
  - destruct s as [|d s]; cbn [String.prefix].
    + split; [discriminate | intros (rest & H); discriminate].
    + destruct (ascii_dec c d) as [->|N].
      * rewrite IH. split; intros (rest & H); exists rest.
        -- cbn [String.append]. f_equal. exact H.
        -- cbn [String.append] in H. injection H as H. exact H.
      * split; [discriminate|]. intros (rest & H).
        cbn [String.append] in H. injection H as H _. congruence.
Qed.

Lemma startswith_rstrip first second :
  Py.startswith second (Py.rstrip first) = true <-> carries_on first second.
Proof.
  unfold Py.startswith, carries_on. rewrite prefix_append. split.
  - intros (rest & ->). exists (Py.rstrip first), rest.
    split; [apply rstrip_stripped; reflexivity | reflexivity].
  - intros (body & rest & Hs & ->). apply rstrip_stripped in Hs. subst body.
    exists rest. reflexivity.
Qed.

(** The loop over the children of a case with two captured outputs and
    outcome children around them. *)
Lemma for_each_two_outputs pre mid post o1 o2 :
  forallb is_outcome (pre ++ mid ++ post) = true ->
  tag o1 = "system-out" -> tag o2 = "system-out" ->
  match text o1, text o2 with
  | Some t1, Some t2 =>
      if Py.startswith t2 (Py.rstrip t1) then
        exists w, for_each (pre ++ o1 :: mid ++ o2 :: post) child_step
                    case_vars_init = Ok w
                  /\ v_system_out w = Some t2
      else
        for_each (pre ++ o1 :: mid ++ o2 :: post) child_step case_vars_init
        = Raise AssertionError
  | Some t1, None =>
      for_each (pre ++ o1 :: mid ++ o2 :: post) child_step case_vars_init
      = Raise AttributeError
  | None, t2 =>
      exists w, for_each (pre ++ o1 :: mid ++ o2 :: post) child_step
                  case_vars_init = Ok w
                /\ v_system_out w = t2
  end.
Proof.
  intros Hall H1 H2.
  rewrite !forallb_app in Hall.
  apply andb_prop in Hall as [Hpre Hall].
  apply andb_prop in Hall as [Hmid Hpost].
  destruct (for_each_outcomes_out pre case_vars_init Hpre) as (w0 & E0 & O0).
  set (w1 := mk_case_vars (v_success w0) (v_skipped w0) (v_details w0)
               (text o1) (v_extra w0)).
  destruct (for_each_outcomes_out mid w1 Hmid) as (w2 & E2 & O2).
  set (w3 := mk_case_vars (v_success w2) (v_skipped w2) (v_details w2)
               (text o2) (v_extra w2)).
  destruct (for_each_outcomes_out post w3 Hpost) as (w4 & E4 & O4).
  rewrite for_each_app, E0. simpl.
  rewrite (child_step_system_out o1 w0 H1), O0. simpl.
  fold w1. rewrite for_each_app, E2. simpl.
  rewrite (child_step_system_out o2 w2 H2), O2. simpl.
  destruct (text o1) as [t1|]; simpl.
  - destruct (text o2) as [t2|]; simpl; [|reflexivity].
    destruct (Py.startswith t2 (Py.rstrip t1)); simpl; [|reflexivity].
    exists w4. split; [exact E4|]. rewrite O4. reflexivity.
  - exists w4. split; [exact E4|]. rewrite O4. reflexivity.
Qed.

(** ** The search of [re.match] against the meaning of the patterns *)

Lemma append_assoc (a b c : string) : (a ++ b) ++ c = a ++ (b ++ c).
Proof. induction a; simpl; congruence. Qed.

Lemma length_append (a b : string) :
  String.length (a ++ b) = String.length a + String.length b.
Proof. induction a; simpl; congruence. Qed.

Lemma substring_prefix (a b : string) :
  substring 0 (String.length a) (a ++ b) = a.
Proof.
  induction a; simpl.
  - destruct b; reflexivity.
  - congruence.
Qed.

Lemma consumed_append (a b : string) : Re.consumed (a ++ b) b = a.
Proof.
  unfold Re.consumed. rewrite length_append.
  replace (String.length a + String.length b - String.length b)
    with (String.length a) by lia.
  apply substring_prefix.
Qed.

Lemma star_greedy_sound cl s : forall g k res,
  Re.star_greedy cl s g k = Some res ->
  exists s1 s2, s = s1 ++ s2 /\ Re.matches (Re.Star cl) s1 g g
                /\ k s2 g = Some res.
Proof.
  induction s as [|c s IH]; intros g k res H; simpl in H.
  - exists "", "". repeat split; [constructor | assumption].
  - destruct (Re.accepts cl c) eqn:Hc.
    + destruct (Re.star_greedy cl s g k) as [r|] eqn:E.
      * inversion H; subst r. apply IH in E as (s1 & s2 & -> & Hm & Hk).
        exists (String c s1), s2. repeat split; [|assumption].
        constructor; assumption.
      * exists "", (String c s). repeat split; [constructor | assumption].
    + exists "", (String c s). repeat split; [constructor | assumption].
Qed.

Lemma star_lazy_sound cl s : forall g k res,
  Re.star_lazy cl s g k = Some res ->
  exists s1 s2, s = s1 ++ s2 /\ Re.matches (Re.Star cl) s1 g g
                /\ k s2 g = Some res.
Proof.
  induction s as [|c s IH]; intros g k res H; simpl in H.
  - destruct (k "" g) eqn:E; [|discriminate].
    exists "", "". repeat split; [constructor | congruence].
  - destruct (k (String c s) g) eqn:E.
    + exists "", (String c s). repeat split; [constructor | congruence].
    + destruct (Re.accepts cl c) eqn:Hc; [|discriminate].
      apply IH in H as (s1 & s2 & -> & Hm & Hk).
      exists (String c s1), s2. repeat split; [|assumption].
      constructor; assumption.
Qed.

Lemma one_sound cl s g k res :
  Re.one cl s g k = Some res ->
  exists c s', s = String c s' /\ Re.accepts cl c = true
               /\ k s' g = Some res.
Proof.
  destruct s as [|c s]; simpl; [discriminate|].
  destruct (Re.accepts cl c) eqn:Hc; [|discriminate]. eauto.
Qed.

(** Whatever the search returns is a match of the pattern on a prefix of
    the input, followed by what the continuation accepts. *)
Lemma run_sound r : forall s g k res,
  Re.run r s g k = Some res ->
  exists s1 s2 g', s = s1 ++ s2 /\ Re.matches r s1 g g'
                   /\ k s2 g' = Some res.
Proof.
  induction r; intros s g k res H; simpl in H.
  - exists "", s, g. repeat split; [constructor | assumption].
  - apply one_sound in H as (c0 & s' & -> & Hc & Hk).
    exists (String c0 ""), s', g. repeat split; [constructor|]; assumption.
  - apply IHr1 in H as (s1 & s2 & g1 & -> & Hm1 & H).
    apply IHr2 in H as (s3 & s4 & g2 & -> & Hm2 & H).
    exists (s1 ++ s3), s4, g2. rewrite append_assoc.
    repeat split; [econstructor; eassumption | assumption].
  - destruct (Re.run r1 s g k) as [x|] eqn:E.
    + inversion H; subst x. apply IHr1 in E as (s1 & s2 & g1 & -> & Hm & Hk).
      exists s1, s2, g1. repeat split; [apply Re.m_alt_l|]; assumption.
    + apply IHr2 in H as (s1 & s2 & g1 & -> & Hm & Hk).
      exists s1, s2, g1. repeat split; [apply Re.m_alt_r|]; assumption.
  - destruct (Re.run r s g k) as [x|] eqn:E.
    + inversion H; subst x. apply IHr in E as (s1 & s2 & g1 & -> & Hm & Hk).
      exists s1, s2, g1. repeat split; [apply Re.m_opt_some|]; assumption.
    + exists "", s, g. repeat split; [apply Re.m_opt_none | assumption].
  - apply star_greedy_sound in H as (s1 & s2 & -> & Hm & Hk).
    exists s1, s2, g. auto.
  - apply one_sound in H as (c0 & s' & -> & Hc & H).
    apply star_greedy_sound in H as (s1 & s2 & -> & Hm & Hk).
    exists (String c0 s1), s2, g. repeat split; [|assumption].
    constructor; assumption.
  - apply one_sound in H as (c0 & s' & -> & Hc & H).
    apply star_lazy_sound in H as (s1 & s2 & -> & Hm & Hk).
    exists (String c0 s1), s2, g. repeat split; [|assumption].
    constructor; assumption.
  - apply IHr in H as (s1 & s2 & g1 & -> & Hm & Hk).
    exists s1, s2, g1. repeat split; [constructor|]; assumption.
  - apply IHr in H as (s1 & s2 & g1 & -> & Hm & Hk).
    rewrite consumed_append in Hk.
    exists s1, s2, ((name, s1) :: g1). repeat split; [constructor|]; assumption.
Qed.

Lemma rmatch_sound r s m :
  Re.rmatch r s = Some m ->
  exists s1 s2, s = s1 ++ s2 /\ Re.matches r s1 [] m.
Proof.
  unfold Re.rmatch. intros H.
  apply run_sound in H as (s1 & s2 & g' & -> & Hm & Hk).
  inversion Hk; subst. eauto.
Qed.

Lemma matches_any_groups r s g g' :
  Re.matches r s g g' -> forall h, exists h', Re.matches r s h h'.
Proof.
  induction 1; intros h.
  - eexists; constructor.
  - eexists; constructor; assumption.
  - destruct (IHmatches1 h) as (h1 & H1).
    destruct (IHmatches2 h1) as (h2 & H2).
    eexists; econstructor; eassumption.
  - destruct (IHmatches h) as (h1 & H1). eexists; apply Re.m_alt_l; eassumption.
  - destruct (IHmatches h) as (h1 & H1). eexists; apply Re.m_alt_r; eassumption.
  - destruct (IHmatches h) as (h1 & H1). eexists; apply Re.m_opt_some; eassumption.
  - eexists; apply Re.m_opt_none.
  - eexists; apply Re.m_star_nil.
  - destruct (IHmatches h) as (h1 & H1). exists h.
    inversion H1; subst; constructor; try assumption; constructor; assumption.
  - destruct (IHmatches h) as (h1 & H1). exists h.
    inversion H1; subst; constructor; try assumption; constructor; assumption.
  - destruct (IHmatches h) as (h1 & H1). exists h.
    inversion H1; subst; constructor; try assumption; constructor; assumption.
  - destruct (IHmatches h) as (h1 & H1). eexists; constructor; eassumption.
  - destruct (IHmatches h) as (h1 & H1). eexists; constructor; eassumption.
Qed.

Lemma star_lazy_complete cl s : forall g s2 k,
  Re.matches (Re.Star cl) s g g -> always k s2 ->
  Re.star_lazy cl (s ++ s2) g k <> None.
Proof.
  induction s as [|c s IH]; intros g s2 k Hm Hk.
  - simpl. destruct s2; simpl; (destruct (k _ g) eqn:E; [discriminate|]);
      exfalso; apply (Hk g E).
  - inversion Hm; subst. simpl.
    destruct (k (String c (s ++ s2)) g); [discriminate|].
    rewrite H2. apply IH; assumption.
Qed.

(** The search finds a match whenever the pattern has one on a prefix that
    the continuation accepts the rest of. *)
Lemma run_complete r s g g' :
  Re.matches r s g g' ->
  forall h rest k, always k rest -> Re.run r (s ++ rest) h k <> None.
Proof.
  induction 1; intros h rest k Hk; simpl.
  - apply Hk.
  - rewrite H. apply Hk.
  - rewrite append_assoc. apply IHmatches1.
    intros h'. apply IHmatches2. assumption.
  - destruct (Re.run r1 (s ++ rest) h k) eqn:E; [discriminate|].
    exfalso. apply (IHmatches h rest k Hk E).
  - destruct (Re.run r1 (s ++ rest) h k) eqn:E; [discriminate|].
    apply IHmatches. assumption.
  - destruct (Re.run r (s ++ rest) h k) eqn:E; [discriminate|].
    exfalso. apply (IHmatches h rest k Hk E).
  - destruct (Re.run r rest h k) eqn:E; [discriminate|]. apply Hk.
  - destruct rest; simpl; [apply Hk|].
    destruct (Re.accepts cl a); [|apply Hk].
    destruct (Re.star_greedy cl rest h k); [discriminate | apply Hk].
  - rewrite H.
    specialize (IHmatches h rest k Hk). simpl in IHmatches.
    destruct (Re.star_greedy cl (s ++ rest) h k); [discriminate | contradiction].
  - rewrite H. apply (IHmatches h rest k Hk).
  - rewrite H. apply star_lazy_complete; [|assumption].
    destruct (matches_any_groups H0 h) as (h' & Hh).
    inversion Hh; subst; constructor; assumption.
  - apply IHmatches. assumption.
  - apply IHmatches. intros h'. apply Hk.
Qed.

Lemma rmatch_complete r s g g' rest :
  Re.matches r s g g' -> Re.rmatch r (s ++ rest) <> None.
Proof.
  intros H. unfold Re.rmatch. apply (run_complete H).
  intros h. discriminate.
Qed.

Lemma matches_lit w : forall s g g',
  Re.matches (Re.lit w) s g g' <-> s = w /\ g' = g.
Proof.
  induction w as [|c w IH]; intros s g g'; simpl; split.
  - intros H; inversion H; auto.
  - intros [-> ->]; constructor.
  - intros H; inversion H; subst.
    match goal with H1 : Re.matches (Re.Cls _) _ _ _ |- _ => inversion H1; subst end.
    match goal with H2 : Re.matches (Re.lit _) _ _ _ |- _ => apply IH in H2 as [-> ->] end.
    simpl in *.
    match goal with H3 : (_ =? _)%char = true |- _ => apply Ascii.eqb_eq in H3; subst end.
    auto.
  - intros [-> ->].
    change (String c w) with (String c "" ++ w).
    econstructor; [constructor; simpl; apply Ascii.eqb_refl | apply IH; auto].
Qed.

Lemma accepts_dot c : Re.accepts Re.Dot c = true <-> c <> "010"%char.
Proof.
  change (Re.accepts Re.Dot c) with (negb (c =? "010")%char).
  rewrite negb_true_iff. apply Ascii.eqb_neq.
Qed.

Lemma no_line_feed_cons c s :
  no_line_feed (String c s) <-> c <> "010"%char /\ no_line_feed s.
Proof.
  unfold no_line_feed.
  change (Py.mem_char "010" (String c s))
    with (("010" =? c)%char || Py.mem_char "010" s).
  rewrite orb_false_iff, Ascii.eqb_neq.
  split; intros [H1 H2]; split; auto.
Qed.

Lemma matches_star_dot s : forall g g',
  Re.matches (Re.Star Re.Dot) s g g' <-> no_line_feed s /\ g' = g.
Proof.
  induction s as [|c s IH]; intros g g'; split.
  - intros H; inversion H; subst; split; reflexivity.
  - intros [_ ->]; constructor.
  - intros H; inversion H; subst.
    match goal with H1 : Re.matches (Re.Star _) _ _ _ |- _ => apply IH in H1 as [H1 _] end.
    split; [|reflexivity]. apply no_line_feed_cons. split; [|assumption].
    apply accepts_dot; assumption.
  - intros [H ->]. apply no_line_feed_cons in H as [Hc Hs].
    constructor; [apply accepts_dot; assumption | apply IH; auto].
Qed.

Lemma matches_cls cl s g g' :
  Re.matches (Re.Cls cl) s g g'
  <-> exists c, s = String c "" /\ Re.accepts cl c = true /\ g' = g.
Proof.
  split.
  - intros H; inversion H; subst; eauto.
  - intros (c & -> & H & ->); constructor; assumption.
Qed.

Lemma matches_opt_paren p s g g' :
  Re.matches (Re.Opt (Re.Cls (Re.OneOf (String p "")))) s g g'
  <-> (s = "" \/ s = String p "") /\ g' = g.
Proof.
  split.
  - intros H; inversion H; subst; [|auto].
    match goal with H1 : Re.matches (Re.Cls _) _ _ _ |- _ =>
      apply (proj1 (matches_cls _ _ _ _)) in H1 as (c & -> & Hc & ->) end.
    simpl in Hc. rewrite orb_false_r in Hc. apply Ascii.eqb_eq in Hc.
    subst; auto.
  - intros [[-> | ->] ->]; [apply Re.m_opt_none|].
    apply Re.m_opt_some. constructor. simpl. rewrite Ascii.eqb_refl. reflexivity.
Qed.

Lemma matches_seq r1 r2 s g g' :
  Re.matches (r1 ~> r2) s g g'
  <-> exists s1 s2 g1, s = s1 ++ s2 /\ Re.matches r1 s1 g g1
                       /\ Re.matches r2 s2 g1 g'.
Proof.
  split.
  - intros H; inversion H; subst; eauto 6.
  - intros (s1 & s2 & g1 & -> & H1 & H2); econstructor; eassumption.
Qed.

Lemma matches_alt r1 r2 s g g' :
  Re.matches (Re.Alt r1 r2) s g g'
  <-> Re.matches r1 s g g' \/ Re.matches r2 s g g'.
Proof.
  split.
  - intros H; inversion H; subst; auto.
  - intros [H | H]; [apply Re.m_alt_l | apply Re.m_alt_r]; assumption.
Qed.

Lemma matches_grp r s g g' :
  Re.matches (Re.Grp r) s g g' <-> Re.matches r s g g'.
Proof.
  split.
  - intros H; inversion H; subst; auto.
  - intros H; constructor; assumption.
Qed.

Lemma matches_named n r s g g' :
  Re.matches (Re.Named n r) s g g'
  <-> exists g1, Re.matches r s g g1 /\ g' = (n, s) :: g1.
Proof.
  split.
  - intros H; inversion H; subst; eauto.
  - intros (g1 & H & ->); constructor; assumption.
Qed.

Lemma matches_opt r s g g' :
  Re.matches (Re.Opt r) s g g'
  <-> Re.matches r s g g' \/ (s = "" /\ g' = g).
Proof.
  split.
  - intros H; inversion H; subst; auto.
  - intros [H | [-> ->]]; [apply Re.m_opt_some | apply Re.m_opt_none].
    assumption.
Qed.

Lemma matches_channel s g g' :
  Re.matches (Re.Grp channel) s g g'
  <-> In s ["stable"; "release"; "devel"; "devel_release"] /\ g' = g.
Proof.
  unfold channel. split.
  - intros H. apply (proj1 (matches_grp _ _ _ _)) in H.
    repeat match goal with
           | H1 : Re.matches (Re.Alt _ _) _ _ _ |- _ =>
               apply (proj1 (matches_alt _ _ _ _ _)) in H1 as [H1 | H1]
           | H1 : Re.matches (Re.lit _) _ _ _ |- _ =>
               apply (proj1 (matches_lit _ _ _ _)) in H1 as [-> ->]
           end; (split; [simpl; auto 10 | reflexivity]).
  - intros [H ->]. constructor. simpl in H.
    destruct H as [<- | [<- | [<- | [<- | []]]]].
    + apply Re.m_alt_l. apply matches_lit; auto.
    + apply Re.m_alt_r, Re.m_alt_l. apply matches_lit; auto.
    + apply Re.m_alt_r, Re.m_alt_r, Re.m_alt_l. apply matches_lit; auto.
    + apply Re.m_alt_r, Re.m_alt_r, Re.m_alt_r. apply matches_lit; auto.
Qed.

Lemma matches_prefix s g g' :
  Re.matches (Re.Opt (Re.Grp (Re.Star Re.Dot ~> Re.Cls (Re.Chr "/")))) s g g'
  <-> (s = "" \/ exists p, s = p ++ "/" /\ no_line_feed p) /\ g' = g.
Proof.
  rewrite matches_opt, matches_grp, matches_seq. split.
  - intros [(s1 & s2 & g1 & -> & H1 & H2) | [-> ->]]; [|auto].
    apply (proj1 (matches_star_dot _ _ _)) in H1 as [Hp ->].
    apply (proj1 (matches_cls _ _ _ _)) in H2 as (c & -> & Hc & ->).
    simpl in Hc. apply Ascii.eqb_eq in Hc. subst c.
    split; [|reflexivity]. right. eauto.
  - intros [[-> | (p & -> & Hp)] ->]; [auto|].
    left. exists p, "/", g. repeat split.
    + apply matches_star_dot; auto.
    + constructor. reflexivity.
Qed.

Lemma matches_gz s g g' :
  Re.matches (Re.Opt (Re.Grp (Re.Cls Re.Dot ~> Re.lit "gz"))) s g g'
  <-> (s = "" \/ exists d, d <> "010"%char /\ s = String d "gz") /\ g' = g.
Proof.
  rewrite matches_opt, matches_grp, matches_seq. split.
  - intros [(s1 & s2 & g1 & -> & H1 & H2) | [-> ->]]; [|auto].
    apply (proj1 (matches_cls _ _ _ _)) in H1 as (c & -> & Hc & ->).
    apply (proj1 (matches_lit _ _ _ _)) in H2 as [-> ->].
    apply accepts_dot in Hc. split; [|reflexivity]. right. eauto.
  - intros [[-> | (d & Hd & ->)] ->]; [auto|].
    left. exists (String d ""), "gz", g. repeat split.
    + constructor. apply accepts_dot. assumption.
    + apply matches_lit; auto.
Qed.

Lemma matches_job_file_pattern s m :
  Re.matches job_file_pattern s [] m ->
  exists name, m = [("name", name)]
               /\ forall rest, job_file_shape (s ++ rest) name.
Proof.
  unfold job_file_pattern. fold channel. intros H.
  repeat match goal with
         | H1 : Re.matches (Re.Seq _ _) _ _ _ |- _ =>
             apply (proj1 (matches_seq _ _ _ _ _)) in H1
               as (? & ? & ? & -> & ? & H1)
         end.
  repeat match goal with
         | H1 : Re.matches (Re.lit _) _ _ _ |- _ =>
             apply (proj1 (matches_lit _ _ _ _)) in H1 as [-> ->]
         | H1 : Re.matches (Re.Opt (Re.Cls _)) _ _ _ |- _ =>
             apply (proj1 (matches_opt_paren _ _ _ _)) in H1 as [? ->]
         | H1 : Re.matches (Re.Cls _) _ _ _ |- _ =>
             apply (proj1 (matches_cls _ _ _ _)) in H1 as (? & -> & ? & ->)
         | H1 : Re.matches (Re.Grp channel) _ _ _ |- _ =>
             apply (proj1 (matches_channel _ _ _)) in H1 as [? ->]
         | H1 : Re.matches (Re.Opt (Re.Grp (Re.Star _ ~> _))) _ _ _ |- _ =>
             apply (proj1 (matches_prefix _ _ _)) in H1 as [? ->]
         | H1 : Re.matches (Re.Opt (Re.Grp (Re.Cls _ ~> _))) _ _ _ |- _ =>
             apply (proj1 (matches_gz _ _ _)) in H1 as [? ->]
         | H1 : Re.matches (Re.Named _ _) _ _ _ |- _ =>
             apply (proj1 (matches_named _ _ _ _ _)) in H1 as (? & H1 & ->)
         | H1 : Re.matches (Re.Star _) _ _ _ |- _ =>
             apply (proj1 (matches_star_dot _ _ _)) in H1 as [? ->]
         end.
  eexists. split; [reflexivity|]. intros rest.
  rewrite ?append_assoc. simpl. rewrite ?append_assoc.
  apply job_file_shape_intro; try assumption.
  apply accepts_dot; assumption.
Qed.

Lemma job_file_shape_matches path name :
  job_file_shape path name ->
  exists s rest m, path = s ++ rest /\ Re.matches job_file_pattern s [] m.
Proof.
  intros H. destruct H as [prefix c1 c2 name c3 lp ch rp d gz rest].
  eexists (prefix ++ "pytest" ++ String c1 "" ++ "results" ++ String c2 ""
           ++ name ++ String c3 "" ++ lp ++ ch ++ rp ++ "/pytest"
           ++ String d "" ++ "xml" ++ gz), rest, _.
  split.
  { rewrite ?append_assoc. simpl. rewrite ?append_assoc. reflexivity. }
  unfold job_file_pattern. fold channel.
  assert (Hcls : forall cl c g, Re.accepts cl c = true ->
                 Re.matches (Re.Cls cl) (String c "") g g)
    by (intros; constructor; assumption).
  eapply Re.m_seq; [apply matches_prefix; split; [eassumption | reflexivity] |].
  eapply Re.m_seq; [apply matches_lit; split; reflexivity |].
  eapply Re.m_seq; [apply Hcls; assumption |].
  eapply Re.m_seq; [apply matches_lit; split; reflexivity |].
  eapply Re.m_seq; [apply Hcls; assumption |].
  eapply Re.m_seq;
    [apply Re.m_named; apply matches_star_dot; split; [eassumption | reflexivity] |].
  eapply Re.m_seq; [apply Hcls; assumption |].
  eapply Re.m_seq; [apply matches_opt_paren; split; [eassumption | reflexivity] |].
  eapply Re.m_seq; [apply matches_channel; split; [eassumption | reflexivity] |].
  eapply Re.m_seq; [apply matches_opt_paren; split; [eassumption | reflexivity] |].
  eapply Re.m_seq; [apply matches_lit; split; reflexivity |].
  eapply Re.m_seq; [apply Hcls; apply accepts_dot; assumption |].
  eapply Re.m_seq; [apply matches_lit; split; reflexivity |].
  apply matches_gz; split; [eassumption | reflexivity].
Qed.

(** The paths [re.match] accepts are those of the shape, and the job it
    captures is the name of one way to read the path in that shape. *)
Lemma rmatch_job_file_pattern path :
  (forall m, Re.rmatch job_file_pattern path = Some m ->
     exists name, Re.group "name" m = Some name /\ job_file_shape path name)
  /\ (forall name, job_file_shape path name ->
        Re.rmatch job_file_pattern path <> None).
Proof.
  split.
  - intros m H. apply rmatch_sound in H as (s1 & s2 & -> & H).
    apply matches_job_file_pattern in H as (name & -> & H).
    exists name. split; [reflexivity | apply H].
  - intros name H.
    apply job_file_shape_matches in H as (s & rest & m & -> & H).
    apply (rmatch_complete rest H).
Qed.

(** ** File names of the captured outputs *)

Lemma is_word_not_bracket a : Re.is_word a = true -> (a =? "[")%char = false.
Proof.
  intros H. destruct (a =? "[")%char eqn:E; [|reflexivity].
  apply Ascii.eqb_eq in E. subst a. discriminate H.
Qed.

Lemma star_lazy_word w : forall rest g k,
  all_chars Re.is_word w = true ->
  (forall a t h, Re.is_word a = true -> k (String a t) h = None) ->
  Re.star_lazy Re.WordChar (w ++ "[" ++ rest) g k = k ("[" ++ rest) g.
Proof.
  induction w as [|c w IH]; intros rest g k Hw Hk.
  - simpl. destruct (k (String "[" rest) g); reflexivity.
  - simpl in Hw. apply andb_prop in Hw as [Hc Hw].
    change ((String c w) ++ "[" ++ rest) with (String c (w ++ "[" ++ rest)).
    cbn [Re.star_lazy]. rewrite (Hk c _ g Hc).
    change (Re.accepts Re.WordChar c) with (Re.is_word c). rewrite Hc.
    apply IH; assumption.
Qed.

Lemma star_greedy_dot p : forall g k x,
  no_line_feed p -> k "" g = None -> k "]" g = Some x ->
  Re.star_greedy Re.Dot (p ++ "]") g k = Some x.
Proof.
  induction p as [|c p IH]; intros g k x Hp H0 H1.
  - simpl. rewrite H0. assumption.
  - apply no_line_feed_cons in Hp as [Hc Hp].
    change ((String c p) ++ "]") with (String c (p ++ "]")).
    cbn [Re.star_greedy].
    apply accepts_dot in Hc. rewrite Hc.
    rewrite (IH g k x Hp H0 H1). reflexivity.
Qed.

Lemma rmatch_parametrized name ident params :
  parametrized name ident params -> no_line_feed params ->
  Re.rmatch test_name_pattern name
  = Some [("params", params); ("function_name", ident)].
Proof.
  intros (-> & Hi & Hw & Hp) Hnl.
  destruct ident as [|c ident]; [congruence|].
  destruct params as [|d params]; [congruence|].
  simpl in Hw. apply andb_prop in Hw as [Hc Hw].
  apply no_line_feed_cons in Hnl as [Hd Hnl].
  unfold Re.rmatch, test_name_pattern.
  cbn [Re.run]. 
  change ((String c ident) ++ "[" ++ String d params ++ "]")
    with (String c (ident ++ "[" ++ (String d params ++ "]"))).
  cbn [Re.one]. change (Re.accepts Re.WordChar c) with (Re.is_word c).
  rewrite Hc.
  rewrite star_lazy_word; [|assumption|].
  2:{ intros a t h Ha. cbn [Re.one]. cbn [Re.accepts].
      rewrite (is_word_not_bracket a Ha). reflexivity. }
  change ("[" ++ String d params ++ "]") with (String "[" (String d (params ++ "]"))).
  cbn [Re.one Re.accepts]. rewrite Ascii.eqb_refl.
  apply accepts_dot in Hd. change (negb (d =? "010")%char) with (Re.accepts Re.Dot d).
  rewrite Hd.
  erewrite star_greedy_dot; [reflexivity | assumption | reflexivity |].
  cbn [Re.one Re.accepts]. rewrite Ascii.eqb_refl.
  f_equal. f_equal.
  - f_equal.
    change (String d (params ++ "]")) with ((String d params) ++ "]").
    apply consumed_append.
  - f_equal. f_equal.
    apply (consumed_append (String c ident)
             (String "[" (String d (params ++ "]")))).
Qed.

Lemma output_filename_verbatim r :
  needs_shortening (test_name r) = false ->
  output_filename r = Ok (file_name_of r (test_name r)).
Proof.
  unfold needs_shortening, output_filename. intros H. rewrite H. reflexivity.
Qed.

Lemma output_filename_parametrized r ident params :
  needs_shortening (test_name r) = true ->
  parametrized (test_name r) ident params -> no_line_feed params ->
  output_filename r
  = Ok (file_name_of r (ident ++ "[" ++ md5sum params ++ "]")).
Proof.
  unfold needs_shortening, output_filename. intros H Hp Hn. rewrite H.
  rewrite (rmatch_parametrized Hp Hn). reflexivity.
Qed.

Lemma mem_char_append c a b :
  Py.mem_char c (a ++ b) = Py.mem_char c a || Py.mem_char c b.
Proof.
  induction a as [|x a IH]; [reflexivity|].
  change (String x a ++ b) with (String x (a ++ b)).
  cbn [Py.mem_char]. rewrite IH. apply orb_assoc.
Qed.

Lemma rmatch_test_name_bracket s m :
  Re.rmatch test_name_pattern s = Some m -> Py.mem_char "[" s = true.
Proof.
  intros H. apply rmatch_sound in H as (s1 & s2 & -> & H).
  unfold test_name_pattern in H.
  apply (proj1 (matches_seq _ _ _ _ _)) in H as (a & b & g1 & -> & _ & H).
  apply (proj1 (matches_seq _ _ _ _ _)) in H as (a' & b' & g2 & -> & H & _).
  apply (proj1 (matches_cls _ _ _ _)) in H as (c & -> & Hc & _).
  simpl in Hc. apply Ascii.eqb_eq in Hc. subst c.
  rewrite !mem_char_append. cbn [Py.mem_char]. rewrite Ascii.eqb_refl.
  rewrite !orb_true_r. reflexivity.
Qed.

Lemma output_filename_no_bracket r :
  needs_shortening (test_name r) = true ->
  Py.mem_char "[" (test_name r) = false ->
  output_filename r = Raise AssertionError.
Proof.
  unfold needs_shortening, output_filename. intros H Hb. rewrite H.
  destruct (Re.rmatch test_name_pattern (test_name r)) as [m|] eqn:E;
    [|reflexivity].
  apply rmatch_test_name_bracket in E. congruence.
Qed.

(** C2 at a name with a line feed among its parameters: the name has the
    shape [identifier[parameters]] and needs shortening, yet
    [output_filename] raises, because the [.] of the pattern does not match
    a line feed; with a carriage return in the same place the parameters
    are hashed. The pattern is not anchored at its end either: what follows
    the last closing bracket of a name is dropped without failing. *)
Lemma C2_line_feed_in_parameters :
  let r := sample_result "j" "m" "C" ("t[a" ++ line_feed ++ "b]") in
  parametrized (test_name r) "t" ("a" ++ line_feed ++ "b")
  /\ needs_shortening (test_name r) = true
  /\ output_filename r = Raise AssertionError
  /\ output_filename
       (sample_result "j" "m" "C" ("t[a" ++ carriage_return ++ "b]"))
     = Ok "j_m.C.t[ITKzvaANYOUnhSCBZL_xyA==].txt"
  /\ output_filename (sample_result "j" "m" "C" "test_a[x:y]zzz")
     = Ok "j_m.C.test_a[2tPVBBUHRRqUsy4FdDgkGQ==].txt".
Proof.
  cbv zeta. repeat split; try discriminate; vm_compute; reflexivity.
Qed.

(** ** From one case to the whole run *)

Lemma iter_cases_ok path cases : forall rs,
  iter_cases path cases = Ok rs ->
  forall r, In r rs ->
  exists case name, In case cases /\ get case "name" = Some name
                    /\ case_result path case name = Ok r.
Proof.
  induction cases as [|case cases IH]; intros rs H r Hr; simpl in H.
  - inversion H; subst. contradiction.
  - destruct (get case "name") as [name|] eqn:En.
    + apply bind_ok in H as (r0 & E0 & H).
      apply bind_ok in H as (rs0 & E1 & H).
      inversion H; subst. destruct Hr as [<- | Hr].
      * exists case, name. simpl. auto.
      * destruct (IH rs0 E1 r Hr) as (c & n & Hc & Hn & Hres).
        exists c, n. simpl. auto.
    + destruct (IH rs H r Hr) as (c & n & Hc & Hn & Hres).
      exists c, n. simpl. auto.
Qed.

Lemma iter_cases_raise path cases : forall case name,
  In case cases -> get case "name" = Some name ->
  is_ok (case_result path case name) = false ->
  is_ok (iter_cases path cases) = false.
Proof.
  induction cases as [|c cases IH]; intros case name Hin Hn Hr; simpl.
  - contradiction.
  - destruct Hin as [-> | Hin].
    + rewrite Hn. destruct (case_result path case name); [discriminate|].
      reflexivity.
    + specialize (IH case name Hin Hn Hr).
      destruct (get c "name"); [|assumption].
      destruct (case_result path c s); [|reflexivity]. simpl.
      destruct (iter_cases path cases); [discriminate | reflexivity].
Qed.

Lemma iter_job_results_raise path root suite case name :
  children root = [suite] -> In case (children suite) ->
  get case "name" = Some name ->
  is_ok (case_result path case name) = false ->
  is_ok (iter_job_results path root) = false.
Proof.
  intros Hroot Hin Hn Hr. unfold iter_job_results. rewrite Hroot.
  eapply iter_cases_raise; eassumption.
Qed.

Lemma iter_job_results_ok path root rs :
  iter_job_results path root = Ok rs ->
  forall r, In r rs ->
  exists suite case name,
    children root = [suite] /\ In case (children suite)
    /\ get case "name" = Some name /\ case_result path case name = Ok r.
Proof.
  unfold iter_job_results. intros H r Hr.
  destruct (children root) as [|suite [|]] eqn:E; try discriminate.
  destruct (iter_cases_ok _ _ H _ Hr) as (c & n & ? & ? & ?).
  exists suite, c, n. auto.
Qed.

Lemma read_results_raise parse filenames : forall f root,
  In f filenames -> parse f = Ok root ->
  is_ok (iter_job_results f root) = false ->
  is_ok (read_results parse filenames) = false.
Proof.
  induction filenames as [|f0 fs IH]; intros f root Hin Hp Hr; simpl.
  - contradiction.
  - destruct Hin as [-> | Hin].
    + rewrite Hp. simpl.
      destruct (iter_job_results f root); [discriminate | reflexivity].
    + specialize (IH f root Hin Hp Hr).
      destruct (parse f0); [|reflexivity]. simpl.
      destruct (iter_job_results f0 a); [|reflexivity]. simpl.
      destruct (read_results parse fs); [discriminate | reflexivity].
Qed.

(** A record that cannot be parsed stops the run before anything is
    written. *)
Lemma main_aborts_before_writing import_module rst css parse out filenames :
  is_ok (read_results parse filenames) = false ->
  exists e, main import_module rst css parse out filenames = ([], Raise e).
Proof.
  unfold main, lift. intros H.
  destruct (read_results parse filenames) as [rs|e]; [discriminate|].
  exists e. reflexivity.
Qed.

Lemma case_result_ok path case name r :
  case_result path case name = Ok r ->
  exists v, for_each (children case) child_step case_vars_init = Ok v
            /\ yield_result path case name v = Ok r.
Proof. unfold case_result. apply bind_ok. Qed.

Lemma case_result_no_match path case name :
  Re.rmatch job_file_pattern path = None ->
  is_ok (case_result path case name) = false.
Proof.
  intros H. destruct (case_result path case name) as [r|] eqn:E;
    [|reflexivity].
  apply case_result_ok in E as (v & _ & E).
  apply yield_result_ok in E. destruct E as (_ & _ & _ & _ & _ & _ & _ & m & Hm & _).
  congruence.
Qed.

(** C3, as amended. A case with two captured outputs and outcome children
    around them. When both have a text, the loop over the children goes
    through exactly when the second text starts with the first one
    without its trailing whitespace; the result then carries the second
    text, longer than the first or not; otherwise the assertion fails,
    and with it the whole run, before anything is written. When only the
    first has a text the test itself fails, on an [AttributeError], and
    the run ends the same way. When the first has no text the second is
    taken as it is. *)
Theorem C3_second_system_out path case name pre mid post o1 o2 :
  children case = (pre ++ o1 :: mid ++ o2 :: post)%list ->
  forallb is_outcome (pre ++ mid ++ post)%list = true ->
  tag o1 = "system-out" -> tag o2 = "system-out" ->
  let loop := for_each (children case) child_step case_vars_init in
  let run_aborts :=
    forall import_module rst css parse out filenames root suite,
      In path filenames -> parse path = Ok root ->
      children root = [suite] -> In case (children suite) ->
      get case "name" = Some name ->
      exists e,
        main import_module rst css parse out filenames = ([], Raise e) in
  match text o1, text o2 with
  | Some first, Some second =>
      (carries_on first second
       <-> exists w, loop = Ok w /\ v_system_out w = Some second)
      /\ (carries_on first second ->
          forall r, case_result path case name = Ok r ->
                    system_out r = Some second)
      /\ (~ carries_on first second ->
          case_result path case name = Raise AssertionError /\ run_aborts)
  | Some first, None =>
      case_result path case name = Raise AttributeError /\ run_aborts
  | None, second =>
      (exists w, loop = Ok w /\ v_system_out w = second)
      /\ forall r, case_result path case name = Ok r ->
                   system_out r = second
  end.
Proof.
  intros Hch Hall H1 H2 loop run_aborts.
  pose proof (for_each_two_outputs pre mid post o1 o2 Hall H1 H2) as Hloop.
  rewrite <- Hch in Hloop. fold loop in Hloop.
  assert (Habort : forall e, case_result path case name = Raise e ->
                             run_aborts).
  { intros e Hcase import_module rst css parse out filenames root suite
           Hin Hp Hroot Hc Hn.
    apply main_aborts_before_writing.
    eapply read_results_raise; [eassumption | eassumption |].
    eapply iter_job_results_raise;
      [eassumption | eassumption | eassumption |].
    rewrite Hcase. reflexivity. }
  assert (Hkept : forall w second,
            loop = Ok w -> v_system_out w = second ->
            forall r, case_result path case name = Ok r ->
                      system_out r = second).
  { intros w second Hw Ho r Hr.
    apply case_result_ok in Hr as (v & Hv & Hr).
    fold loop in Hv. rewrite Hw in Hv. injection Hv as <-.
    apply yield_result_ok in Hr. destruct Hr as (_ & _ & _ & _ & Hs & _).
    congruence. }
  destruct (text o1) as [first|]; [destruct (text o2) as [second|]|].
  - pose proof (startswith_rstrip first second) as S.
    destruct (Py.startswith second (Py.rstrip first)).
    + assert (C : carries_on first second) by (apply S; reflexivity).
      destruct Hloop as (w & Hw & Ho).
      split; [split; [intros _; exists w; auto | intros _; exact C]|].
      split; [intros _; exact (Hkept w _ Hw Ho) | intros N; contradiction].
    + assert (N : ~ carries_on first second).
      { intros C. apply S in C. discriminate. }
      split; [split; [intros C; contradiction|]|].
      { intros (w & Hw & _). rewrite Hloop in Hw. discriminate. }
      split; [intros C; contradiction|]. intros _.
      assert (Hcase : case_result path case name = Raise AssertionError).
      { unfold case_result. fold loop. rewrite Hloop. reflexivity. }
      split; [exact Hcase | exact (Habort _ Hcase)].
  - assert (Hcase : case_result path case name = Raise AttributeError).
    { unfold case_result. fold loop. rewrite Hloop. reflexivity. }
    split; [exact Hcase | exact (Habort _ Hcase)].
  - destruct Hloop as (w & Hw & Ho).
    split; [exists w; auto | exact (Hkept w _ Hw Ho)].
Qed.

(** C3, as stated, fails on a first captured output that ends in blanks:
    a second one that stops before them is accepted and kept, though it is
    shorter than the first and does not extend it. And a second output
    without any text is not matched against a blank first one, which it
    would carry on from: the test raises an [AttributeError]. *)
Lemma C3_counterexample :
  let first := "abc " ++ line_feed in
  let second := "abc" in
  carries_on first second
  /\ (String.length second < String.length first)%nat
  /\ Py.startswith second first = false
  /\ (exists r, case_result scenario_path shrunk_case "test_h" = Ok r
                /\ system_out r = Some second)
  /\ carries_on (" " ++ line_feed) ""
  /\ case_result scenario_path blank_case "test_i" = Raise AttributeError.
Proof.
  cbv zeta. split.
  { exists "abc", "". split; [|reflexivity].
    exists (" " ++ line_feed). repeat split. }
  split; [apply Nat.ltb_lt; reflexivity|]. split; [reflexivity|]. split.
  { eexists. split; [vm_compute; reflexivity | reflexivity]. }
  split; [|vm_compute; reflexivity].
  exists "", "". split; [|reflexivity].
  exists (" " ++ line_feed). repeat split.
Qed.

(** C6, as amended. For a record with a case that bears a name: when the
    file name does not match the pattern, parsing the record raises; when
    it matches, every result parsed from the record has the captured name
    as its job, and the file name reads as the pattern says, with that
    name. The file name of the scenario yields the job [foo-server]. *)
Theorem C6_job_from_file_name path root suite case name :
  children root = [suite] -> In case (children suite) ->
  get case "name" = Some name ->
  match Re.rmatch job_file_pattern path with
  | None =>
      is_ok (iter_job_results path root) = false
      /\ forall j, ~ job_file_shape path j
  | Some m =>
      forall rs, iter_job_results path root = Ok rs ->
      forall r, In r rs ->
      Re.group "name" m = Some (job r) /\ job_file_shape path (job r)
  end
  /\ Re.rmatch job_file_pattern "pytest-results_foo-server_(stable)/pytest.xml"
     = Some [("name", "foo-server")].
Proof.
  intros Hroot Hc Hn. split; [|vm_compute; reflexivity].
  destruct (Re.rmatch job_file_pattern path) as [m|] eqn:E.
  - intros rs Hrs r Hr.
    destruct (iter_job_results_ok _ _ Hrs _ Hr)
      as (suite' & c & n & _ & _ & _ & Hres).
    apply case_result_ok in Hres as (v & _ & Hres).
    apply yield_result_ok in Hres.
    destruct Hres as (_ & _ & _ & _ & _ & _ & _ & m' & Hm' & Hg).
    rewrite E in Hm'. inversion Hm'; subst m'.
    split; [assumption|].
    destruct (proj1 (rmatch_job_file_pattern path) m E) as (j & Hj & Hs).
    congruence.
  - split.
    + eapply iter_job_results_raise; [eassumption | eassumption | eassumption |].
      apply case_result_no_match. assumption.
    + intros j Hs.
      apply (proj2 (rmatch_job_file_pattern path) j Hs). assumption.
Qed.

(** C6, as stated, fails on a record without any case: its file name is
    never matched, and parsing it yields no result instead of raising. *)
Lemma C6_counterexample :
  let root := Elem "testsuites" [] None [Elem "testsuite" [] None []] in
  Re.rmatch job_file_pattern "results.xml" = None
  /\ iter_job_results "results.xml" root = Ok [].
Proof. split; vm_compute; reflexivity. Qed.

(** ** The cells of the matrix *)

Lemma dict_get_set_other V (k k' : string) (v : V) d :
  k <> k' ->
  Py.dict_get String.eqb k' (Py.dict_set String.eqb k v d)
  = Py.dict_get String.eqb k' d.
Proof.
  intros Hne. induction d as [|[k0 v0] d IH]; simpl.
  - destruct (String.eqb_spec k k'); [contradiction | reflexivity].
  - destruct (String.eqb_spec k0 k); simpl.
    + subst k0. destruct (String.eqb_spec k k'); [contradiction | reflexivity].
    + destruct (k0 =? k'); [reflexivity | assumption].
Qed.

(** C5, as amended. A cell that is rendered falls in exactly one class, in
    this order: deselected with marker [d] when the job has no result for
    the test; else skipped, with marker [s] for the type [pytest.skip],
    marker [X] and the class [expected-failure] for the type
    [pytest.xfail], any other non-empty type as marker, and [?] without a
    type; else success with marker [.]; else failure with marker [f]; for
    a success and a failure a non-empty type replaces the marker. *)
Theorem C5_cell_classification results_by_job job_name cell :
  build_cell results_by_job job_name = Ok cell ->
  match Py.dict_get String.eqb job_name results_by_job with
  | None =>
      cell_class cell = Some "deselected" /\ cell_marker cell = Some "d"
  | Some rs =>
      exists r, rs = [r] /\
      if skipped r then
        match type r with
        | Some t =>
            if t =? "pytest.skip" then
              cell_class cell = Some "skipped" /\ cell_marker cell = Some "s"
            else if t =? "pytest.xfail" then
              cell_class cell = Some "expected-failure"
              /\ cell_marker cell = Some "X"
            else
              cell_class cell = Some "skipped"
              /\ cell_marker cell = Some (Py.or_else (Some t) "?")
        | None =>
            cell_class cell = Some "skipped" /\ cell_marker cell = Some "?"
        end
      else if success r then
        cell_class cell = Some "success"
        /\ cell_marker cell = Some (Py.or_else (type r) ".")
      else
        cell_class cell = Some "failure"
        /\ cell_marker cell = Some (Py.or_else (type r) "f")
  end.
Proof.
  unfold build_cell. intros H.
  destruct (Py.dict_get String.eqb job_name results_by_job) as [rs|].
  2:{ inversion H; subst. split; reflexivity. }
  destruct rs as [|r [|r' rs]]; try discriminate.
  exists r. split; [reflexivity|].
  destruct r as [mn cn tn j su sk so de ty me]; simpl in *.
  assert (Hfin : forall c0 tx,
            bind (if Py.truthy so
                  then bind (output_filename
                               (mk_CaseResult mn cn tn j su sk so de ty me))
                         (fun f => Ok (append c0
                            (Elem "a" [("href", "./" ++ f)]
                               (Some (Py.or_else tx "?")) [])))
                  else Ok (set_text c0 (Py.or_else tx "?")))
              (fun cell0 => match me with
                            | Some (String c m) => Ok (set cell0 "title" (String c m))
                            | _ => Ok cell0
                            end) = Ok cell ->
            children c0 = [] ->
            cell_class cell = get c0 "class"
            /\ cell_marker cell = Some (Py.or_else tx "?")).
  { intros c0 tx Hc Hno. apply bind_ok in Hc as (c1 & Hc1 & Hc).
    assert (Hc1' : get c1 "class" = get c0 "class"
                   /\ cell_marker c1 = Some (Py.or_else tx "?")).
    { destruct (Py.truthy so).
      - apply bind_ok in Hc1 as (f & _ & Hc1). inversion Hc1; subst c1.
        destruct c0 as [t0 a0 x0 ch0]; simpl in *. subst ch0.
        split; reflexivity.
      - inversion Hc1; subst c1.
        destruct c0 as [t0 a0 x0 ch0]; simpl in *. subst ch0.
        split; reflexivity. }
    destruct Hc1' as [Hcl Hmk].
    assert (Hset : forall v, cell_class (set c1 "title" v) = get c1 "class"
                             /\ cell_marker (set c1 "title" v) = cell_marker c1).
    { intros v. destruct c1 as [t1 a1 x1 ch1].
      unfold cell_class, cell_marker, get. simpl. split; [|reflexivity].
      apply dict_get_set_other. discriminate. }
    destruct me as [[|c m]|]; inversion Hc; subst cell.
    - unfold cell_class. rewrite Hcl, Hmk. auto.
    - destruct (Hset (String c m)) as [H1 H2]. rewrite H1, H2, Hcl, Hmk. auto.
    - unfold cell_class. rewrite Hcl, Hmk. auto. }
  destruct sk.
  - destruct ty as [t|].
    + destruct (t =? "pytest.skip") eqn:E1.
      * apply Hfin in H; [assumption | reflexivity].
      * destruct (t =? "pytest.xfail") eqn:E2;
          (apply Hfin in H; [assumption | reflexivity]).
    + apply Hfin in H; [assumption | reflexivity].
  - destruct su.
    + destruct (Py.truthy ty) eqn:Et.
      * apply Hfin in H; [|reflexivity]. destruct H as [H1 H2].
        split; [assumption|]. rewrite H2.
        destruct ty as [[|c t]|]; try discriminate; reflexivity.
      * apply Hfin in H; [|reflexivity]. destruct H as [H1 H2].
        split; [assumption|]. rewrite H2.
        destruct ty as [[|c t]|]; try discriminate; reflexivity.
    + destruct (Py.truthy ty) eqn:Et.
      * apply Hfin in H; [|reflexivity]. destruct H as [H1 H2].
        split; [assumption|]. rewrite H2.
        destruct ty as [[|c t]|]; try discriminate; reflexivity.
      * apply Hfin in H; [|reflexivity]. destruct H as [H1 H2].
        split; [assumption|]. rewrite H2.
        destruct ty as [[|c t]|]; try discriminate; reflexivity.
Qed.

(** C5, as stated, fails on a skipped result that carries no type: its
    marker is [?], where the claim has [s]. *)
Lemma C5_counterexample :
  let r := mk_CaseResult "m" "C" "t" "j" true true None None None None in
  stated_marker (Some r) = "s"
  /\ exists cell, build_cell [("j", [r])] "j" = Ok cell
                  /\ cell_class cell = Some "skipped"
                  /\ cell_marker cell = Some "?".
Proof.
  cbv zeta. split; [reflexivity|].
  eexists. split; [reflexivity|]. split; reflexivity.
Qed.

(** ** The captured outputs *)

Lemma io_bind_ok A B (m : io A) (f : A -> io B) log b :
  io_bind m f = (log, Ok b) ->
  exists a w1 w2, m = (w1, Ok a) /\ f a = (w2, Ok b) /\ log = (w1 ++ w2)%list.
Proof.
  unfold io_bind. destruct m as [w1 [a|e]]; [|discriminate].
  destruct (f a) as [w2 r] eqn:E. intros H. inversion H; subst.
  exists a, w1, w2. auto.
Qed.

Lemma write_test_outputs_ok out results : forall log,
  write_test_outputs out results = (log, Ok tt) ->
  forall r text, In r results -> system_out r = Some text ->
  exists f, output_filename r = Ok f /\ In (WriteText out f text) log.
Proof.
  unfold write_test_outputs.
  induction results as [|r0 rs IH]; intros log H r text Hin Hs.
  - contradiction.
  - cbn [io_for_each] in H.
    apply io_bind_ok in H as ([] & w1 & w2 & H0 & Hrest & ->).
    destruct Hin as [-> | Hin].
    + rewrite Hs in H0.
      apply io_bind_ok in H0 as (f & w3 & w4 & Hf & He & ->).
      unfold lift in Hf. inversion Hf; subst w3.
      unfold emit in He. inversion He; subst w4.
      exists f. split; [assumption|]. simpl. auto.
    + destruct (IH w2 Hrest r text Hin Hs) as (f & Hf & Hlog).
      exists f. split; [assumption|]. apply in_or_app. auto.
Qed.

(** C10. A result whose captured output is the empty string gets its
    (empty) file written by a run of [write_test_outputs] that completes,
    and the cell rendered for it holds its marker as plain text, without
    any link. *)
Theorem C10_empty_output_written_not_linked out results log r :
  write_test_outputs out results = (log, Ok tt) ->
  In r results ->
  system_out r = Some "" ->
  (exists f, output_filename r = Ok f /\ In (WriteText out f "") log)
  /\ (forall results_by_job job_name cell,
        Py.dict_get String.eqb job_name results_by_job = Some [r] ->
        build_cell results_by_job job_name = Ok cell ->
        children cell = [] /\ cell_link cell = None
        /\ text cell = cell_marker cell /\ text cell <> None).
Proof.
  intros Hw Hin Hs. split.
  - apply (write_test_outputs_ok _ _ Hw _ Hin Hs).
  - intros d j cell Hd Hc. unfold build_cell in Hc. rewrite Hd, Hs in Hc.
    cbn [Py.truthy] in Hc.
    match type of Hc with
    | (let '(c, t) := ?p in _) = _ => destruct p as [c0 tx] eqn:Ep
    end.
    assert (Hc0 : children c0 = []).
    { destruct (skipped r).
      - destruct (type r) as [t|].
        + destruct (t =? "pytest.skip"); [inversion Ep; reflexivity|].
          destruct (t =? "pytest.xfail"); inversion Ep; reflexivity.
        + inversion Ep; reflexivity.
      - destruct (success r); destruct (Py.truthy (type r));
          inversion Ep; reflexivity. }
    cbn [bind] in Hc.
    assert (Hgoal : forall c1, children c1 = [] -> text c1 <> None ->
              children c1 = [] /\ cell_link c1 = None
              /\ text c1 = cell_marker c1 /\ text c1 <> None).
    { intros c1 H1 H2. unfold cell_link, cell_marker. rewrite H1. auto. }
    destruct c0 as [t0 a0 x0 ch0]; simpl in Hc0; subst ch0.
    destruct (message r) as [[|c m]|]; inversion Hc; subst cell;
      apply Hgoal; simpl; congruence.
Qed.

(** ** Sorting and sets *)

Lemma ascii_compare_lt_trans a b c :
  Ascii.compare a b = Lt -> Ascii.compare b c = Lt -> Ascii.compare a c = Lt.
Proof.
  unfold Ascii.compare. rewrite !N.compare_lt_iff. apply N.lt_trans.
Qed.

Lemma string_order : order_laws String.compare.
Proof.
  split.
  - apply String.compare_eq_iff.
  - apply String.compare_antisym.
  - intros x. induction x as [|a x IH]; intros [|b y] [|c z]; simpl;
      try discriminate; auto.
    destruct (Ascii.compare a b) eqn:E1; try discriminate;
      destruct (Ascii.compare b c) eqn:E2; try discriminate; intros H1 H2.
    + apply Ascii.compare_eq_iff in E1, E2. subst.
      assert (Hr : Ascii.compare c c = Eq).
      { unfold Ascii.compare. apply N.compare_refl. }
      rewrite Hr. eapply IH; eassumption.
    + apply Ascii.compare_eq_iff in E1. subst. rewrite E2. reflexivity.
    + apply Ascii.compare_eq_iff in E2. subst. rewrite E1. reflexivity.
    + rewrite (ascii_compare_lt_trans _ _ _ E1 E2). reflexivity.
Qed.

Lemma cmp_refl A (cmp : A -> A -> comparison) (L : order_laws cmp) x :
  cmp x x = Eq.
Proof.
  pose proof (cmp_antisym L x x) as H.
  destruct (cmp x x); simpl in H; congruence.
Qed.

Lemma pair_order A B (cA : A -> A -> comparison) (cB : B -> B -> comparison) :
  order_laws cA -> order_laws cB -> order_laws (Py.pair_compare cA cB).
Proof.
  intros LA LB. split.
  - intros [a b] [a' b']. unfold Py.pair_compare. simpl.
    destruct (cA a a') eqn:E; try discriminate. intros H.
    apply (cmp_eq LA) in E. apply (cmp_eq LB) in H. congruence.
  - intros [a b] [a' b']. unfold Py.pair_compare. simpl.
    rewrite (cmp_antisym LA a a'). destruct (cA a' a); simpl; auto.
    apply (cmp_antisym LB).
  - intros [a b] [a' b'] [a'' b'']. unfold Py.pair_compare. simpl.
    destruct (cA a a') eqn:E1; try discriminate;
      destruct (cA a' a'') eqn:E2; try discriminate; intros H1 H2.
    + apply (cmp_eq LA) in E1, E2. subst. rewrite (cmp_refl LA).
      eapply (cmp_lt_trans LB); eassumption.
    + apply (cmp_eq LA) in E1. subst. rewrite E2. reflexivity.
    + apply (cmp_eq LA) in E2. subst. rewrite E1. reflexivity.
    + rewrite (cmp_lt_trans LA _ _ _ E1 E2). reflexivity.
Qed.

Section Sorted.

Variable A : Type.
Variable cmp : A -> A -> comparison.
Hypothesis laws : order_laws cmp.

Local Abbreviation le := (le_of cmp).

Lemma le_total x y : le x y \/ le y x.
Proof.
  unfold le_of, Py.leb_of. rewrite (cmp_antisym laws x y).
  destruct (cmp y x); simpl; auto.
Qed.

Lemma le_antisym x y : le x y -> le y x -> x = y.
Proof.
  unfold le_of, Py.leb_of. rewrite (cmp_antisym laws x y).
  destruct (cmp y x) eqn:E; simpl; try discriminate.
  intros _ _. symmetry. apply (cmp_eq laws). assumption.
Qed.

Lemma le_trans x y z : le x y -> le y z -> le x z.
Proof.
  unfold le_of, Py.leb_of.
  destruct (cmp x y) eqn:E1; try discriminate;
    destruct (cmp y z) eqn:E2; try discriminate; intros _ _.
  - apply (cmp_eq laws) in E1, E2. subst. rewrite (cmp_refl laws). reflexivity.
  - apply (cmp_eq laws) in E1. subst. rewrite E2. reflexivity.
  - apply (cmp_eq laws) in E2. subst. rewrite E1. reflexivity.
  - rewrite (cmp_lt_trans laws _ _ _ E1 E2). reflexivity.
Qed.

Lemma insert_sorted_perm x l :
  Permutation (Py.insert_sorted (Py.leb_of cmp) x l) (x :: l).
Proof.
  induction l as [|y l IH]; simpl; [reflexivity|].
  destruct (Py.leb_of cmp x y); [reflexivity|].
  rewrite IH. apply perm_swap.
Qed.

Lemma sorted_perm l : Permutation (Py.sorted (Py.leb_of cmp) l) l.
Proof.
  induction l as [|x l IH]; simpl; [reflexivity|].
  rewrite insert_sorted_perm. constructor. assumption.
Qed.

Lemma insert_sorted_sorted x l :
  StronglySorted le l ->
  StronglySorted le (Py.insert_sorted (Py.leb_of cmp) x l).
Proof.
  induction 1 as [|y l Hs IH Hy]; simpl.
  - constructor; constructor.
  - destruct (Py.leb_of cmp x y) eqn:E.
    + constructor; [constructor; assumption|].
      constructor; [assumption|].
      eapply Forall_impl; [|eassumption]. intros z Hz.
      eapply le_trans; eassumption.
    + constructor; [assumption|].
      assert (Hyx : le y x).
      { destruct (le_total x y) as [H|H]; [|assumption].
        unfold le_of in H. congruence. }
      eapply Permutation_Forall; [symmetry; apply insert_sorted_perm|].
      constructor; assumption.
Qed.

Lemma sorted_sorted l : StronglySorted le (Py.sorted (Py.leb_of cmp) l).
Proof.
  induction l as [|x l IH]; simpl; [constructor|].
  apply insert_sorted_sorted. assumption.
Qed.

Lemma strongly_sorted_unique l : forall l',
  StronglySorted le l -> StronglySorted le l' -> Permutation l l' -> l = l'.
Proof.
  induction l as [|x l IH]; intros l' Hl Hl' Hp.
  - apply Permutation_nil in Hp. congruence.
  - destruct l' as [|y l'].
    { symmetry in Hp. apply Permutation_nil in Hp. discriminate. }
    inversion Hl as [|? ? Hs Hx]; subst.
    inversion Hl' as [|? ? Hs' Hy]; subst.
    assert (Hxy : x = y).
    { assert (Hin : In x (y :: l'))
        by (eapply Permutation_in; [eassumption | left; reflexivity]).
      assert (Hin' : In y (x :: l))
        by (eapply Permutation_in; [symmetry; eassumption | left; reflexivity]).
      destruct Hin as [E | Hin]; [congruence|].
      destruct Hin' as [E | Hin']; [congruence|].
      rewrite Forall_forall in Hx, Hy.
      apply le_antisym; [apply Hx | apply Hy]; assumption. }
    subst y. f_equal. apply IH; try assumption.
    eapply Permutation_cons_inv. eassumption.
Qed.

(** The result of [sorted] does not depend on the order of its input. *)
Lemma sorted_permutation l l' :
  Permutation l l' ->
  Py.sorted (Py.leb_of cmp) l = Py.sorted (Py.leb_of cmp) l'.
Proof.
  intros H. apply strongly_sorted_unique; try apply sorted_sorted.
  rewrite !sorted_perm. assumption.
Qed.

Lemma in_sorted x l : In x (Py.sorted (Py.leb_of cmp) l) <-> In x l.
Proof.
  split; apply Permutation_in; [|symmetry]; apply sorted_perm.
Qed.

Lemma nodup_sorted l : NoDup l -> NoDup (Py.sorted (Py.leb_of cmp) l).
Proof.
  apply Permutation_NoDup. symmetry. apply sorted_perm.
Qed.

End Sorted.

Section SetOf.

Variable A : Type.
Variable eqb : A -> A -> bool.
Hypothesis eqb_spec : forall x y, reflect (x = y) (eqb x y).

Lemma in_set_of x l : In x (Py.set_of eqb l) <-> In x l.
Proof.
  induction l as [|y l IH]; simpl; [tauto|].
  rewrite filter_In, IH.
  destruct (eqb_spec x y) as [->|Hne]; simpl; intuition congruence.
Qed.

Lemma nodup_set_of l : NoDup (Py.set_of eqb l).
Proof.
  induction l as [|y l IH]; simpl; constructor.
  - rewrite filter_In. intros [_ H].
    destruct (eqb_spec y y); [discriminate | congruence].
  - apply NoDup_filter. assumption.
Qed.

Lemma set_of_permutation l l' :
  Permutation l l' -> Permutation (Py.set_of eqb l) (Py.set_of eqb l').
Proof.
  intros H. apply NoDup_Permutation; try apply nodup_set_of.
  intros x. rewrite !in_set_of.
  split; apply Permutation_in; [|symmetry]; assumption.
Qed.

End SetOf.

(** ** The job classifier *)

Lemma in_jobs_of results j :
  In j (jobs_of results) <-> exists r, In r results /\ job r = j.
Proof.
  unfold jobs_of. rewrite (in_sorted String.compare).
  rewrite (@in_set_of _ _ String.eqb_spec), in_map_iff.
  split; intros (r & H1 & H2); exists r; auto.
Qed.

Lemma nodup_jobs_of results : NoDup (jobs_of results).
Proof.
  unfold jobs_of. apply nodup_sorted. apply (@nodup_set_of _ _ String.eqb_spec).
Qed.

Lemma is_client_iff results j :
  is_client results j = true
  <-> exists r, In r results /\ job r = j
                /\ Py.contains "client_tests" (module_name r) = true.
Proof.
  unfold is_client. rewrite existsb_exists.
  split; intros (r & Hin & H); exists r.
  - apply andb_prop in H as [H1 H2]. apply String.eqb_eq in H2. auto.
  - destruct H as [<- H]. rewrite H, String.eqb_refl. auto.
Qed.

Lemma is_server_iff results j :
  is_server results j = true
  <-> exists r, In r results /\ job r = j
                /\ Py.contains "server_tests" (module_name r) = true.
Proof.
  unfold is_server. rewrite existsb_exists.
  split; intros (r & Hin & H); exists r.
  - apply andb_prop in H as [H1 H2]. apply String.eqb_eq in H2. auto.
  - destruct H as [<- H]. rewrite H, String.eqb_refl. auto.
Qed.

(** The category of a job, case by case. *)
Lemma job_category_cases results j :
  job_category results j
  = if Bool.eqb (is_client results j) (is_server results j) then
      Raise AssertionError
    else if Py.endswith_any j ["-atheme"; "-anope"; "-dlk"] then
      if is_server results j then Ok server_with_services
      else Raise AssertionError
    else if is_server results j then Ok server
    else Ok client.
Proof.
  unfold job_category.
  destruct (Py.endswith_any j ["-atheme"; "-anope"; "-dlk"]),
    (is_client results j), (is_server results j); reflexivity.
Qed.

Lemma job_category_raise results j e :
  job_category results j = Raise e -> e = AssertionError.
Proof.
  rewrite job_category_cases.
  destruct (Bool.eqb _ _); [congruence|].
  destruct (Py.endswith_any j ["-atheme"; "-anope"; "-dlk"]);
    destruct (is_server results j); congruence.
Qed.

Lemma dict_set_fresh V (k : string) (v : V) d :
  Py.dict_get String.eqb k d = None ->
  Py.dict_set String.eqb k v d = (d ++ [(k, v)])%list.
Proof.
  induction d as [|[k0 v0] d IH]; simpl; [reflexivity|].
  destruct (k0 =? k); [discriminate|]. intros H. rewrite IH; auto.
Qed.

Lemma dict_get_app V (k : string) (d1 d2 : Py.dict string V) :
  Py.dict_get String.eqb k (d1 ++ d2)%list
  = match Py.dict_get String.eqb k d1 with
    | Some v => Some v
    | None => Py.dict_get String.eqb k d2
    end.
Proof.
  induction d1 as [|[k0 v0] d1 IH]; simpl; [reflexivity|].
  destruct (k0 =? k); [reflexivity | assumption].
Qed.

(** The loop that fills [job_categories]: the jobs, in order, each with its
    category. *)
Lemma classify_loop results jobs : forall d0,
  NoDup jobs ->
  (forall j, In j jobs -> Py.dict_get String.eqb j d0 = None) ->
  for_each jobs (classify results) d0
  = (cs <- map_result (job_category results) jobs ;;
     Ok (d0 ++ combine jobs cs)%list).
Proof.
  induction jobs as [|j jobs IH]; intros d0 Hnd Hfresh; simpl.
  - rewrite app_nil_r. reflexivity.
  - inversion Hnd as [|? ? Hj Hnd']; subst.
    unfold classify at 1.
    destruct (job_category results j) as [c|e]; simpl; [|reflexivity].
    rewrite dict_set_fresh by (apply Hfresh; left; reflexivity).
    rewrite IH; [|assumption|].
    + destruct (map_result (job_category results) jobs); simpl;
        [|reflexivity].
      rewrite <- app_assoc. reflexivity.
    + intros j' Hj'. rewrite dict_get_app.
      rewrite (Hfresh j') by (right; assumption). simpl.
      destruct (String.eqb_spec j j'); [subst; contradiction | reflexivity].
Qed.

Lemma map_result_ok A B (f : A -> result B) l : forall ys,
  map_result f l = Ok ys ->
  List.length ys = List.length l
  /\ forall x, In x l -> exists y, f x = Ok y /\ In y ys.
Proof.
  induction l as [|x l IH]; intros ys H; simpl in H.
  - inversion H; subst. split; [reflexivity | contradiction].
  - apply bind_ok in H as (y & Hy & H).
    apply bind_ok in H as (ys' & Hys & H). inversion H; subst.
    destruct (IH ys' Hys) as [Hlen Hall]. split; [simpl; congruence|].
    intros x' [<- | Hin].
    + exists y. simpl. auto.
    + destruct (Hall x' Hin) as (y' & ? & ?). exists y'. simpl. auto.
Qed.

Lemma map_result_raise A B (f : A -> result B) l x :
  In x l -> is_ok (f x) = false -> is_ok (map_result f l) = false.
Proof.
  induction l as [|y l IH]; intros Hin Hx; simpl; [contradiction|].
  destruct Hin as [-> | Hin].
  - destruct (f x); [discriminate | reflexivity].
  - specialize (IH Hin Hx). destruct (f y); [|reflexivity]. simpl.
    destruct (map_result f l); [discriminate | reflexivity].
Qed.

Lemma dict_get_combine B (f : string -> result B) l : forall ys,
  map_result f l = Ok ys ->
  forall k, Py.dict_get String.eqb k (combine l ys)
            = if existsb (String.eqb k) l
              then match f k with Ok y => Some y | Raise _ => None end
              else None.
Proof.
  induction l as [|x l IH]; intros ys H k; simpl in H.
  - inversion H; subst. reflexivity.
  - apply bind_ok in H as (y & Hy & H).
    apply bind_ok in H as (ys' & Hys & H). inversion H; subst. simpl.
    rewrite (String.eqb_sym k x).
    destruct (String.eqb_spec x k); simpl.
    + subst. rewrite Hy. reflexivity.
    + apply IH. assumption.
Qed.

Lemma map_fst_combine A B (l : list A) : forall (ys : list B),
  List.length ys = List.length l -> map fst (combine l ys) = l.
Proof.
  induction l as [|x l IH]; intros [|y ys] H; simpl in *;
    try discriminate; [reflexivity|].
  f_equal. apply IH. congruence.
Qed.

Lemma existsb_eqb_in k l : existsb (String.eqb k) l = true <-> In k l.
Proof.
  rewrite existsb_exists. split.
  - intros (x & Hin & H). apply String.eqb_eq in H. congruence.
  - intros H. exists k. rewrite String.eqb_refl. auto.
Qed.

(** What [job_categories] holds once the classifier has gone through all
    the jobs. *)
Lemma job_categories_ok results cats :
  for_each (jobs_of results) (classify results) [] = Ok cats ->
  map fst cats = jobs_of results
  /\ forall j c, Py.dict_get String.eqb j cats = Some c
                 <-> In j (jobs_of results) /\ job_category results j = Ok c.
Proof.
  rewrite classify_loop; [|apply nodup_jobs_of | reflexivity].
  intros H. apply bind_ok in H as (cs & Hcs & H). inversion H; subst cats.
  simpl. destruct (map_result_ok _ _ Hcs) as [Hlen _].
  split; [apply map_fst_combine; assumption|].
  intros j c. rewrite (dict_get_combine _ _ Hcs).
  destruct (existsb (String.eqb j) (jobs_of results)) eqn:E.
  - apply existsb_eqb_in in E.
    destruct (job_category results j); intuition congruence.
  - split; [discriminate|]. intros [Hin _].
    apply existsb_eqb_in in Hin. congruence.
Qed.

Lemma job_categories_raise results j :
  In j (jobs_of results) -> is_ok (job_category results j) = false ->
  for_each (jobs_of results) (classify results) [] = Raise AssertionError.
Proof.
  intros Hin Hj.
  rewrite classify_loop; [|apply nodup_jobs_of | reflexivity].
  pose proof (map_result_raise (job_category results) _ _ Hin Hj) as H.
  destruct (map_result (job_category results) (jobs_of results)) as [cs|e] eqn:E;
    [discriminate|]. simpl. f_equal.
  clear H Hin Hj. revert e E.
  induction (jobs_of results) as [|x l IH]; intros e E; simpl in E.
  - discriminate.
  - destruct (job_category results x) eqn:Ex; simpl in E.
    + destruct (map_result (job_category results) l); simpl in E;
        [discriminate|]. inversion E; subst. apply IH. reflexivity.
    + inversion E; subst. rewrite (job_category_raise _ _ Ex). reflexivity.
Qed.

(** C1, as amended. The two tests that classify a job range over all the
    results of that job, skipped or not. When both hold or neither does,
    the run stops on the failed assertion after it has created the output
    directory and before it writes any page; when exactly one holds the
    job is a server with services, a server or a client (a job named as
    one with services that is no server fails the next assertion). *)
Theorem C1_classifier_reads_all_results import_module rst out results j :
  In j (jobs_of results) ->
  (is_client results j = true
   <-> exists r, In r results /\ job r = j
                 /\ Py.contains "client_tests" (module_name r) = true)
  /\ (is_server results j = true
      <-> exists r, In r results /\ job r = j
                    /\ Py.contains "server_tests" (module_name r) = true)
  /\ (is_client results j = is_server results j ->
      write_html_pages import_module rst out results
      = ([Mkdir out], Raise AssertionError))
  /\ (is_client results j <> is_server results j ->
      job_category results j
      = if Py.endswith_any j ["-atheme"; "-anope"; "-dlk"] then
          if is_server results j then Ok server_with_services
          else Raise AssertionError
        else if is_server results j then Ok server
        else Ok client).
Proof.
  intros Hin. split; [apply is_client_iff|]. split; [apply is_server_iff|].
  split.
  - intros Heq. unfold write_html_pages.
    rewrite (job_categories_raise results j Hin).
    + reflexivity.
    + rewrite job_category_cases, Heq, Bool.eqb_reflx. reflexivity.
  - intros Hne. rewrite job_category_cases.
    destruct (Bool.eqb _ _) eqn:E; [|reflexivity].
    apply Bool.eqb_prop in E. contradiction.
Qed.

(** C1, as stated, fails on a job whose only result is a skipped one in a
    server module: among the results that are not skipped neither test
    holds, yet the job is classified and its pages are written. *)
Lemma C1_counterexample :
  let r := mk_CaseResult "irctest.server_tests.x" "T" "test_a" "foo"
             true true None None (Some "pytest.skip") None in
  stated_is_client [r] "foo" = false
  /\ stated_is_server [r] "foo" = false
  /\ job_category [r] "foo" = Ok server
  /\ snd (write_html_pages plain_catalog plain_rst "out" [r])
     = Ok [ ("module", "irctest.server_tests.x", "irctest.server_tests.x.xhtml");
            ("job", "foo", "foo.xhtml") ].
Proof. cbv zeta. repeat split; vm_compute; reflexivity. Qed.

(** ** Grouping *)

Section GroupBy.

Variables TK TV : Type.
Variable eqb : TK -> TK -> bool.
Hypothesis eqb_spec : forall x y, reflect (x = y) (eqb x y).
Variable key : TV -> TK.

Local Abbreviation group_of l k := (filter (fun v => eqb (key v) k) l).

Lemma eqb_refl_true x : eqb x x = true.
Proof. destruct (eqb_spec x x); [reflexivity | congruence]. Qed.

Lemma set_of_snoc (l : list TK) x :
  Py.set_of eqb (l ++ [x])
  = if existsb (eqb x) l then Py.set_of eqb l
    else (Py.set_of eqb l ++ [x])%list.
Proof.
  induction l as [|a l IH]; simpl; [reflexivity|].
  rewrite IH. destruct (eqb_spec x a) as [->|Hne]; simpl.
  - destruct (existsb (eqb a) l); [reflexivity|].
    rewrite filter_app. simpl. rewrite eqb_refl_true. simpl.
    rewrite app_nil_r. reflexivity.
  - destruct (existsb (eqb x) l); [reflexivity|].
    rewrite filter_app. simpl.
    destruct (eqb_spec x a); [contradiction|]. reflexivity.
Qed.

Lemma dict_get_map_keys (f : TK -> list TV) ks k :
  Py.dict_get eqb k (map (fun k0 => (k0, f k0)) ks)
  = if existsb (eqb k) ks then Some (f k) else None.
Proof.
  induction ks as [|a ks IH]; simpl; [reflexivity|].
  destruct (eqb_spec a k) as [->|Hne].
  - rewrite eqb_refl_true. reflexivity.
  - destruct (eqb_spec k a); [congruence|]. assumption.
Qed.

Lemma dict_set_map_keys (f f' : TK -> list TV) ks k :
  (forall k0, k0 <> k -> f' k0 = f k0) ->
  existsb (eqb k) ks = true -> NoDup ks ->
  Py.dict_set eqb k (f' k) (map (fun k0 => (k0, f k0)) ks)
  = map (fun k0 => (k0, f' k0)) ks.
Proof.
  intros Hf. induction ks as [|a ks IH]; simpl; [discriminate|].
  intros Hin Hnd. inversion Hnd as [|? ? Ha Hnd']; subst.
  destruct (eqb_spec a k) as [->|Hne].
  - f_equal. apply map_ext_in. intros k0 Hk0.
    rewrite Hf; [reflexivity|]. intros ->. contradiction.
  - rewrite (Hf a Hne). f_equal. apply IH; [|assumption].
    destruct (eqb_spec k a); [congruence | assumption].
Qed.

Lemma group_of_absent l k :
  existsb (eqb k) (map key l) = false -> group_of l k = [].
Proof.
  induction l as [|v l IH]; simpl; [reflexivity|].
  destruct (eqb_spec k (key v)) as [->|Hne]; simpl; [discriminate|].
  intros H. destruct (eqb_spec (key v) k); [congruence|]. apply IH, H.
Qed.

(** The groups of [group_by]: the keys at their first occurrence, each
    with the values that have it, in their order. *)
Lemma group_by_groups l :
  group_by eqb l key
  = map (fun k => (k, group_of l k)) (Py.set_of eqb (map key l)).
Proof.
  unfold group_by.
  induction l as [|x l IH] using rev_ind; [reflexivity|].
  rewrite fold_left_app. simpl. rewrite IH. clear IH.
  unfold setdefault_append. rewrite dict_get_map_keys.
  rewrite map_app. simpl. rewrite set_of_snoc.
  destruct (existsb (eqb (key x)) (map key l)) eqn:E.
  - assert (Hin : existsb (eqb (key x)) (Py.set_of eqb (map key l)) = true).
    { apply existsb_exists in E as (k & Hk & Hx).
      apply existsb_exists. exists k. split; [|assumption].
      apply (proj2 (@in_set_of _ _ eqb_spec _ _)). assumption. }
    rewrite Hin.
    replace (group_of l (key x) ++ [x])%list with (group_of (l ++ [x]) (key x)).
    2:{ rewrite filter_app. simpl. rewrite eqb_refl_true. reflexivity. }
    apply (dict_set_map_keys (fun k => group_of l k)
             (fun k => group_of (l ++ [x]) k)).
    + intros k0 Hk0. rewrite filter_app. simpl.
      destruct (eqb_spec (key x) k0); [congruence|]. apply app_nil_r.
    + assumption.
    + apply (@nodup_set_of _ _ eqb_spec).
  - assert (Hin : existsb (eqb (key x)) (Py.set_of eqb (map key l)) = false).
    { destruct (existsb (eqb (key x)) (Py.set_of eqb (map key l))) eqn:E';
        [|reflexivity].
      apply existsb_exists in E' as (k & Hk & Hx).
      apply (proj1 (@in_set_of _ _ eqb_spec _ _)) in Hk.
      assert (existsb (eqb (key x)) (map key l) = true)
        by (apply existsb_exists; eauto).
      congruence. }
    rewrite Hin. rewrite map_app. simpl. f_equal.
    + apply map_ext_in. intros k Hk. f_equal.
      rewrite filter_app. simpl.
      destruct (eqb_spec (key x) k) as [<-|]; [|symmetry; apply app_nil_r].
      apply (proj1 (@in_set_of _ _ eqb_spec _ _)) in Hk.
      assert (existsb (eqb (key x)) (map key l) = true).
      { apply existsb_exists. exists (key x). split; [assumption|].
        apply eqb_refl_true. }
      congruence.
    + f_equal. f_equal. rewrite filter_app. simpl. rewrite eqb_refl_true.
      rewrite (group_of_absent l _ E). reflexivity.
Qed.

(** [sorted(d.items())] of a [dict] given by its keys. *)
Lemma sorted_items_map_keys (cmp : TK -> TK -> comparison)
    (f : TK -> list TV) ks :
  Py.sorted_items cmp (map (fun k => (k, f k)) ks)
  = map (fun k => (k, f k)) (Py.sorted (Py.leb_of cmp) ks).
Proof.
  unfold Py.sorted_items.
  induction ks as [|a ks IH]; simpl; [reflexivity|].
  rewrite IH. clear IH.
  induction (Py.sorted (Py.leb_of cmp) ks) as [|b l IH]; simpl;
    [reflexivity|].
  destruct (Py.leb_of cmp a b); simpl; [reflexivity|].
  rewrite IH. reflexivity.
Qed.

Lemma sorted_group_by (cmp : TK -> TK -> comparison) l :
  Py.sorted_items cmp (group_by eqb l key)
  = map (fun k => (k, group_of l k))
      (Py.sorted (Py.leb_of cmp) (Py.set_of eqb (map key l))).
Proof. rewrite group_by_groups. apply sorted_items_map_keys. Qed.

Lemma dict_get_group_by l k :
  Py.dict_get eqb k (group_by eqb l key)
  = if existsb (eqb k) (map key l) then Some (group_of l k) else None.
Proof.
  rewrite group_by_groups, dict_get_map_keys.
  destruct (existsb (eqb k) (map key l)) eqn:E.
  - apply existsb_exists in E as (k' & Hk & Hx).
    replace (existsb (eqb k) (Py.set_of eqb (map key l))) with true;
      [reflexivity|].
    symmetry. apply existsb_exists. exists k'. split; [|assumption].
    apply (proj2 (@in_set_of _ _ eqb_spec _ _)). assumption.
  - destruct (existsb (eqb k) (Py.set_of eqb (map key l))) eqn:E';
      [|reflexivity].
    apply existsb_exists in E' as (k' & Hk & Hx).
    apply (proj1 (@in_set_of _ _ eqb_spec _ _)) in Hk.
    assert (existsb (eqb k) (map key l) = true)
      by (apply existsb_exists; eauto).
    congruence.
Qed.

End GroupBy.

(** ** The pages that are written *)

Lemma jobs_in_ok cats categories l : forall js,
  jobs_in cats categories l = Ok js ->
  js = filter (fun j =>
                 match Py.dict_get String.eqb j cats with
                 | Some c => existsb (category_eqb c) categories
                 | None => false
                 end) l.
Proof.
  unfold jobs_in. intros js H. apply bind_ok in H as (flags & Hf & H).
  inversion H; subst js. clear H. revert flags Hf.
  induction l as [|j l IH]; intros flags Hf; simpl in Hf.
  - inversion Hf; subst. reflexivity.
  - apply bind_ok in Hf as ([j' b] & Hj & Hf).
    apply bind_ok in Hf as (flags' & Hfl & Hf). inversion Hf; subst flags.
    apply bind_ok in Hj as (c & Hc & Hj). inversion Hj; subst j' b.
    unfold category_of in Hc. simpl.
    destruct (Py.dict_get String.eqb j cats) as [c'|]; [|discriminate].
    inversion Hc; subst c'.
    destruct (existsb (category_eqb c) categories); simpl;
      rewrite (IH flags' Hfl); reflexivity.
Qed.

Lemma category_eqb_eq a b : category_eqb a b = true <-> a = b.
Proof. destruct a, b; simpl; split; congruence. Qed.

Lemma write_module_page_ok import_module rst out results jobs cats m g
    pages0 log pages :
  write_module_page import_module rst out results jobs cats (m, g) pages0
  = (log, Ok pages) ->
  exists cols root,
    module_jobs_of results jobs cats m = Ok cols
    /\ build_module_html import_module rst cols g m = Ok root
    /\ log = [WriteXml out (m ++ ".xhtml") (with_namespace root)]
    /\ pages = (pages0 ++ [module_page m])%list.
Proof.
  unfold write_module_page. intros H.
  apply io_bind_ok in H as (cols & w1 & w2 & H1 & H & ->).
  apply io_bind_ok in H as (root & w3 & w4 & H2 & H & ->).
  apply io_bind_ok in H as ([] & w5 & w6 & H3 & H & ->).
  unfold lift in H1, H2. inversion H1; subst. inversion H2; subst.
  unfold write_xml_file, emit in H3. inversion H3; subst.
  unfold io_ret in H. inversion H; subst.
  exists cols, root. auto.
Qed.

Lemma write_job_page_ok import_module rst out results j pages0 log pages :
  write_job_page import_module rst out results j pages0 = (log, Ok pages) ->
  exists root,
    build_job_html import_module rst j (job_results_of results j) = Ok root
    /\ log = [WriteXml out (j ++ ".xhtml") (with_namespace root)]
    /\ pages = (pages0 ++ [job_page j])%list.
Proof.
  unfold write_job_page. intros H.
  apply io_bind_ok in H as (root & w3 & w4 & H2 & H & ->).
  apply io_bind_ok in H as ([] & w5 & w6 & H3 & H & ->).
  unfold lift in H2. inversion H2; subst.
  unfold write_xml_file, emit in H3. inversion H3; subst.
  unfold io_ret in H. inversion H; subst.
  exists root. auto.
Qed.

(** The loop over the modules: one page and one document for each, in
    order. *)
Lemma module_loop_ok import_module rst out results jobs cats items :
  forall pages0 log pages,
  io_for_each items
    (write_module_page import_module rst out results jobs cats) pages0
  = (log, Ok pages) ->
  pages = (pages0 ++ map (fun item => module_page (fst item)) items)%list
  /\ Forall2
       (fun item e =>
          exists cols root,
            module_jobs_of results jobs cats (fst item) = Ok cols
            /\ build_module_html import_module rst cols (snd item) (fst item)
               = Ok root
            /\ e = WriteXml out (fst item ++ ".xhtml") (with_namespace root))
       items log.
Proof.
  induction items as [|[m g] items IH]; intros pages0 log pages H;
    cbn [io_for_each] in H.
  - unfold io_ret in H. inversion H; subst. rewrite app_nil_r.
    split; [reflexivity | constructor].
  - apply io_bind_ok in H as (pages1 & w1 & w2 & H1 & H & ->).
    apply write_module_page_ok in H1 as (cols & root & Hc & Hr & -> & ->).
    apply IH in H as [-> HF]. split.
    + rewrite <- app_assoc. reflexivity.
    + simpl. constructor; [|assumption]. exists cols, root. auto.
Qed.

(** The loop over the jobs of one category: one page and one document for
    each, in order. *)
Lemma job_loop_ok import_module rst out results js :
  forall pages0 log pages,
  io_for_each js (write_job_page import_module rst out results) pages0
  = (log, Ok pages) ->
  pages = (pages0 ++ map job_page js)%list
  /\ Forall2
       (fun j e =>
          exists root,
            build_job_html import_module rst j (job_results_of results j)
            = Ok root
            /\ e = WriteXml out (j ++ ".xhtml") (with_namespace root))
       js log.
Proof.
  induction js as [|j js IH]; intros pages0 log pages H;
    cbn [io_for_each] in H.
  - unfold io_ret in H. inversion H; subst. rewrite app_nil_r.
    split; [reflexivity | constructor].
  - apply io_bind_ok in H as (pages1 & w1 & w2 & H1 & H & ->).
    apply write_job_page_ok in H1 as (root & Hr & -> & ->).
    apply IH in H as [-> HF]. split.
    + rewrite <- app_assoc. reflexivity.
    + simpl. constructor; [|assumption]. exists root. auto.
Qed.

(** A run of [write_html_pages] that completes: the directory is made,
    then come the documents of the modules in the order of their names,
    then those of the jobs that get a page; the pages are returned in the
    same order. *)
Lemma write_html_pages_ok import_module rst out results log pages :
  write_html_pages import_module rst out results = (log, Ok pages) ->
  exists cats mlog jlog,
    for_each (jobs_of results) (classify results) [] = Ok cats
    /\ log = (Mkdir out :: mlog ++ jlog)%list
    /\ pages
       = (map module_page
            (Py.sorted (Py.leb_of String.compare)
               (Py.set_of String.eqb (map module_name results)))
          ++ map job_page (paged_jobs results))%list
    /\ Forall2
         (fun m e =>
            exists cols root,
              module_jobs_of results (jobs_of results) cats m = Ok cols
              /\ build_module_html import_module rst cols
                   (module_results_of results m) m = Ok root
              /\ e = WriteXml out (m ++ ".xhtml") (with_namespace root))
         (Py.sorted (Py.leb_of String.compare)
            (Py.set_of String.eqb (map module_name results)))
         mlog
    /\ Forall2
         (fun j e =>
            exists root,
              build_job_html import_module rst j (job_results_of results j)
              = Ok root
              /\ e = WriteXml out (j ++ ".xhtml") (with_namespace root))
         (paged_jobs results) jlog.
Proof.
  unfold write_html_pages. intros H.
  apply io_bind_ok in H as ([] & w0 & w1 & H0 & H & ->).
  unfold emit in H0. inversion H0; subst w0. clear H0.
  apply io_bind_ok in H as (cats & w2 & w3 & Hc & H & ->).
  unfold lift in Hc. inversion Hc as [[Hw Hcats]]; subst w2. clear Hc.
  apply io_bind_ok in H as (pages1 & mlog & w4 & Hm & H & ->).
  rewrite (@sorted_group_by _ _ _ String.eqb_spec) in Hm.
  apply module_loop_ok in Hm as [-> HFm].
  cbn [io_for_each] in H.
  apply io_bind_ok in H as (pages2 & w5 & w6 & Hs & H & ->).
  apply io_bind_ok in Hs as (sjobs & w7 & w8 & Hsj & Hs & ->).
  unfold lift in Hsj. inversion Hsj as [[Hw7 Hsjobs]]; subst w7. clear Hsj.
  apply job_loop_ok in Hs as [-> HFs].
  apply io_bind_ok in H as (pages3 & w9 & w10 & Hcl & H & ->).
  apply io_bind_ok in Hcl as (cjobs & w11 & w12 & Hcj & Hcl & ->).
  unfold lift in Hcj. inversion Hcj as [[Hw11 Hcjobs]]; subst w11. clear Hcj.
  apply job_loop_ok in Hcl as [-> HFc].
  unfold io_ret in H. inversion H; subst. clear H.
  apply jobs_in_ok in Hsjobs, Hcjobs.
  destruct (job_categories_ok _ Hcats) as [Hkeys Hget].
  assert (Hfilter : forall c,
            filter (fun j => match Py.dict_get String.eqb j cats with
                             | Some c0 => existsb (category_eqb c0) [c]
                             | None => false
                             end) (map fst cats)
            = filter (fun j => match job_category results j with
                               | Ok c0 => category_eqb c0 c
                               | Raise _ => false
                               end) (jobs_of results)).
  { intros c. rewrite Hkeys. apply filter_ext_in. intros j Hj.
    destruct (job_category results j) as [c0|e] eqn:Ej.
    - rewrite (proj2 (Hget j c0) (conj Hj Ej)). simpl.
      apply orb_false_r.
    - destruct (Py.dict_get String.eqb j cats) as [c0|] eqn:Eg;
        [|reflexivity].
      apply Hget in Eg. destruct Eg as [_ Eg]. congruence. }
  rewrite Hfilter in Hsjobs, Hcjobs.
  assert (Hpaged : paged_jobs results = (sjobs ++ cjobs)%list).
  { unfold paged_jobs. rewrite Hsjobs, Hcjobs. f_equal; apply filter_ext;
      intros j; destruct (job_category results j) as [[]|]; reflexivity. }
  exists cats, mlog, (w8 ++ w12)%list.
  split; [assumption|]. split.
  { simpl. rewrite ?app_nil_r. rewrite <- ?app_assoc. reflexivity. }
  split.
  { rewrite Hpaged, map_app, map_map. simpl. rewrite <- ?app_assoc.
    reflexivity. }
  split.
  - clear -HFm. rewrite Forall2_map_l in HFm || idtac.
    revert HFm. generalize mlog.
    induction (Py.sorted (Py.leb_of String.compare)
                 (Py.set_of String.eqb (map module_name results)))
      as [|m l IH]; intros ml HF; inversion HF; subst; constructor.
    + assumption.
    + apply IH. assumption.
  - rewrite Hpaged. apply Forall2_app; assumption.
Qed.

(** ** What the pages hold *)

Lemma map_result_in A B (f : A -> result B) l : forall ys,
  map_result f l = Ok ys ->
  forall y, In y ys -> exists x, In x l /\ f x = Ok y.
Proof.
  induction l as [|x l IH]; intros ys H y Hy; simpl in H.
  - inversion H; subst. contradiction.
  - apply bind_ok in H as (y0 & Hy0 & H).
    apply bind_ok in H as (ys' & Hys & H). inversion H; subst.
    destruct Hy as [<- | Hy].
    + exists x. simpl. auto.
    + destruct (IH ys' Hys y Hy) as (x' & ? & ?). exists x'. simpl. auto.
Qed.

Lemma classified results cats j :
  for_each (jobs_of results) (classify results) [] = Ok cats ->
  In j (jobs_of results) ->
  exists c, job_category results j = Ok c
            /\ Py.dict_get String.eqb j cats = Some c.
Proof.
  intros Hcats Hj.
  destruct (job_categories_ok _ Hcats) as [_ Hget].
  destruct (job_category results j) as [c|e] eqn:E.
  - exists c. split; [reflexivity|]. apply Hget. auto.
  - rewrite (job_categories_raise results j Hj) in Hcats; [discriminate|].
    rewrite E. reflexivity.
Qed.

Lemma append_inj_r (a b s : string) : a ++ s = b ++ s -> a = b.
Proof.
  revert b. induction a as [|c a IH]; intros [|d b] H; simpl in H.
  - reflexivity.
  - apply (f_equal String.length) in H. simpl in H.
    rewrite length_append in H. lia.
  - apply (f_equal String.length) in H. simpl in H.
    rewrite length_append in H. lia.
  - inversion H. f_equal. apply IH. assumption.
Qed.

Lemma last_xml_acc log dir file_name : forall found,
  fold_left
    (fun found e =>
       match e with
       | WriteXml d f root =>
           if (d =? dir) && (f =? file_name) then Some root else found
       | _ => found
       end) log found
  = match last_xml log dir file_name with
    | Some r => Some r
    | None => found
    end.
Proof.
  unfold last_xml. induction log as [|e log IH]; intros found; simpl.
  - reflexivity.
  - rewrite IH. rewrite (IH (match e with WriteXml _ _ _ => _ | _ => _ end)).
    destruct (fold_left _ log None); [reflexivity|].
    destruct e; try reflexivity.
    destruct ((dir0 =? dir) && (file_name0 =? file_name)); reflexivity.
Qed.

Lemma last_xml_app l1 l2 dir file_name :
  last_xml (l1 ++ l2) dir file_name
  = match last_xml l2 dir file_name with
    | Some r => Some r
    | None => last_xml l1 dir file_name
    end.
Proof.
  unfold last_xml at 1. rewrite fold_left_app.
  rewrite last_xml_acc. reflexivity.
Qed.

(** Among the documents of the job pages, the file of a job holds the page
    of that job. *)
Lemma last_xml_job_pages (P : string -> Element -> Prop) out js : forall jlog,
  Forall2 (fun j e => exists root,
             P j root
             /\ e = WriteXml out (j ++ ".xhtml") (with_namespace root))
    js jlog ->
  NoDup js ->
  forall j,
  if existsb (String.eqb j) js
  then exists root, P j root
         /\ last_xml jlog out (j ++ ".xhtml") = Some (with_namespace root)
  else last_xml jlog out (j ++ ".xhtml") = None.
Proof.
  induction js as [|j0 js IH]; intros jlog HF Hnd j.
  - inversion HF; subst. reflexivity.
  - inversion HF as [|? e ? jlog' (root & HP & He) HF']; subst.
    inversion Hnd as [|? ? Hj0 Hnd']; subst.
    change (WriteXml out (j0 ++ ".xhtml") (with_namespace root) :: jlog')
      with ([WriteXml out (j0 ++ ".xhtml") (with_namespace root)] ++ jlog')%list.
    rewrite last_xml_app. specialize (IH jlog' HF' Hnd' j).
    cbn [existsb]. destruct (String.eqb_spec j j0) as [->|Hne]; simpl.
    + assert (Hex : existsb (String.eqb j0) js = false).
      { destruct (existsb (String.eqb j0) js) eqn:E; [|reflexivity].
        apply existsb_eqb_in in E. contradiction. }
      rewrite Hex in IH. rewrite IH.
      exists root. split; [assumption|].
      unfold last_xml. simpl. rewrite !String.eqb_refl. reflexivity.
    + destruct (existsb (String.eqb j) js).
      * destruct IH as (r & Hr & Hl). rewrite Hl. exists r. auto.
      * rewrite IH. unfold last_xml. simpl.
        destruct (String.eqb_spec (j0 ++ ".xhtml") (j ++ ".xhtml")) as [E|];
          [|rewrite andb_false_r; reflexivity].
        apply append_inj_r in E. congruence.
Qed.

Lemma nodup_paged_jobs results : NoDup (paged_jobs results).
Proof.
  unfold paged_jobs. apply NoDup_app.
  - apply NoDup_filter, nodup_jobs_of.
  - apply NoDup_filter, nodup_jobs_of.
  - intros j. rewrite !filter_In. intros [_ H1] [_ H2].
    destruct (job_category results j) as [[]|]; discriminate.
Qed.

Lemma in_paged_jobs results j :
  In j (paged_jobs results)
  <-> In j (jobs_of results)
      /\ (job_category results j = Ok server
          \/ job_category results j = Ok client).
Proof.
  unfold paged_jobs. rewrite in_app_iff, !filter_In.
  destruct (job_category results j) as [[]|]; intuition congruence.
Qed.

Lemma in_job_results_of results j r :
  In r (job_results_of results j)
  <-> In r results
      /\ (job r = j \/ Py.startswith (job r) (j ++ "-") = true).
Proof.
  unfold job_results_of. rewrite filter_In, orb_true_iff, String.eqb_eq.
  reflexivity.
Qed.

Lemma build_job_html_ok import_module rst j results root :
  build_job_html import_module rst j results = Ok root ->
  exists table,
    build_test_table import_module rst (jobs_of results) results = Ok table
    /\ root = Elem "html" [] None
                [ page_head j;
                  Elem "body" [] None
                    [ Elem "h1" [] (Some j) [];
                      set table "class" "job-results test-matrix" ] ].
Proof.
  unfold build_job_html. intros H. apply bind_ok in H as (table & Ht & H).
  inversion H; subst. exists table. auto.
Qed.

(** C4, as amended. In a run that completes, every job is a server with
    services, a server or a client. A server with services gets no page of
    its own. A server and a client get exactly one page, [<job>.xhtml];
    the document that file holds in the end is the job page whose matrix
    is built from the results whose job is that job or starts with it
    followed by a hyphen, all of them, with each of their jobs as a
    column. *)
Theorem C4_job_pages import_module rst out results log pages j :
  write_html_pages import_module rst out results = (log, Ok pages) ->
  In j (jobs_of results) ->
  (exists c, category_is results j c)
  /\ (category_is results j server_with_services ->
      forall f, ~ In ("job", j, f) pages)
  /\ (category_is results j server \/ category_is results j client ->
      (exists before after,
         pages = (before ++ job_page j :: after)%list
         /\ forall f, ~ In ("job", j, f) (before ++ after)%list)
      /\ (exists table,
            build_test_table import_module rst
              (jobs_of (job_results_of results j)) (job_results_of results j)
            = Ok table
            /\ last_xml log out (j ++ ".xhtml")
               = Some (with_namespace
                         (Elem "html" [] None
                            [ page_head j;
                              Elem "body" [] None
                                [ Elem "h1" [] (Some j) [];
                                  set table "class" "job-results test-matrix"
                                ] ])))
      /\ (forall r, In r (job_results_of results j)
                    <-> In r results
                        /\ (job r = j
                            \/ Py.startswith (job r) (j ++ "-") = true))
      /\ (forall r, In r (job_results_of results j) ->
                    In (job r) (jobs_of (job_results_of results j)))).
Proof.
  intros Hrun Hj.
  apply write_html_pages_ok in Hrun
    as (cats & mlog & jlog & Hcats & -> & -> & HFm & HFj).
  destruct (classified results j Hcats Hj) as (c & Hc & _).
  assert (Hjob_pages : forall f l,
            In ("job", j, f) (map module_page l ++ map job_page (paged_jobs results))%list ->
            In j (paged_jobs results)).
  { intros f l H. apply in_app_or in H as [H | H].
    - apply in_map_iff in H as (m & Hm & _). discriminate Hm.
    - apply in_map_iff in H as (j' & Hj' & Hin). inversion Hj'; subst.
      assumption. }
  split; [exists c; assumption|]. split.
  - intros Hsws f H. apply Hjob_pages in H.
    apply in_paged_jobs in H as [_ [H | H]];
      unfold category_is in Hsws; congruence.
  - intros Hcat.
    assert (Hpaged : In j (paged_jobs results))
      by (apply in_paged_jobs; auto).
    split; [|split; [|split]].
    + apply in_split in Hpaged as (l1 & l2 & Hsplit).
      pose proof (nodup_paged_jobs results) as Hnd. rewrite Hsplit in Hnd.
      exists (map module_page
                (Py.sorted (Py.leb_of String.compare)
                   (Py.set_of String.eqb (map module_name results)))
              ++ map job_page l1)%list, (map job_page l2).
      split.
      { rewrite Hsplit, map_app. simpl. rewrite <- app_assoc. reflexivity. }
      intros f H. rewrite <- app_assoc in H.
      apply in_app_or in H as [H | H].
      { apply in_map_iff in H as (m & Hm & _). discriminate Hm. }
      rewrite <- map_app in H.
      apply in_map_iff in H as (j' & Hj' & Hin). inversion Hj'; subst j'.
      apply NoDup_remove_2 in Hnd. contradiction.
    + pose proof (last_xml_job_pages
                    (fun j root =>
                       build_job_html import_module rst j
                         (job_results_of results j) = Ok root)
                    HFj (nodup_paged_jobs results) j) as Hlast.
      replace (existsb (String.eqb j) (paged_jobs results)) with true in Hlast
        by (symmetry; apply existsb_eqb_in; assumption).
      destruct Hlast as (root & Hroot & Hlast).
      apply build_job_html_ok in Hroot as (table & Ht & ->).
      exists table. split; [assumption|].
      change (Mkdir out :: mlog ++ jlog)%list
        with ((Mkdir out :: mlog) ++ jlog)%list.
      rewrite last_xml_app, Hlast. reflexivity.
    + intros r. apply in_job_results_of.
    + intros r Hr. apply in_jobs_of. exists r. auto.
Qed.

(** C4, as stated, fails on a server with services: the job is classified,
    and no page is written for it. *)
Lemma C4_counterexample :
  let rs := [sample_result "foo-atheme" "irctest.server_tests.x" "T" "test_a"] in
  In "foo-atheme" (jobs_of rs)
  /\ for_each (jobs_of rs) (classify rs) []
     = Ok [("foo-atheme", server_with_services)]
  /\ exists log,
       write_html_pages plain_catalog plain_rst "out" rs
       = (log, Ok [module_page "irctest.server_tests.x"])
       /\ last_xml log "out" "foo-atheme.xhtml" = None.
Proof.
  cbv zeta. split; [left; reflexivity|]. split; [vm_compute; reflexivity|].
  eexists. split; [vm_compute; reflexivity|]. vm_compute. reflexivity.
Qed.

(** The columns of the page of a module, in a run whose classifier went
    through: the jobs whose category is that of the job of some result of
    the module that is not skipped. *)
Lemma module_jobs_of_ok results cats m cols :
  for_each (jobs_of results) (classify results) [] = Ok cats ->
  module_jobs_of results (jobs_of results) cats m = Ok cols ->
  forall j,
    In j cols
    <-> In j (jobs_of results)
        /\ exists r c, In r results /\ module_name r = m
                       /\ skipped r = false
                       /\ category_is results (job r) c
                       /\ category_is results j c.
Proof.
  intros Hcats H j. unfold module_jobs_of in H.
  apply bind_ok in H as (mc & Hmc & H).
  apply jobs_in_ok in H. subst cols. rewrite filter_In.
  destruct (job_categories_ok _ Hcats) as [_ Hget].
  unfold module_categories_of in Hmc.
  split.
  - intros [Hj Hex]. split; [assumption|].
    destruct (Py.dict_get String.eqb j cats) as [c|] eqn:Ej; [|discriminate].
    apply existsb_exists in Hex as (c' & Hc' & Heq).
    apply category_eqb_eq in Heq. subst c'.
    destruct (map_result_in _ _ Hmc c Hc') as (r & Hr & Hcr).
    apply filter_In in Hr as [Hr Hf].
    apply andb_prop in Hf as [Hm Hs].
    apply String.eqb_eq in Hm. apply negb_true_iff in Hs.
    unfold category_of in Hcr.
    destruct (Py.dict_get String.eqb (job r) cats) as [c0|] eqn:Er;
      [|discriminate].
    inversion Hcr; subst c0.
    exists r, c. unfold category_is.
    apply Hget in Er. apply Hget in Ej. tauto.
  - intros [Hj (r & c & Hr & Hm & Hs & Hcr & Hcj)]. split; [assumption|].
    unfold category_is in *.
    rewrite (proj2 (Hget j c) (conj Hj Hcj)).
    apply existsb_exists. exists c. split; [|apply category_eqb_eq; reflexivity].
    assert (Hin : In r (filter (fun result =>
                                  (module_name result =? m)
                                  && negb (skipped result)) results)).
    { apply filter_In. split; [assumption|].
      rewrite Hm, String.eqb_refl, Hs. reflexivity. }
    destruct (map_result_ok _ _ Hmc) as [_ Hall].
    destruct (Hall r Hin) as (c' & Hc' & Hin').
    unfold category_of in Hc'.
    assert (Hjr : In (job r) (jobs_of results))
      by (apply in_jobs_of; eauto).
    rewrite (proj2 (Hget (job r) c) (conj Hjr Hcr)) in Hc'.
    inversion Hc'; subst. assumption.
Qed.

Lemma category_of_client_module results r c :
  In r results -> Py.contains "client_tests" (module_name r) = true ->
  job_category results (job r) = Ok c -> c = client.
Proof.
  intros Hr Hm Hc.
  assert (Hcl : is_client results (job r) = true)
    by (apply is_client_iff; eauto).
  rewrite job_category_cases, Hcl in Hc.
  destruct (Py.endswith_any (job r) ["-atheme"; "-anope"; "-dlk"]),
    (is_server results (job r)); simpl in Hc; congruence.
Qed.

Lemma category_of_server_module results r c :
  In r results -> Py.contains "server_tests" (module_name r) = true ->
  job_category results (job r) = Ok c -> c <> client.
Proof.
  intros Hr Hm Hc.
  assert (Hsv : is_server results (job r) = true)
    by (apply is_server_iff; eauto).
  rewrite job_category_cases, Hsv in Hc.
  destruct (Py.endswith_any (job r) ["-atheme"; "-anope"; "-dlk"]),
    (is_client results (job r)); simpl in Hc; congruence.
Qed.

Lemma forall2_in_l A B (P : A -> B -> Prop) l l' x :
  Forall2 P l l' -> In x l -> exists y, In y l' /\ P x y.
Proof.
  induction 1 as [|a b l l' Hab HF IH]; intros Hin; [contradiction|].
  destruct Hin as [<- | Hin].
  - exists b. simpl. auto.
  - destruct (IH Hin) as (y & ? & ?). exists y. simpl. auto.
Qed.

(** C7, as amended. In a run that completes, the page of a module offers as
    columns exactly the jobs whose category is the category of the job of
    some result of that module that is not skipped; so a job whose category
    none of these results exhibits is no column. On the page of a module
    whose name marks it a client-suite module every column is a client; on
    that of a server-suite module no column is. *)
Theorem C7_module_columns import_module rst out results log pages m :
  write_html_pages import_module rst out results = (log, Ok pages) ->
  In m (map module_name results) ->
  exists cats cols root,
    for_each (jobs_of results) (classify results) [] = Ok cats
    /\ module_jobs_of results (jobs_of results) cats m = Ok cols
    /\ build_module_html import_module rst cols (module_results_of results m) m
       = Ok root
    /\ In (WriteXml out (m ++ ".xhtml") (with_namespace root)) log
    /\ In (module_page m) pages
    /\ (forall j,
          In j cols
          <-> In j (jobs_of results)
              /\ exists r c, In r results /\ module_name r = m
                             /\ skipped r = false
                             /\ category_is results (job r) c
                             /\ category_is results j c)
    /\ (Py.contains "client_tests" m = true ->
        forall j, In j cols -> category_is results j client)
    /\ (Py.contains "server_tests" m = true ->
        forall j, In j cols -> ~ category_is results j client).
Proof.
  intros Hrun Hm.
  apply write_html_pages_ok in Hrun
    as (cats & mlog & jlog & Hcats & -> & -> & HFm & HFj).
  assert (Hin : In m (Py.sorted (Py.leb_of String.compare)
                        (Py.set_of String.eqb (map module_name results)))).
  { apply in_sorted. apply (proj2 (@in_set_of _ _ String.eqb_spec _ _)).
    assumption. }
  destruct (forall2_in_l _ HFm Hin) as (e & He & cols & root & Hcols & Hroot & ->).
  exists cats, cols, root.
  pose proof (module_jobs_of_ok results m Hcats Hcols) as Hiff.
  split; [assumption|]. split; [assumption|]. split; [assumption|].
  split; [right; apply in_or_app; left; assumption|].
  split; [apply in_or_app; left; apply in_map; assumption|].
  split; [exact Hiff|]. split.
  - intros Hc j Hj. apply Hiff in Hj as [_ (r & c & Hr & <- & _ & Hcr & Hcj)].
    unfold category_is in *.
    rewrite (category_of_client_module results r Hr Hc Hcr) in Hcj.
    assumption.
  - intros Hs j Hj Hcl.
    apply Hiff in Hj as [_ (r & c & Hr & <- & _ & Hcr & Hcj)].
    unfold category_is in *.
    apply (category_of_server_module results r Hr Hs Hcr). congruence.
Qed.

(** C7, as stated, fails on a module whose name marks it neither a client
    nor a server module: a client job and a server job that both have a
    result there are both columns of its page. *)
Lemma C7_counterexample :
  let rs := [ sample_result "c" "irctest.client_tests.a" "A" "test_a";
              sample_result "s" "irctest.server_tests.b" "B" "test_b";
              sample_result "c" "misc" "M" "test_m";
              sample_result "s" "misc" "M" "test_m" ] in
  category_is rs "c" client
  /\ category_is rs "s" server
  /\ module_jobs_of rs (jobs_of rs) [("c", client); ("s", server)] "misc"
     = Ok ["c"; "s"]
  /\ exists log pages root,
       write_html_pages plain_catalog plain_rst "out" rs = (log, Ok pages)
       /\ build_module_html plain_catalog plain_rst ["c"; "s"]
            (module_results_of rs "misc") "misc" = Ok root
       /\ last_xml log "out" "misc.xhtml" = Some (with_namespace root).
Proof.
  cbv zeta. split; [vm_compute; reflexivity|].
  split; [vm_compute; reflexivity|]. split; [vm_compute; reflexivity|].
  eexists _, _, _. split; [vm_compute; reflexivity|].
  split; vm_compute; reflexivity.
Qed.

(** ** The pages do not depend on the order of the results *)

Lemma pair_eqb_spec x y : reflect (x = y) (Py.pair_eqb x y).
Proof.
  destruct x as [a b], y as [c d]. unfold Py.pair_eqb. simpl.
  destruct (String.eqb_spec a c), (String.eqb_spec b d); simpl;
    constructor; congruence.
Qed.

Lemma existsb_permutation A (f : A -> bool) l l' :
  Permutation l l' -> existsb f l = existsb f l'.
Proof.
  induction 1; simpl.
  - reflexivity.
  - rewrite IHPermutation. reflexivity.
  - destruct (f x), (f y); reflexivity.
  - congruence.
Qed.

Lemma filter_permutation A (f : A -> bool) l l' :
  Permutation l l' -> Permutation (filter f l) (filter f l').
Proof.
  induction 1; simpl.
  - constructor.
  - destruct (f x); [constructor|]; assumption.
  - destruct (f x), (f y); try reflexivity. apply perm_swap.
  - etransitivity; eassumption.
Qed.

Section SortedKeys.

Variables TK TV : Type.
Variable eqb : TK -> TK -> bool.
Hypothesis eqb_spec : forall x y, reflect (x = y) (eqb x y).
Variable cmp : TK -> TK -> comparison.
Hypothesis laws : order_laws cmp.
Variable key : TV -> TK.

Lemma sorted_keys_permutation l l' :
  Permutation l l' ->
  Py.sorted (Py.leb_of cmp) (Py.set_of eqb (map key l))
  = Py.sorted (Py.leb_of cmp) (Py.set_of eqb (map key l')).
Proof.
  intros H. apply (sorted_permutation laws).
  apply (@set_of_permutation _ _ eqb_spec). apply Permutation_map. assumption.
Qed.

End SortedKeys.

Lemma jobs_of_permutation rs rs' :
  Permutation rs rs' -> jobs_of rs = jobs_of rs'.
Proof.
  intros H. apply (@sorted_keys_permutation _ _ _ String.eqb_spec _ string_order job _ _ H).
Qed.

Lemma job_category_permutation rs rs' j :
  Permutation rs rs' -> job_category rs j = job_category rs' j.
Proof.
  intros H. rewrite !job_category_cases.
  unfold is_client, is_server.
  rewrite !(existsb_permutation _ H). reflexivity.
Qed.

Lemma for_each_ext A S (body body' : A -> S -> result S) l :
  (forall x s, In x l -> body x s = body' x s) ->
  forall s, for_each l body s = for_each l body' s.
Proof.
  induction l as [|x l IH]; intros Hb s; simpl; [reflexivity|].
  rewrite Hb by (left; reflexivity).
  destruct (body' x s); simpl; [|reflexivity].
  apply IH. intros y s' Hy. apply Hb. right. assumption.
Qed.

Lemma io_for_each_ext A S (body body' : A -> S -> io S) l :
  (forall x s, In x l -> body x s = body' x s) ->
  forall s, io_for_each l body s = io_for_each l body' s.
Proof.
  induction l as [|x l IH]; intros Hb s; simpl; [reflexivity|].
  rewrite Hb by (left; reflexivity).
  destruct (body' x s) as [w [s'|e]]; simpl; [|reflexivity].
  rewrite IH; [reflexivity|]. intros y s0 Hy. apply Hb. right. assumption.
Qed.

Lemma io_for_each_map A B S (h : A -> B) (body : B -> S -> io S) l :
  forall s, io_for_each (map h l) body s
            = io_for_each l (fun x => body (h x)) s.
Proof.
  induction l as [|x l IH]; intros s; simpl; [reflexivity|].
  destruct (body (h x) s) as [w [s'|e]]; simpl; [|reflexivity].
  rewrite IH. reflexivity.
Qed.

Lemma map_result_ext A B (f f' : A -> result B) l :
  (forall x, In x l -> f x = f' x) -> map_result f l = map_result f' l.
Proof.
  induction l as [|x l IH]; intros Hf; simpl; [reflexivity|].
  rewrite Hf by (left; reflexivity).
  rewrite IH; [reflexivity|]. intros y Hy. apply Hf. right. assumption.
Qed.

Lemma map_result_map A B C (h : A -> B) (f : B -> result C) l :
  map_result f (map h l) = map_result (fun x => f (h x)) l.
Proof.
  induction l as [|x l IH]; simpl; [reflexivity|].
  rewrite IH. reflexivity.
Qed.

(** A comprehension whose element can only raise one exception: permuting
    the list permutes the values, or raises the same exception. *)
Lemma map_result_permutation A B (f : A -> result B) e0 l l' :
  (forall x e, f x = Raise e -> e = e0) ->
  Permutation l l' ->
  match map_result f l, map_result f l' with
  | Ok ys, Ok ys' => Permutation ys ys'
  | Raise e, Raise e' => e = e0 /\ e' = e0
  | _, _ => False
  end.
Proof.
  intros Hf. induction 1 as [|x l l' Hp IH|x y l|l l' l'' Hp IH Hp' IH'];
    simpl.
  - constructor.
  - destruct (f x) eqn:Ex; simpl; [|split; eapply Hf; eassumption].
    destruct (map_result f l), (map_result f l'); simpl; auto.
  - destruct (f x) eqn:Ex, (f y) eqn:Ey; simpl;
      try (split; eapply Hf; eassumption).
    destruct (map_result f l) eqn:El; simpl.
    + apply perm_swap.
    + clear Ex Ey. revert e El. induction l as [|z l IHl]; intros e El;
        simpl in El; [discriminate|].
      destruct (f z) eqn:Ez; simpl in El.
      * destruct (map_result f l); simpl in El; [discriminate|].
        inversion El; subst. apply (IHl e). reflexivity.
      * inversion El; subst. split; eapply Hf; eassumption.
  - destruct (map_result f l), (map_result f l'), (map_result f l'');
      try contradiction; try tauto.
    etransitivity; eassumption.
Qed.

Lemma permutation_singleton A (x : A) l : Permutation [x] l -> l = [x].
Proof. apply Permutation_length_1_inv. Qed.

(** A cell reads the results of its job only when there is exactly one. *)
Lemma build_cell_permutation g g' j :
  Permutation g g' ->
  build_cell (group_by String.eqb g job) j
  = build_cell (group_by String.eqb g' job) j.
Proof.
  intros H. unfold build_cell.
  rewrite !(@dict_get_group_by _ _ _ String.eqb_spec).
  rewrite (existsb_permutation _ (Permutation_map job H)).
  destruct (existsb (String.eqb j) (map job g')); [|reflexivity].
  pose proof (filter_permutation (fun v => job v =? j) H) as Hf.
  destruct (filter (fun v => job v =? j) g) as [|r [|r2 l]].
  - apply Permutation_nil in Hf. rewrite Hf. reflexivity.
  - apply permutation_singleton in Hf. rewrite Hf. reflexivity.
  - destruct (filter (fun v => job v =? j) g') as [|r' [|r2' l']].
    + symmetry in Hf. apply Permutation_nil in Hf. discriminate.
    + symmetry in Hf. apply permutation_singleton in Hf. discriminate.
    + reflexivity.
Qed.

Lemma build_row_permutation jobs q t g g' :
  Permutation g g' -> build_row jobs q (t, g) = build_row jobs q (t, g').
Proof.
  intros H. unfold build_row.
  rewrite (map_result_ext (build_cell (group_by String.eqb g job))
             (build_cell (group_by String.eqb g' job))); [reflexivity|].
  intros j _. apply build_cell_permutation. assumption.
Qed.

Section Renderer.

Variable import_module : string -> option module_object.
Variable rst_to_element : string -> result Element.

Lemma build_class_permutation jobs mm job_row k g g' :
  Permutation g g' ->
  build_class import_module rst_to_element jobs mm job_row (k, g)
  = build_class import_module rst_to_element jobs mm job_row (k, g').
Proof.
  intros H. unfold build_class. destruct k as [m c].
  destruct (import import_module m) as [module|]; simpl; [|reflexivity].
  destruct (getattr module c) as [cls|]; simpl; [|reflexivity].
  destruct (append_docstring rst_to_element _ cls) as [th|]; simpl;
    [|reflexivity].
  rewrite !(@sorted_group_by _ _ _ String.eqb_spec).
  rewrite (@sorted_keys_permutation _ _ _ String.eqb_spec _ string_order
             test_name _ _ H).
  rewrite !map_result_map.
  rewrite (map_result_ext
             (fun x => build_row jobs (if mm then m ++ "." ++ c else c)
                         (x, filter (fun v => test_name v =? x) g))
             (fun x => build_row jobs (if mm then m ++ "." ++ c else c)
                         (x, filter (fun v => test_name v =? x) g')));
    [reflexivity|].
  intros t _. apply build_row_permutation. apply filter_permutation.
  assumption.
Qed.

Lemma build_test_table_permutation jobs rs rs' :
  Permutation rs rs' ->
  build_test_table import_module rst_to_element jobs rs
  = build_test_table import_module rst_to_element jobs rs'.
Proof.
  intros H. unfold build_test_table.
  rewrite (Permutation_length
             (@set_of_permutation _ _ String.eqb_spec _ _
                (Permutation_map module_name H))).
  rewrite !(@sorted_group_by _ _ _ pair_eqb_spec).
  rewrite (@sorted_keys_permutation _ _ _ pair_eqb_spec _
             (pair_order string_order string_order)
             (fun r => (module_name r, class_name r)) _ _ H).
  rewrite !map_result_map.
  match goal with
  | |- bind (map_result ?f ?l) _ = bind (map_result ?f' ?l) _ =>
      rewrite (map_result_ext f f' l); [reflexivity|]
  end.
  intros k _. apply build_class_permutation. apply filter_permutation.
  assumption.
Qed.

Lemma build_job_html_permutation j rs rs' :
  Permutation rs rs' ->
  build_job_html import_module rst_to_element j rs
  = build_job_html import_module rst_to_element j rs'.
Proof.
  intros H. unfold build_job_html.
  rewrite (jobs_of_permutation H), (build_test_table_permutation _ H).
  reflexivity.
Qed.

Lemma build_module_html_permutation jobs rs rs' m :
  Permutation rs rs' ->
  build_module_html import_module rst_to_element jobs rs m
  = build_module_html import_module rst_to_element jobs rs' m.
Proof.
  intros H. unfold build_module_html.
  rewrite (build_test_table_permutation _ H). reflexivity.
Qed.

Lemma jobs_in_categories_permutation cats mc mc' jobs :
  Permutation mc mc' -> jobs_in cats mc jobs = jobs_in cats mc' jobs.
Proof.
  intros H. unfold jobs_in.
  rewrite (map_result_ext
             (fun j => c <- category_of cats j ;;
                       Ok (j, existsb (category_eqb c) mc))
             (fun j => c <- category_of cats j ;;
                       Ok (j, existsb (category_eqb c) mc')));
    [reflexivity|].
  intros j _. destruct (category_of cats j); simpl; [|reflexivity].
  rewrite (existsb_permutation _ H). reflexivity.
Qed.

Lemma module_jobs_of_permutation rs rs' jobs cats m :
  Permutation rs rs' ->
  module_jobs_of rs jobs cats m = module_jobs_of rs' jobs cats m.
Proof.
  intros H. unfold module_jobs_of, module_categories_of.
  pose proof (@map_result_permutation _ _
                (fun result => category_of cats (job result)) KeyError
                (filter (fun result => (module_name result =? m)
                                       && negb (skipped result)) rs)
                (filter (fun result => (module_name result =? m)
                                       && negb (skipped result)) rs'))
    as Hp.
  match type of Hp with
  | ?P -> ?Q -> _ =>
      assert (H1 : P); [|assert (H2 : Q); [|specialize (Hp H1 H2)]]
  end.
  { intros x e. unfold category_of.
    destruct (Py.dict_get String.eqb (job x) cats); congruence. }
  { apply filter_permutation. assumption. }
  destruct (map_result _ (filter _ rs)) as [mc|e],
           (map_result _ (filter _ rs')) as [mc'|e']; simpl;
    try contradiction.
  - apply jobs_in_categories_permutation. assumption.
  - destruct Hp; congruence.
Qed.

Lemma io_bind_ext A B (m : io A) (f f' : A -> io B) :
  (forall a, f a = f' a) -> io_bind m f = io_bind m f'.
Proof.
  intros H. unfold io_bind. destruct m as [w [a|e]]; [|reflexivity].
  rewrite H. reflexivity.
Qed.

Lemma write_module_page_permutation out rs rs' jobs cats m pages :
  Permutation rs rs' ->
  write_module_page import_module rst_to_element out rs jobs cats
    (m, filter (fun v => module_name v =? m) rs) pages
  = write_module_page import_module rst_to_element out rs' jobs cats
      (m, filter (fun v => module_name v =? m) rs') pages.
Proof.
  intros H. unfold write_module_page.
  rewrite (module_jobs_of_permutation jobs cats m H).
  apply io_bind_ext. intros cols.
  rewrite (build_module_html_permutation cols m
             (filter_permutation (fun v => module_name v =? m) H)).
  reflexivity.
Qed.

Lemma write_job_page_permutation out rs rs' j pages :
  Permutation rs rs' ->
  write_job_page import_module rst_to_element out rs j pages
  = write_job_page import_module rst_to_element out rs' j pages.
Proof.
  intros H. unfold write_job_page, job_results_of.
  rewrite (build_job_html_permutation j (filter_permutation _ H)).
  reflexivity.
Qed.

Lemma write_html_pages_permutation out rs rs' :
  Permutation rs rs' ->
  write_html_pages import_module rst_to_element out rs
  = write_html_pages import_module rst_to_element out rs'.
Proof.
  intros H. unfold write_html_pages.
  apply io_bind_ext. intros _.
  rewrite (jobs_of_permutation H).
  rewrite (for_each_ext (classify rs) (classify rs')).
  2:{ intros j d _. unfold classify.
      rewrite (job_category_permutation j H). reflexivity. }
  apply io_bind_ext. intros cats.
  rewrite !(@sorted_group_by _ _ _ String.eqb_spec).
  rewrite (@sorted_keys_permutation _ _ _ String.eqb_spec _ string_order
             module_name _ _ H).
  rewrite !io_for_each_map.
  match goal with
  | |- io_bind (io_for_each ?l ?b ?s) _ = io_bind (io_for_each ?l ?b' ?s) _ =>
      rewrite (io_for_each_ext b b' l)
  end.
  2:{ intros m pages _. apply write_module_page_permutation. assumption. }
  apply io_bind_ext. intros pages.
  apply io_for_each_ext. intros c pages' _.
  apply io_bind_ext. intros js.
  apply io_for_each_ext. intros j pages'' _.
  apply write_job_page_permutation. assumption.
Qed.

(** C8. The pages that are written, their documents and their order, and
    with them the index, are the same for any two orders of the same
    results: the jobs that head the columns, the modules, the classes and
    the tests are taken in the order of [sorted], and a cell reads the
    results of its job only when there is exactly one. *)
Theorem C8_pages_independent_of_input_order out rs rs' :
  Permutation rs rs' ->
  write_html_pages import_module rst_to_element out rs
  = write_html_pages import_module rst_to_element out rs'
  /\ (pages <~ write_html_pages import_module rst_to_element out rs ;;
      write_html_index import_module rst_to_element out pages)
     = (pages <~ write_html_pages import_module rst_to_element out rs' ;;
        write_html_index import_module rst_to_element out pages)
  /\ (forall jobs, build_test_table import_module rst_to_element jobs rs
                   = build_test_table import_module rst_to_element jobs rs')
  /\ jobs_of rs = jobs_of rs'
  /\ StronglySorted (le_of String.compare) (jobs_of rs)
  /\ StronglySorted (le_of String.compare)
       (map fst (Py.sorted_items String.compare
                   (group_by String.eqb rs module_name))).
Proof.
  intros H.
  pose proof (write_html_pages_permutation out H) as Hpages.
  split; [assumption|]. split; [rewrite Hpages; reflexivity|].
  split; [intros jobs; apply build_test_table_permutation; assumption|].
  split; [apply jobs_of_permutation; assumption|].
  split; [apply (sorted_sorted string_order)|].
  rewrite (@sorted_group_by _ _ _ String.eqb_spec), map_map. simpl.
  rewrite map_id. apply (sorted_sorted string_order).
Qed.

End Renderer.

(** ** More on the record parser *)

Lemma iter_cases_named path cases :
  iter_cases path cases = iter_cases path (filter has_name cases).
Proof.
  induction cases as [|c cs IH]; [reflexivity|].
  cbn [iter_cases filter]. unfold has_name at 1.
  destruct (get c "name") as [n|] eqn:E.
  - cbn [iter_cases]. rewrite E, IH. reflexivity.
  - exact IH.
Qed.

(** X1. A case without a [name] attribute is passed over with all that is
    below it: a record parses exactly as it does once these cases are
    taken out, whatever their children are. *)
Theorem unnamed_cases_are_ignored path root :
  iter_job_results path root = iter_job_results path (named_only root).
Proof.
  unfold iter_job_results, named_only. destruct root as [t a x cs].
  cbn [children with_children].
  destruct cs as [|s [|s' cs']]; cbn [map]; try reflexivity.
  destruct s as [t' a' x' cs']. cbn [children with_children].
  apply iter_cases_named.
Qed.

Lemma iter_cases_names path cases : forall rs,
  iter_cases path cases = Ok rs -> map test_name rs = case_names cases.
Proof.
  induction cases as [|c cs IH]; intros rs H.
  - cbn in H. injection H as <-. reflexivity.
  - cbn [iter_cases] in H. cbn [case_names flat_map].
    destruct (get c "name") as [n|] eqn:E.
    + apply bind_ok in H. destruct H as (r & Hr & H).
      apply bind_ok in H. destruct H as (rs' & Hrs & H).
      injection H as <-. cbn [map app]. f_equal.
      * apply case_result_ok in Hr. destruct Hr as (v & _ & Hy).
        apply yield_result_ok in Hy. tauto.
      * apply IH. exact Hrs.
    + cbn [app]. apply IH. exact H.
Qed.

(** X2. A record that parses has exactly one suite, and yields one result
    for each case that bears a name, in the order of the cases: the test
    names of the results are the names of these cases. *)
Theorem results_follow_named_cases path root rs :
  iter_job_results path root = Ok rs ->
  exists suite,
    children root = [suite]
    /\ map test_name rs = case_names (children suite)
    /\ List.length rs = List.length (filter has_name (children suite)).
Proof.
  unfold iter_job_results. intros H.
  destruct (children root) as [|s [|s' cs']]; try discriminate.
  exists s. split; [reflexivity|].
  pose proof (iter_cases_names _ _ H) as N. split; [exact N|].
  rewrite <- (length_map test_name), N.
  clear. induction (children s) as [|c cs IH]; [reflexivity|].
  cbn [case_names flat_map filter]. unfold has_name at 1.
  destruct (get c "name"); cbn [app List.length]; fold (case_names cs); lia.
Qed.

Lemma rsplit_dot_ok s : forall a b,
  Py.rsplit_dot s = Some (a, b) ->
  s = a ++ "." ++ b /\ Py.mem_char "." b = false.
Proof.
  induction s as [|c s IH]; intros a b H; [discriminate|].
  cbn [Py.rsplit_dot] in H.
  destruct (Py.rsplit_dot s) as [[a' b']|] eqn:E.
  - injection H as <- <-. destruct (IH _ _ eq_refl) as [-> Hb].
    split; [reflexivity | exact Hb].
  - destruct (Ascii.eqb_spec c ".") as [->|]; [|discriminate].
    injection H as <- <-. split; [reflexivity|].
    clear IH. induction s as [|d s IH]; [reflexivity|].
    cbn [Py.rsplit_dot] in E. destruct (Py.rsplit_dot s) as [[? ?]|];
      [discriminate|].
    destruct (Ascii.eqb_spec d ".") as [->|N]; [discriminate|].
    cbn [Py.mem_char]. rewrite IH by reflexivity.
    destruct (Ascii.eqb_spec "." d); [congruence | reflexivity].
Qed.

Lemma rsplit_dot_none s :
  Py.mem_char "." s = false -> Py.rsplit_dot s = None.
Proof.
  induction s as [|c s IH]; [reflexivity|].
  cbn [Py.mem_char Py.rsplit_dot]. intros H.
  apply orb_false_iff in H. destruct H as [H1 H2].
  rewrite (IH H2). rewrite Ascii.eqb_sym, H1. reflexivity.
Qed.

Lemma yield_result_classname path case name v r :
  yield_result path case name v = Ok r ->
  get case "classname" = Some (module_name r ++ "." ++ class_name r)
  /\ Py.mem_char "." (class_name r) = false.
Proof.
  unfold yield_result. intros H.
  destruct (get case "classname") as [c|]; [|discriminate].
  cbn [bind] in H.
  destruct (Py.rsplit_dot c) as [[m k]|] eqn:E; [|discriminate].
  cbn [bind] in H.
  destruct (Re.rmatch job_file_pattern path) as [g|]; [|discriminate].
  cbn [bind] in H.
  destruct (Re.group "name" g) as [j|]; [|discriminate].
  cbn [bind] in H.
  apply new_CaseResult_ok in H. subst r. cbn [module_name class_name].
  apply rsplit_dot_ok in E. destruct E as [-> Hk].
  split; [reflexivity | exact Hk].
Qed.

Lemma iter_cases_forall2 path cases : forall rs,
  iter_cases path cases = Ok rs ->
  Forall2 (fun case r => case_result path case (test_name r) = Ok r
                         /\ get case "name" = Some (test_name r))
    (filter has_name cases) rs.
Proof.
  induction cases as [|c cs IH]; intros rs H.
  - cbn in H. injection H as <-. constructor.
  - cbn [iter_cases] in H. cbn [filter]. unfold has_name at 1.
    destruct (get c "name") as [n|] eqn:E.
    + apply bind_ok in H. destruct H as (r & Hr & H).
      apply bind_ok in H. destruct H as (rs' & Hrs & H).
      injection H as <-. constructor; [|apply IH; exact Hrs].
      assert (test_name r = n) as ->.
      { apply case_result_ok in Hr. destruct Hr as (v & _ & Hy).
        apply yield_result_ok in Hy. tauto. }
      split; [exact Hr | exact E].
    + apply IH. exact H.
Qed.

(** X3. The module and the class of a result are the two sides of the
    last dot of the [classname] attribute of its case: joined by a dot they
    give the attribute back, and the class holds no dot. *)
Theorem class_names_split_at_last_dot path root rs :
  iter_job_results path root = Ok rs ->
  exists suite,
    children root = [suite]
    /\ Forall2
         (fun case r =>
            get case "classname"
            = Some (module_name r ++ "." ++ class_name r)
            /\ Py.mem_char "." (class_name r) = false)
         (filter has_name (children suite)) rs.
Proof.
  unfold iter_job_results. intros H.
  destruct (children root) as [|s [|s' cs']]; try discriminate.
  exists s. split; [reflexivity|].
  apply iter_cases_forall2 in H.
  induction H as [|c r cs rs' [Hr _] _ IH]; constructor; [|exact IH].
  apply case_result_ok in Hr. destruct Hr as (v & _ & Hy).
  eapply yield_result_classname. exact Hy.
Qed.

Lemma child_step_coherent c v w :
  coherent v -> child_step c v = Ok w -> coherent w.
Proof.
  unfold child_step, coherent. intros [H1 H2] H.
  destruct (tag c =? "skipped").
  { injection H as <-. cbn. tauto. }
  destruct ((tag c =? "failure") || (tag c =? "error")).
  { injection H as <-. cbn. split; discriminate. }
  destruct (tag c =? "system-out"); [|discriminate].
  apply bind_ok in H. destruct H as (_ & _ & H). injection H as <-.
  cbn. tauto.
Qed.

Lemma for_each_coherent cs : forall v w,
  coherent v -> for_each cs child_step v = Ok w -> coherent w.
Proof.
  induction cs as [|c cs IH]; intros v w Hv H.
  - cbn in H. injection H as <-. exact Hv.
  - cbn [for_each] in H. apply bind_ok in H. destruct H as (v' & Hc & H).
    eapply IH; [|exact H]. eapply child_step_coherent; eassumption.
Qed.

(** X4. Whatever the children of a case are and however they are ordered,
    a result that is parsed is never a skipped failure, and a success
    carries no details. *)
Theorem skipped_results_are_successes path root rs r :
  iter_job_results path root = Ok rs -> In r rs ->
  (skipped r = true -> success r = true)
  /\ (success r = true -> details r = None).
Proof.
  intros H Hin.
  destruct (iter_job_results_ok _ _ H _ Hin) as (s & c & n & _ & _ & _ & Hr).
  apply case_result_ok in Hr. destruct Hr as (v & Hv & Hy).
  apply yield_result_ok in Hy.
  destruct Hy as (_ & Hs & Hk & Hd & _).
  rewrite Hs, Hk, Hd.
  apply (for_each_coherent (children c) (v := case_vars_init)); [|exact Hv].
  split; [discriminate | reflexivity].
Qed.

Lemma for_each_unknown_child cs child : forall v,
  In child cs -> known_child child = false ->
  is_ok (for_each cs child_step v) = false.
Proof.
  induction cs as [|c cs IH]; intros v Hin Hk; [destruct Hin|].
  cbn [for_each]. destruct (child_step c v) as [v'|e] eqn:E; [|reflexivity].
  cbn [bind]. destruct Hin as [->|Hin]; [|apply IH; assumption].
  exfalso. unfold known_child, is_outcome in Hk.
  apply orb_false_iff in Hk. destruct Hk as [Hk Hs].
  apply orb_false_iff in Hk. destruct Hk as [Hk He].
  apply orb_false_iff in Hk. destruct Hk as [Hk Hf].
  unfold child_step in E. rewrite Hk, Hf, He, Hs in E. discriminate.
Qed.

(** X6. A case that bears a name and has a child that is neither an
    outcome nor a captured output makes the parsing of its record fail,
    wherever that child stands. *)
Theorem unknown_child_aborts path root suite case name child :
  children root = [suite] -> In case (children suite) ->
  get case "name" = Some name ->
  In child (children case) -> known_child child = false ->
  is_ok (iter_job_results path root) = false.
Proof.
  intros Hr Hc Hn Hin Hk.
  eapply iter_job_results_raise; try eassumption.
  unfold case_result.
  pose proof (for_each_unknown_child _ _ case_vars_init Hin Hk) as F.
  destruct (for_each (children case) child_step case_vars_init);
    [discriminate | reflexivity].
Qed.

Lemma for_each_keeps_extra cs : forall v w,
  forallb (fun x => negb (is_outcome x)) cs = true ->
  for_each cs child_step v = Ok w -> v_extra w = v_extra v.
Proof.
  induction cs as [|c cs IH]; intros v w Hall H.
  - cbn in H. injection H as <-. reflexivity.
  - cbn [forallb] in Hall. apply andb_true_iff in Hall.
    destruct Hall as [Hc Hall]. apply negb_true_iff in Hc.
    cbn [for_each] in H. apply bind_ok in H. destruct H as (v' & Hs & H).
    rewrite (IH _ _ Hall H).
    pose proof (child_step_other c v v Hc eq_refl) as O.
    rewrite Hs in O. destruct O as (_ & -> & _). reflexivity.
Qed.

(** X7. The attributes of the last outcome child of a case are passed to
    the constructor of the result as they are: when one of them is neither
    [type] nor [message], no result is built and the case fails. *)
Theorem foreign_attribute_aborts path case name pre c post :
  children case = (pre ++ c :: post)%list ->
  is_outcome c = true ->
  forallb (fun x => negb (is_outcome x)) post = true ->
  forallb result_field (attrib c) = false ->
  is_ok (case_result path case name) = false.
Proof.
  intros Hc Ho Hpost Hattr. unfold case_result. rewrite Hc.
  rewrite for_each_app.
  destruct (for_each pre child_step case_vars_init) as [v1|e]; [|reflexivity].
  cbn [bind for_each]. rewrite (child_step_outcome _ _ Ho). cbn [bind].
  destruct (for_each post child_step _) as [w|e] eqn:E; [|reflexivity].
  cbn [bind]. apply for_each_keeps_extra in E; [|exact Hpost].
  assert (v_extra w = attrib c) as X.
  { rewrite E. unfold outcome_vars.
    destruct (tag c =? "skipped"); reflexivity. }
  unfold yield_result.
  destruct (get case "classname"); [|reflexivity]. cbn [bind].
  destruct (Py.rsplit_dot s) as [[m k]|]; [|reflexivity]. cbn [bind].
  destruct (Re.rmatch job_file_pattern path); [|reflexivity]. cbn [bind].
  destruct (Re.group "name" g); [|reflexivity]. cbn [bind].
  unfold new_CaseResult. rewrite X.
  unfold result_field in Hattr. rewrite Hattr. reflexivity.
Qed.

(** X8. A case that bears a name and whose [classname] attribute is
    missing, or holds no dot to split at, makes the parsing of its record
    fail. *)
Theorem classname_needs_a_dot path root suite case name :
  children root = [suite] -> In case (children suite) ->
  get case "name" = Some name ->
  match get case "classname" with
  | Some c => Py.mem_char "." c = false
  | None => True
  end ->
  is_ok (iter_job_results path root) = false.
Proof.
  intros Hr Hc Hn Hd.
  eapply iter_job_results_raise; try eassumption.
  unfold case_result.
  destruct (for_each (children case) child_step case_vars_init) as [v|e];
    [|reflexivity].
  cbn [bind]. unfold yield_result.
  destruct (get case "classname") as [c|]; [|reflexivity].
  cbn [bind]. rewrite (rsplit_dot_none _ Hd). reflexivity.
Qed.

Lemma child_step_output c v w :
  child_step c v = Ok w ->
  v_system_out w = if tag c =? "system-out" then text c else v_system_out v.
Proof.
  unfold child_step.
  destruct (String.eqb_spec (tag c) "skipped") as [E|_].
  { rewrite E. intros H. injection H as <-. reflexivity. }
  destruct (String.eqb_spec (tag c) "failure") as [E|_].
  { rewrite E. intros H. injection H as <-. reflexivity. }
  destruct (String.eqb_spec (tag c) "error") as [E|_].
  { rewrite E. intros H. injection H as <-. reflexivity. }
  cbn [orb]. destruct (tag c =? "system-out"); [|discriminate].
  intros H. apply bind_ok in H as (_ & _ & H). injection H as <-. reflexivity.
Qed.

Lemma for_each_output cs : forall v w,
  for_each cs child_step v = Ok w ->
  v_system_out w
  = fold_left (fun found c => if tag c =? "system-out" then text c else found)
      cs (v_system_out v).
Proof.
  induction cs as [|c cs IH]; intros v w H.
  - cbn in H. injection H as <-. reflexivity.
  - cbn [for_each] in H. apply bind_ok in H as (v' & Hc & H).
    cbn [fold_left]. rewrite (IH _ _ H), (child_step_output _ _ Hc).
    reflexivity.
Qed.

(** X5. The captured output of a result is the text of the last
    [system-out] child of its case, and there is none when the case has no
    such child. *)
Theorem captured_output_is_the_last_one path case name r :
  case_result path case name = Ok r ->
  system_out r = last_output (children case).
Proof.
  intros H. apply case_result_ok in H as (v & Hv & Hy).
  apply yield_result_ok in Hy. destruct Hy as (_ & _ & _ & _ & -> & _).
  apply (for_each_output _ _ Hv).
Qed.

Lemma read_results_app parse l1 l2 :
  read_results parse (l1 ++ l2)
  = (rs1 <- read_results parse l1 ;;
     rs2 <- read_results parse l2 ;;
     Ok (rs1 ++ rs2)%list).
Proof.
  induction l1 as [|f l1 IH].
  - cbn [app read_results bind].
    destruct (read_results parse l2); reflexivity.
  - cbn [app read_results]. destruct (parse f) as [root|e]; [|reflexivity].
    cbn [bind]. destruct (iter_job_results f root) as [rs|e]; [|reflexivity].
    cbn [bind]. rewrite IH.
    destruct (read_results parse l1) as [rs1|e]; [|reflexivity].
    cbn [bind]. destruct (read_results parse l2) as [rs2|e]; [|reflexivity].
    cbn [bind]. rewrite app_assoc. reflexivity.
Qed.

(** X9. The results of a run are those of its records, record after
    record in the order of the file names, and every record was read and
    parsed without an error. *)
Theorem results_are_read_in_file_order parse filenames results :
  read_results parse filenames = Ok results ->
  exists per_file,
    results = List.concat per_file
    /\ Forall2
         (fun filename rs =>
            exists root,
              parse filename = Ok root
              /\ iter_job_results filename root = Ok rs)
         filenames per_file.
Proof.
  revert results. induction filenames as [|f fs IH]; intros results H.
  - cbn in H. injection H as <-. exists []. split; [reflexivity|constructor].
  - cbn [read_results] in H.
    apply bind_ok in H as (root & Hp & H).
    apply bind_ok in H as (rs & Hi & H).
    apply bind_ok in H as (rs' & Hr & H). injection H as <-.
    destruct (IH _ Hr) as (per_file & -> & HF).
    exists (rs :: per_file). split; [reflexivity|].
    constructor; [|exact HF]. exists root. auto.
Qed.

(** ** More on the file names of the captured outputs *)

Lemma matches_star cl s : forall g g',
  Re.matches (Re.Star cl) s g g'
  <-> all_chars (Re.accepts cl) s = true /\ g' = g.
Proof.
  induction s as [|c s IH]; intros g g'; split.
  - intros H; inversion H; subst; split; reflexivity.
  - intros [_ ->]; constructor.
  - intros H; inversion H; subst.
    match goal with H1 : Re.matches (Re.Star _) _ _ _ |- _ =>
      apply IH in H1 as [H1 _] end.
    split; [|reflexivity]. cbn [all_chars]. apply andb_true_iff. auto.
  - intros [H ->]. cbn [all_chars] in H. apply andb_true_iff in H as [Hc Hs].
    constructor; [assumption | apply IH; auto].
Qed.

Lemma matches_plus cl s g g' :
  Re.matches (Re.Plus cl) s g g'
  <-> s <> "" /\ all_chars (Re.accepts cl) s = true /\ g' = g.
Proof.
  split.
  - intros H; inversion H; subst.
    match goal with H1 : Re.matches (Re.Star _) _ _ _ |- _ =>
      apply matches_star in H1 as [H1 _] end.
    split; [discriminate|]. split; [|reflexivity].
    cbn [all_chars]. apply andb_true_iff. auto.
  - intros (Hn & H & ->). destruct s as [|c s]; [congruence|].
    cbn [all_chars] in H. apply andb_true_iff in H as [Hc Hs].
    constructor; [assumption | apply matches_star; auto].
Qed.

Lemma matches_plus_lazy cl s g g' :
  Re.matches (Re.PlusLazy cl) s g g'
  <-> s <> "" /\ all_chars (Re.accepts cl) s = true /\ g' = g.
Proof.
  split.
  - intros H; inversion H; subst.
    match goal with H1 : Re.matches (Re.Star _) _ _ _ |- _ =>
      apply matches_star in H1 as [H1 _] end.
    split; [discriminate|]. split; [|reflexivity].
    cbn [all_chars]. apply andb_true_iff. auto.
  - intros (Hn & H & ->). destruct s as [|c s]; [congruence|].
    cbn [all_chars] in H. apply andb_true_iff in H as [Hc Hs].
    constructor; [assumption | apply matches_star; auto].
Qed.

Lemma all_chars_dot s :
  all_chars (Re.accepts Re.Dot) s = true <-> no_line_feed s.
Proof.
  induction s as [|c s IH]; [split; reflexivity|].
  cbn [all_chars]. rewrite andb_true_iff, no_line_feed_cons, IH, accepts_dot.
  reflexivity.
Qed.

Lemma matches_test_name_pattern s m :
  Re.matches test_name_pattern s [] m
  <-> exists ident params,
        bracketed s ident params ""
        /\ m = [("params", params); ("function_name", ident)].
Proof.
  unfold test_name_pattern, bracketed. split.
  - intros H.
    apply (proj1 (matches_seq _ _ _ _ _)) in H as (i & s1 & g1 & -> & Hi & H).
    apply (proj1 (matches_named _ _ _ _ _)) in Hi as (g0 & Hi & ->).
    apply (proj1 (matches_plus_lazy _ _ _ _)) in Hi as (Hin & Hiw & ->).
    apply (proj1 (matches_seq _ _ _ _ _)) in H as (b & s2 & g2 & -> & Hb & H).
    apply (proj1 (matches_cls _ _ _ _)) in Hb as (c & -> & Hc & ->).
    cbn [Re.accepts] in Hc. apply Ascii.eqb_eq in Hc. subst c.
    apply (proj1 (matches_seq _ _ _ _ _)) in H as (p & s3 & g3 & -> & Hp & H).
    apply (proj1 (matches_named _ _ _ _ _)) in Hp as (g4 & Hp & ->).
    apply (proj1 (matches_plus _ _ _ _)) in Hp as (Hpn & Hpw & ->).
    apply (proj1 (matches_cls _ _ _ _)) in H as (c & -> & Hc & ->).
    cbn [Re.accepts] in Hc. apply Ascii.eqb_eq in Hc. subst c.
    exists i, p. split; [|reflexivity].
    split; [reflexivity|]. repeat split; try assumption.
    apply all_chars_dot. assumption.
  - intros (i & p & (-> & Hin & Hiw & Hpn & Hnl) & ->).
    apply matches_seq.
    exists i, ("[" ++ p ++ "]" ++ ""), [("function_name", i)].
    split; [reflexivity|]. split.
    { apply matches_named. exists []. split; [|reflexivity].
      apply matches_plus_lazy. auto. }
    apply matches_seq. exists "[", (p ++ "]" ++ ""), [("function_name", i)].
    split; [reflexivity|]. split.
    { apply matches_cls. exists "["%char. auto. }
    apply matches_seq.
    exists p, ("]" ++ ""), [("params", p); ("function_name", i)].
    split; [reflexivity|]. split.
    { apply matches_named. exists [("function_name", i)].
      split; [|reflexivity]. apply matches_plus. repeat split; auto.
      apply all_chars_dot. assumption. }
    apply matches_cls. exists "]"%char. auto.
Qed.

Lemma bracketed_rest name ident params tail :
  bracketed name ident params tail
  <-> exists s, name = s ++ tail /\ bracketed s ident params "".
Proof.
  unfold bracketed. split.
  - intros (-> & H). exists (ident ++ "[" ++ params ++ "]" ++ "").
    split; [|tauto].
    rewrite !append_assoc. reflexivity.
  - intros (s & -> & -> & H). split; [|exact H].
    rewrite !append_assoc. reflexivity.
Qed.

(** A match of the pattern of [output_filename] reads the name as
    [identifier[parameters]] followed by anything. *)
Lemma rmatch_test_name_sound name m :
  Re.rmatch test_name_pattern name = Some m ->
  exists ident params tail,
    bracketed name ident params tail
    /\ m = [("params", params); ("function_name", ident)].
Proof.
  intros H. apply rmatch_sound in H as (s1 & s2 & -> & H).
  apply matches_test_name_pattern in H as (i & p & Hb & ->).
  exists i, p, s2. split; [|reflexivity].
  apply bracketed_rest. exists s1. auto.
Qed.

Lemma rmatch_test_name_complete name ident params tail :
  bracketed name ident params tail ->
  Re.rmatch test_name_pattern name <> None.
Proof.
  intros H. apply bracketed_rest in H as (s & -> & H).
  eapply rmatch_complete. apply matches_test_name_pattern. eauto.
Qed.

(** X11. All that [output_filename] does. A name that needs no shortening
    is used as it is. One that needs it and starts as
    [identifier[parameters]] keeps the identifier and gets the digest of
    the parameters between the brackets. One that needs it and cannot be
    read that way fails on the assertion, and no other exception is ever
    raised. *)
Theorem output_filename_cases r :
  match output_filename r with
  | Ok f =>
      if needs_shortening (test_name r) then
        exists ident params tail,
          bracketed (test_name r) ident params tail
          /\ f = file_name_of r (ident ++ "[" ++ md5sum params ++ "]")
      else f = file_name_of r (test_name r)
  | Raise e =>
      e = AssertionError
      /\ needs_shortening (test_name r) = true
      /\ forall ident params tail,
           ~ bracketed (test_name r) ident params tail
  end.
Proof.
  unfold output_filename.
  fold (needs_shortening (test_name r)).
  destruct (needs_shortening (test_name r)) eqn:N; [|reflexivity].
  destruct (Re.rmatch test_name_pattern (test_name r)) as [m|] eqn:E.
  - apply rmatch_test_name_sound in E as (i & p & t & Hb & ->).
    change (Re.group "function_name" [("params", p); ("function_name", i)])
      with (Some i).
    change (Re.group "params" [("params", p); ("function_name", i)])
      with (Some p).
    cbn [bind]. exists i, p, t. split; [exact Hb | reflexivity].
  - cbn [bind]. split; [reflexivity|]. split; [reflexivity|].
    intros i p t Hb. apply rmatch_test_name_complete in Hb. congruence.
Qed.

Lemma star_greedy_no_bracket tail : forall g k,
  Py.mem_char "]" tail = false ->
  (forall c t h, c <> "]"%char -> k (String c t) h = None) ->
  (forall h, k "" h = None) ->
  Re.star_greedy Re.Dot tail g k = None.
Proof.
  induction tail as [|c t IH]; intros g k Hm Hk H0.
  - cbn. apply H0.
  - cbn [Py.mem_char] in Hm. apply orb_false_iff in Hm as [Hc Hm].
    apply Ascii.eqb_neq in Hc.
    cbn [Re.star_greedy]. rewrite (IH g k Hm Hk H0).
    rewrite Hk by congruence. destruct (Re.accepts Re.Dot c); reflexivity.
Qed.

Lemma star_greedy_last_bracket p : forall tail g k x,
  no_line_feed p -> Re.star_greedy Re.Dot tail g k = None ->
  k ("]" ++ tail) g = Some x ->
  Re.star_greedy Re.Dot (p ++ "]" ++ tail) g k = Some x.
Proof.
  induction p as [|c p IH]; intros tail g k x Hp H0 H1.
  - cbn [String.append Re.star_greedy]. cbn [Re.accepts]. cbn.
    rewrite H0. exact H1.
  - apply no_line_feed_cons in Hp as [Hc Hp].
    change ((String c p) ++ "]" ++ tail) with (String c (p ++ "]" ++ tail)).
    cbn [Re.star_greedy].
    apply accepts_dot in Hc. rewrite Hc.
    rewrite (IH tail g k x Hp H0 H1). reflexivity.
Qed.

Lemma rmatch_bracketed name ident params tail :
  bracketed name ident params tail -> Py.mem_char "]" tail = false ->
  Re.rmatch test_name_pattern name
  = Some [("params", params); ("function_name", ident)].
Proof.
  intros (-> & Hi & Hw & Hp & Hnl) Ht.
  destruct ident as [|c ident]; [congruence|].
  destruct params as [|d params]; [congruence|].
  cbn [all_chars] in Hw. apply andb_prop in Hw as [Hc Hw].
  apply no_line_feed_cons in Hnl as [Hd Hnl].
  unfold Re.rmatch, test_name_pattern.
  cbn [Re.run].
  change ((String c ident) ++ "[" ++ String d params ++ "]" ++ tail)
    with (String c (ident ++ "[" ++ (String d params ++ "]" ++ tail))).
  cbn [Re.one]. change (Re.accepts Re.WordChar c) with (Re.is_word c).
  rewrite Hc.
  rewrite star_lazy_word; [|assumption|].
  2:{ intros a t h Ha. cbn [Re.one]. cbn [Re.accepts].
      rewrite (is_word_not_bracket a Ha). reflexivity. }
  change ("[" ++ String d params ++ "]" ++ tail)
    with (String "[" (String d (params ++ "]" ++ tail))).
  cbn [Re.one Re.accepts]. rewrite Ascii.eqb_refl.
  apply accepts_dot in Hd.
  change (negb (d =? "010")%char) with (Re.accepts Re.Dot d).
  rewrite Hd.
  erewrite star_greedy_last_bracket; [reflexivity | assumption | |].
  - apply star_greedy_no_bracket; [assumption | | reflexivity].
    intros a t h Ha. cbn [Re.one Re.accepts].
    apply Ascii.eqb_neq in Ha. rewrite Ha. reflexivity.
  - cbn [String.append Re.one Re.accepts]. rewrite Ascii.eqb_refl.
    f_equal. f_equal.
    + f_equal.
      change (String d (params ++ String "]" tail))
        with ((String d params) ++ String "]" tail).
      apply consumed_append.
    + f_equal. f_equal.
      apply (consumed_append (String c ident)
               (String "[" (String d (params ++ String "]" tail)))).
Qed.

(** X13. In a name that needs shortening, what follows the last closing
    bracket is dropped: the parameters run up to that bracket, and two
    names that differ only after it get the same file name. *)
Theorem output_filename_ignores_tail r ident params tail :
  needs_shortening (test_name r) = true ->
  bracketed (test_name r) ident params tail ->
  Py.mem_char "]" tail = false ->
  output_filename r
  = Ok (file_name_of r (ident ++ "[" ++ md5sum params ++ "]")).
Proof.
  unfold needs_shortening, output_filename. intros H Hb Ht. rewrite H.
  rewrite (rmatch_bracketed Hb Ht). reflexivity.
Qed.

Lemma get_mem_char s : forall n c,
  String.get n s = Some c -> Py.mem_char c s = true.
Proof.
  induction s as [|d s IH]; intros n c H; [discriminate|].
  cbn [Py.mem_char]. destruct n as [|n]; cbn [String.get] in H.
  - injection H as ->. rewrite Ascii.eqb_refl. reflexivity.
  - rewrite (IH _ _ H). apply orb_true_r.
Qed.

Lemma b64_char_base64 n : base64_char (Hash.b64_char n) = true.
Proof.
  unfold base64_char, Hash.b64_char.
  destruct (String.get (Z.to_nat n) Hash.alphabet) as [c|] eqn:E.
  - rewrite (get_mem_char _ _ E). reflexivity.
  - apply orb_true_r.
Qed.

Lemma md5_bytes msg :
  exists b0 b1 b2 b3 b4 b5 b6 b7 b8 b9 b10 b11 b12 b13 b14 b15,
    Hash.md5 msg
    = [b0; b1; b2; b3; b4; b5; b6; b7; b8; b9; b10; b11; b12; b13; b14; b15].
Proof.
  unfold Hash.md5. cbv zeta.
  generalize
    (Hash.blocks
       (List.length (Hash.words (List.length (Hash.pad msg)) (Hash.pad msg)))
       (Hash.words (List.length (Hash.pad msg)) (Hash.pad msg)) Hash.init).
  intros st. unfold Hash.le_bytes. cbn [seq map app].
  do 16 eexists. reflexivity.
Qed.

(** The digest written in base64: 22 characters of the alphabet and two
    of padding. *)
Lemma md5sum_base64 text :
  String.length (md5sum text) = 24
  /\ all_chars base64_char (md5sum text) = true
  /\ exists body, md5sum text = body ++ "==".
Proof.
  unfold md5sum. cbv zeta.
  destruct (md5_bytes (Hash.encode text))
    as (b0 & b1 & b2 & b3 & b4 & b5 & b6 & b7 & b8 & b9 & b10 & b11 & b12
        & b13 & b14 & b15 & ->).
  cbn [List.length Hash.urlsafe_b64encode].
  split; [reflexivity|]. split.
  - cbn [all_chars]. rewrite !b64_char_base64. reflexivity.
  - eexists (String _ (String _ (String _ (String _ (String _ (String _
             (String _ (String _ (String _ (String _ (String _ (String _
             (String _ (String _ (String _ (String _ (String _ (String _
             (String _ (String _ (String _ (String _ "")))))))))))))))))))))).
    reflexivity.
Qed.


Lemma intersects_append a b t :
  Py.intersects (a ++ b) t = Py.intersects a t || Py.intersects b t.
Proof.
  induction a as [|c a IH]; [reflexivity|].
  cbn [String.append Py.intersects]. rewrite IH. apply orb_assoc.
Qed.

Lemma intersects_all_chars (p : ascii -> bool) t s :
  (forall c, p c = true -> Py.mem_char c t = false) ->
  all_chars p s = true -> Py.intersects s t = false.
Proof.
  intros Hp. induction s as [|c s IH]; [reflexivity|].
  cbn [all_chars Py.intersects]. intros H.
  apply andb_true_iff in H as [Hc Hs].
  rewrite (Hp _ Hc), (IH Hs). reflexivity.
Qed.

Lemma word_not_blacklisted c :
  Re.is_word c = true -> Py.mem_char c NETLIFY_CHAR_BLACKLIST = false.
Proof.
  destruct c as [[] [] [] [] [] [] [] []]; vm_compute; congruence.
Qed.

Lemma base64_not_blacklisted c :
  base64_char c = true -> Py.mem_char c NETLIFY_CHAR_BLACKLIST = false.
Proof.
  destruct c as [[] [] [] [] [] [] [] []]; vm_compute; congruence.
Qed.

Lemma md5sum_not_blacklisted text :
  Py.intersects (md5sum text) NETLIFY_CHAR_BLACKLIST = false.
Proof.
  apply (intersects_all_chars base64_char).
  - exact base64_not_blacklisted.
  - apply md5sum_base64.
Qed.

(** X10. Whatever the text, [md5sum] gives 24 characters: letters, digits,
    hyphens and underscores with two padding signs at the end, none of
    which is a character that may not stand in a file name. *)
Theorem md5sum_is_24_url_safe_characters text :
  String.length (md5sum text) = 24
  /\ all_chars base64_char (md5sum text) = true
  /\ (exists body, md5sum text = body ++ "==")
  /\ Py.intersects (md5sum text) NETLIFY_CHAR_BLACKLIST = false.
Proof.
  destruct (md5sum_base64 text) as (H1 & H2 & H3).
  repeat split; try assumption. apply md5sum_not_blacklisted.
Qed.

(** X12. The part of a file name that stands for the test never holds a
    character of [NETLIFY_CHAR_BLACKLIST], shortened or not. *)
Theorem output_filename_is_clean r f :
  output_filename r = Ok f ->
  exists name,
    f = file_name_of r name
    /\ Py.intersects name NETLIFY_CHAR_BLACKLIST = false.
Proof.
  unfold output_filename. fold (needs_shortening (test_name r)).
  destruct (needs_shortening (test_name r)) eqn:N.
  - destruct (Re.rmatch test_name_pattern (test_name r)) as [m|] eqn:E;
      [|discriminate].
    apply rmatch_test_name_sound in E as (i & p & t & Hb & ->).
    change (Re.group "function_name" [("params", p); ("function_name", i)])
      with (Some i).
    change (Re.group "params" [("params", p); ("function_name", i)])
      with (Some p).
    cbn [bind]. pose proof (md5sum_not_blacklisted p) as M.
    generalize dependent (md5sum p). intros h M H. injection H as <-.
    exists (i ++ "[" ++ h ++ "]"). split; [reflexivity|].
    destruct Hb as (_ & _ & Hw & _).
    rewrite !intersects_append.
    rewrite (intersects_all_chars Re.is_word _ i word_not_blacklisted Hw).
    rewrite M. reflexivity.
  - cbn [bind]. intros H. injection H as <-. exists (test_name r).
    split; [reflexivity|].
    unfold needs_shortening in N. apply orb_false_iff in N. tauto.
Qed.

(** ** More on the grouping, the cells and the matrix *)

Section Partition.

Variables TK TV : Type.
Variable eqb : TK -> TK -> bool.
Variable eqb_spec : forall x y, reflect (x = y) (eqb x y).
Variable key : TV -> TK.

Lemma flat_map_add_absent (f : TK -> list TV) kx x ks :
  ~ In kx ks ->
  flat_map (fun k => if eqb kx k then x :: f k else f k) ks = flat_map f ks.
Proof.
  induction ks as [|k ks IH]; intros Hn; [reflexivity|].
  cbn [flat_map]. rewrite IH by (intros H; apply Hn; right; exact H).
  destruct (eqb_spec kx k) as [->|]; [|reflexivity].
  exfalso. apply Hn. left. reflexivity.
Qed.

Lemma flat_map_add_present (f : TK -> list TV) kx x ks :
  NoDup ks -> In kx ks ->
  Permutation (flat_map (fun k => if eqb kx k then x :: f k else f k) ks)
    (x :: flat_map f ks).
Proof.
  induction ks as [|k ks IH]; intros Hd Hin; [destruct Hin|].
  inversion Hd as [|? ? Hk Hd']; subst. cbn [flat_map].
  destruct (eqb_spec kx k) as [->|Hne].
  - rewrite flat_map_add_absent by exact Hk. reflexivity.
  - destruct Hin as [->|Hin]; [congruence|].
    rewrite (IH Hd' Hin). symmetry. apply Permutation_middle.
Qed.

Lemma groups_permutation l : forall ks,
  NoDup ks -> (forall v, In v l -> In (key v) ks) ->
  Permutation (flat_map (fun k => filter (fun v => eqb (key v) k) l) ks) l.
Proof.
  induction l as [|x l IH]; intros ks Hd Hin.
  - cbn [filter]. clear Hd Hin. induction ks as [|k ks IHk]; [constructor|].
    cbn [flat_map app]. exact IHk.
  - cbn [filter].
    rewrite (flat_map_add_present
               (fun k => filter (fun v => eqb (key v) k) l) (key x) x Hd).
    + constructor. apply IH; [exact Hd|]. intros v Hv. apply Hin. right.
      exact Hv.
    + apply Hin. left. reflexivity.
Qed.

End Partition.

(** X14. [group_by] splits a list without losing or repeating anything:
    the keys are those of the values, each once, in the order in which they
    first occur; the group of a key holds the values with that key, in
    their order, and is never empty; every value is found in the group of
    its key; and the groups together are a permutation of the list. *)
Theorem group_by_partitions (TK TV : Type) (eqb : TK -> TK -> bool)
    (eqb_spec : forall x y, reflect (x = y) (eqb x y))
    (key : TV -> TK) (l : list TV) :
  map fst (group_by eqb l key) = Py.set_of eqb (map key l)
  /\ NoDup (map fst (group_by eqb l key))
  /\ (forall k vs, In (k, vs) (group_by eqb l key) ->
        vs <> [] /\ vs = filter (fun v => eqb (key v) k) l)
  /\ (forall v, In v l ->
        exists vs, Py.dict_get eqb (key v) (group_by eqb l key) = Some vs
                   /\ In v vs)
  /\ Permutation (List.concat (map snd (group_by eqb l key))) l.
Proof.
  rewrite (group_by_groups eqb eqb_spec key l).
  assert (K : map fst
                (map (fun k => (k, filter (fun v => eqb (key v) k) l))
                   (Py.set_of eqb (map key l)))
              = Py.set_of eqb (map key l)).
  { rewrite map_map. cbn [fst]. apply map_id. }
  rewrite K. split; [reflexivity|].
  split; [apply nodup_set_of; exact eqb_spec|].
  split; [|split].
  - intros k vs H. apply in_map_iff in H as (k' & E & Hk). injection E as <- <-.
    split; [|reflexivity].
    apply (proj1 (in_set_of eqb eqb_spec _ _)) in Hk.
    apply in_map_iff in Hk as (v & <- & Hv).
    intros F.
    assert (In v (filter (fun v0 => eqb (key v0) (key v)) l)) as X.
    { apply filter_In. split; [exact Hv|].
      destruct (eqb_spec (key v) (key v)); congruence. }
    rewrite F in X. destruct X.
  - intros v Hv. exists (filter (fun v0 => eqb (key v0) (key v)) l).
    rewrite <- (group_by_groups eqb eqb_spec key l).
    rewrite (dict_get_group_by eqb eqb_spec key l).
    assert (existsb (eqb (key v)) (map key l) = true) as ->.
    { apply existsb_exists. exists (key v). split; [apply in_map; exact Hv|].
      destruct (eqb_spec (key v) (key v)); congruence. }
    split; [reflexivity|]. apply filter_In. split; [exact Hv|].
    destruct (eqb_spec (key v) (key v)); congruence.
  - rewrite map_map. cbn [snd]. rewrite <- flat_map_concat_map.
    apply (groups_permutation eqb eqb_spec).
    + apply nodup_set_of. exact eqb_spec.
    + intros v Hv. apply (proj2 (in_set_of eqb eqb_spec _ _)).
      apply in_map. exact Hv.
Qed.

(** The cell of a job that has exactly one result for the test, before
    its marker and its title are put in: a [td] with its class. *)
Lemma build_cell_single d j r cell :
  Py.dict_get String.eqb j d = Some [r] ->
  build_cell d j = Ok cell ->
  exists cls marker,
    (if Py.truthy (system_out r) then
       exists f, output_filename r = Ok f
                 /\ children cell
                    = [Elem "a" [("href", "./" ++ f)] (Some marker) []]
                 /\ text cell = None
     else children cell = [] /\ text cell = Some marker)
    /\ tag cell = "td"
    /\ attrib cell
       = match message r with
         | Some (String c m) => [("class", cls); ("title", String c m)]
         | _ => [("class", cls)]
         end.
Proof.
  unfold build_cell. intros Hd Hc. rewrite Hd in Hc.
  match type of Hc with
  | (let '(c, t) := ?p in _) = _ => destruct p as [c0 tx] eqn:Ep
  end.
  assert (exists cls, c0 = Elem "td" [("class", cls)] None []) as [cls ->].
  { destruct (skipped r).
    - destruct (type r) as [t|].
      + destruct (t =? "pytest.skip"); [inversion Ep; eexists; reflexivity|].
        destruct (t =? "pytest.xfail"); inversion Ep; eexists; reflexivity.
      + inversion Ep; eexists; reflexivity.
    - destruct (success r); destruct (Py.truthy (type r));
        inversion Ep; eexists; reflexivity. }
  clear Ep. exists cls, (Py.or_else tx "?").
  destruct (Py.truthy (system_out r)).
  - destruct (output_filename r) as [f|e]; [|discriminate].
    cbn [bind] in Hc.
    destruct (message r) as [[|c m]|]; injection Hc as <-;
      (split; [exists f; repeat split|split; reflexivity]).
  - cbn [bind] in Hc.
    destruct (message r) as [[|c m]|]; injection Hc as <-;
      (split; [split; reflexivity|split; reflexivity]).
Qed.

(** X17. The cell of a result has a [title] exactly when the result has a
    message that is not empty, and the title is that message. *)
Theorem cell_title_is_the_message results_by_job job_name r cell :
  Py.dict_get String.eqb job_name results_by_job = Some [r] ->
  build_cell results_by_job job_name = Ok cell ->
  get cell "title" = (if Py.truthy (message r) then message r else None).
Proof.
  intros Hd Hc.
  destruct (build_cell_single _ _ Hd Hc) as (cls & marker & _ & _ & Ha).
  unfold get. rewrite Ha.
  destruct (message r) as [[|c m]|]; reflexivity.
Qed.

(** X18. A link in a cell never dangles: in a run that writes all the
    captured outputs, the target of the link of a cell is the file that
    holds the output of the result of that cell, and that output is not
    empty. *)
Theorem cell_links_to_the_written_output out results log r results_by_job
    job_name cell href :
  write_test_outputs out results = (log, Ok tt) -> In r results ->
  Py.dict_get String.eqb job_name results_by_job = Some [r] ->
  build_cell results_by_job job_name = Ok cell ->
  cell_link cell = Some href ->
  exists f content,
    href = "./" ++ f /\ output_filename r = Ok f
    /\ system_out r = Some content /\ content <> ""
    /\ In (WriteText out f content) log.
Proof.
  intros Hw Hin Hd Hc Hl.
  destruct (build_cell_single _ _ Hd Hc) as (cls & marker & Hs & _ & _).
  unfold cell_link in Hl.
  destruct (system_out r) as [[|c s]|] eqn:Es; cbn [Py.truthy] in Hs.
  - destruct Hs as [Hs _]. rewrite Hs in Hl. discriminate.
  - destruct Hs as (f & Hf & Hch & _). rewrite Hch in Hl.
    cbn in Hl. injection Hl as <-.
    exists f, (String c s). split; [reflexivity|]. split; [exact Hf|].
    split; [reflexivity|]. split; [discriminate|].
    destruct (write_test_outputs_ok _ _ Hw _ Hin Es) as (f' & Hf' & Hin').
    congruence.
  - destruct Hs as [Hs _]. rewrite Hs in Hl. discriminate.
Qed.

Lemma build_row_width jobs q item row :
  build_row jobs q item = Ok row ->
  tag row = "tr" /\ List.length (children row) = S (List.length jobs).
Proof.
  unfold build_row. destruct item as [t g]. intros H.
  apply bind_ok in H as (cells & Hc & H). injection H as <-.
  split; [reflexivity|]. cbn [children List.length]. f_equal.
  apply (map_result_ok _ _ Hc).
Qed.

Section TableRows.

Variable import_module : string -> option module_object.
Variable rst_to_element : string -> result Element.

Lemma build_class_rows jobs mm job_row item rows :
  build_class import_module rst_to_element jobs mm job_row item = Ok rows ->
  exists header th test_rows,
    rows = header :: job_row :: test_rows
    /\ tag header = "tr" /\ children header = [th]
    /\ get th "colspan" = Some (Py.str_of_nat (List.length jobs + 1))
    /\ forall row, In row test_rows ->
         tag row = "tr"
         /\ List.length (children row) = S (List.length jobs).
Proof.
  unfold build_class. destruct item as [[m cl] g]. intros H.
  apply bind_ok in H as (mo & _ & H).
  apply bind_ok in H as (d & _ & H).
  apply bind_ok in H as (th & Hth & H).
  apply bind_ok in H as (rows' & Hr & H). injection H as <-.
  exists (Elem "tr" [] None [th]), th, rows'.
  split; [reflexivity|]. split; [reflexivity|]. split; [reflexivity|].
  split.
  - unfold append_docstring in Hth. destruct d as [s|].
    + apply bind_ok in Hth as (e & _ & Hth). injection Hth as <-. reflexivity.
    + injection Hth as <-. reflexivity.
  - intros row Hin. destruct (map_result_in _ _ Hr _ Hin) as (it & _ & Hb).
    eapply build_row_width. exact Hb.
Qed.

End TableRows.

(** X15. A matrix that is built is a [table] of rows: the row that heads a
    class has a single cell that spans all the columns, and every other
    row, the row of the jobs and the rows of the tests, has one cell for
    the name and one for each job. *)
Theorem table_rows_have_one_cell_per_job import_module rst jobs results
    table :
  build_test_table import_module rst jobs results = Ok table ->
  tag table = "table"
  /\ forall row, In row (children table) ->
       tag row = "tr"
       /\ (List.length (children row) = S (List.length jobs)
           \/ exists th,
                children row = [th]
                /\ get th "colspan"
                   = Some (Py.str_of_nat (List.length jobs + 1))).
Proof.
  unfold build_test_table. intros H.
  apply bind_ok in H as (groups & Hg & H). injection H as <-.
  split; [reflexivity|]. cbn [children]. intros row Hin.
  apply in_concat in Hin as (group & Hgroup & Hrow).
  destruct (map_result_in _ _ Hg _ Hgroup) as (item & _ & Hb).
  apply build_class_rows in Hb
    as (header & th & test_rows & -> & Hh & Hc & Hs & Hrows).
  destruct Hrow as [<-|[<-|Hrow]].
  - split; [exact Hh|]. right. exists th. auto.
  - split; [reflexivity|]. left. cbn [children List.length].
    rewrite length_map. reflexivity.
  - destruct (Hrows _ Hrow) as [Ht Hl]. split; [exact Ht|]. left. exact Hl.
Qed.

Lemma bind_not_ok A B (m : result A) (f : A -> result B) :
  is_ok m = false -> is_ok (bind m f) = false.
Proof. destruct m; [discriminate | reflexivity]. Qed.

Lemma filter_two A (f : A -> bool) a x b y c :
  f x = true -> f y = true ->
  exists a' b' c',
    filter f (a ++ x :: b ++ y :: c) = (a' ++ x :: b' ++ y :: c')%list.
Proof.
  intros Hx Hy. exists (filter f a), (filter f b), (filter f c).
  rewrite filter_app. cbn [filter]. rewrite Hx, filter_app. cbn [filter].
  rewrite Hy. reflexivity.
Qed.

Lemma in_two A (a : list A) x b y c : In x (a ++ x :: b ++ y :: c).
Proof. apply in_or_app. right. left. reflexivity. Qed.

Lemma in_sorted_group_by (TK TV : Type) (eqb : TK -> TK -> bool)
    (eqb_spec : forall x y, reflect (x = y) (eqb x y))
    (cmp : TK -> TK -> comparison) (key : TV -> TK) l v :
  In v l ->
  In (key v, filter (fun x => eqb (key x) (key v)) l)
    (Py.sorted_items cmp (group_by eqb l key)).
Proof.
  intros Hv. rewrite (sorted_group_by eqb eqb_spec key cmp l).
  apply (in_map (fun k => (k, filter (fun x => eqb (key x) k) l))).
  apply (proj2 (in_sorted cmp _ _)).
  apply (proj2 (in_set_of eqb eqb_spec _ _)).
  apply in_map. exact Hv.
Qed.

Lemma build_cell_two d j a x b y c :
  Py.dict_get String.eqb j d = Some (a ++ x :: b ++ y :: c)%list ->
  build_cell d j = Raise ValueError.
Proof.
  unfold build_cell. intros ->.
  destruct a as [|a0 [|a1 a]]; cbn [app]; try reflexivity.
  destruct b; reflexivity.
Qed.

Lemma build_row_two jobs q t g a x b y c :
  g = (a ++ x :: b ++ y :: c)%list -> job x = job y -> In (job x) jobs ->
  is_ok (build_row jobs q (t, g)) = false.
Proof.
  intros -> Hj Hin. unfold build_row. apply bind_not_ok.
  apply (map_result_raise _ _ _ Hin).
  destruct (filter_two (fun v => job v =? job x) a x b y c)
    as (a' & b' & c' & F).
  { apply String.eqb_refl. }
  { rewrite Hj. apply String.eqb_refl. }
  erewrite build_cell_two; [reflexivity|].
  rewrite (dict_get_group_by String.eqb String.eqb_spec job).
  assert (existsb (String.eqb (job x)) (map job (a ++ x :: b ++ y :: c))
          = true) as ->.
  { apply existsb_exists. exists (job x). split; [|apply String.eqb_refl].
    apply in_map. apply in_two. }
  rewrite F. reflexivity.
Qed.

Section Duplicates.

Variable import_module : string -> option module_object.
Variable rst_to_element : string -> result Element.

Lemma build_class_two jobs mm job_row k g a x b y c :
  g = (a ++ x :: b ++ y :: c)%list ->
  test_name x = test_name y -> job x = job y -> In (job x) jobs ->
  is_ok (build_class import_module rst_to_element jobs mm job_row (k, g))
  = false.
Proof.
  intros -> Ht Hj Hin. unfold build_class. destruct k as [m cl].
  destruct (import import_module m) as [mo|]; [|reflexivity]. cbn [bind].
  destruct (getattr mo cl) as [d|]; [|reflexivity]. cbn [bind].
  destruct (append_docstring rst_to_element _ d) as [th|]; [|reflexivity].
  cbn [bind]. apply bind_not_ok.
  destruct (filter_two (fun v => test_name v =? test_name x) a x b y c)
    as (a' & b' & c' & F).
  { apply String.eqb_refl. }
  { rewrite Ht. apply String.eqb_refl. }
  eapply map_result_raise.
  - apply (in_sorted_group_by String.eqb String.eqb_spec String.compare
             test_name (a ++ x :: b ++ y :: c) x). apply in_two.
  - rewrite F. eapply build_row_two; [reflexivity | exact Hj | exact Hin].
Qed.

End Duplicates.

Lemma build_test_table_two import_module rst jobs results
    before r1 between r2 after :
  results = (before ++ r1 :: between ++ r2 :: after)%list ->
  module_name r1 = module_name r2 -> class_name r1 = class_name r2 ->
  test_name r1 = test_name r2 -> job r1 = job r2 ->
  In (job r1) jobs ->
  is_ok (build_test_table import_module rst jobs results) = false.
Proof.
  intros -> Hm Hc Ht Hj Hin. unfold build_test_table. apply bind_not_ok.
  pose (key := fun r : CaseResult => (module_name r, class_name r)).
  destruct (filter_two (fun v => Py.pair_eqb (key v) (key r1))
              before r1 between r2 after) as (a' & b' & c' & F).
  { destruct (pair_eqb_spec (key r1) (key r1)); congruence. }
  { unfold key. rewrite Hm, Hc.
    destruct (pair_eqb_spec (module_name r2, class_name r2)
                (module_name r2, class_name r2)); congruence. }
  eapply map_result_raise.
  - apply (in_sorted_group_by Py.pair_eqb pair_eqb_spec
             (Py.pair_compare String.compare String.compare) key
             (before ++ r1 :: between ++ r2 :: after) r1). apply in_two.
  - rewrite F. eapply build_class_two; [reflexivity | | |]; assumption.
Qed.

(** ** More on the pipeline *)

Lemma io_for_each_app A S (l1 l2 : list A) (body : A -> S -> io S) s :
  io_for_each (l1 ++ l2) body s
  = io_bind (io_for_each l1 body s) (io_for_each l2 body).
Proof.
  revert s. induction l1 as [|x l1 IH]; intros s.
  - cbn [app io_for_each io_ret io_bind].
    destruct (io_for_each l2 body s). reflexivity.
  - cbn [app io_for_each]. destruct (body x s) as [w [s'|e]]; cbn [io_bind].
    + rewrite IH. destruct (io_for_each l1 body s') as [w1 [s1|e1]];
        cbn [io_bind].
      * destruct (io_for_each l2 body s1) as [w2 r2].
        rewrite app_assoc. reflexivity.
      * reflexivity.
    + reflexivity.
Qed.

(** X24. A run of [write_test_outputs] that completes writes one file for
    each result that has a captured output, empty or not, in the order of
    the results, under the file name of the result, and writes nothing for
    the others. *)
Theorem outputs_are_written_in_order out results : forall log,
  write_test_outputs out results = (log, Ok tt) ->
  Forall2
    (fun r e =>
       exists f content,
         system_out r = Some content /\ output_filename r = Ok f
         /\ e = WriteText out f content)
    (filter has_output results) log.
Proof.
  unfold write_test_outputs.
  induction results as [|r rs IH]; intros log H.
  - cbn in H. injection H as <-. constructor.
  - cbn [io_for_each] in H. apply io_bind_ok in H.
    destruct H as ([] & w1 & w2 & H1 & H2 & ->).
    cbn [filter]. unfold has_output at 1.
    destruct (system_out r) as [content|] eqn:Es.
    + apply io_bind_ok in H1. destruct H1 as (f & u1 & u2 & Hf & He & ->).
      unfold lift in Hf. injection Hf as <- Hf.
      unfold emit in He. injection He as <-. cbn [app].
      constructor; [|apply IH; exact H2].
      exists f, content. auto.
    + unfold io_ret in H1. injection H1 as <-. cbn [app]. apply IH. exact H2.
Qed.


(** X25. [write_test_outputs] stops at the first result with a captured
    output whose file name cannot be made: the files of the results before
    it have been written and stay, none is written after it. *)
Theorem outputs_stop_at_first_failure out before r after log content e :
  write_test_outputs out before = (log, Ok tt) ->
  system_out r = Some content -> output_filename r = Raise e ->
  write_test_outputs out (before ++ r :: after)%list = (log, Raise e).
Proof.
  unfold write_test_outputs. intros Hb Hs Hf.
  rewrite io_for_each_app, Hb. cbn [io_bind io_for_each].
  rewrite Hs, Hf. cbn [lift io_bind]. rewrite app_nil_r. reflexivity.
Qed.

Lemma io_bind_log A B (m : io A) (f : A -> io B) :
  fst (io_bind m f)
  = (fst m ++ match snd m with
              | Ok a => fst (f a)
              | Raise _ => []
              end)%list.
Proof.
  destruct m as [w [a|e]]; cbn [io_bind fst snd].
  - destruct (f a). reflexivity.
  - rewrite app_nil_r. reflexivity.
Qed.

(** X26. The records are all read before anything is written: when
    reading them fails the run ends with that exception and the output
    directory is not even created, and when it succeeds creating the
    directory is the first thing the run does. *)
Theorem reading_fails_before_any_write import_module rst css parse
    out filenames :
  match read_results parse filenames with
  | Ok _ =>
      exists rest,
        fst (main import_module rst css parse out filenames)
        = Mkdir out :: rest
  | Raise e =>
      main import_module rst css parse out filenames = ([], Raise e)
  end.
Proof.
  unfold main. destruct (read_results parse filenames) as [rs|e].
  - assert (exists rest,
              fst (write_html_pages import_module rst out rs)
              = Mkdir out :: rest) as [rest P].
    { unfold write_html_pages. rewrite io_bind_log. cbn [emit fst app].
      eexists. reflexivity. }
    eexists. rewrite io_bind_log. unfold lift. cbn [fst snd app].
    rewrite io_bind_log, P. reflexivity.
  - reflexivity.
Qed.

(** X29. Called with an output directory and no record, the script still
    creates the directory and writes an index without entries and the
    stylesheet; called without an output directory it fails on unpacking
    its arguments before it does anything. *)
Theorem script_without_records import_module rst css parse prog out :
  script import_module rst css parse [prog; out]
  = ([ Mkdir out; WriteXml out "index.xhtml" empty_index;
       WriteText out "style.css" css ], Ok 0)
  /\ script import_module rst css parse [prog] = ([], Raise ValueError)
  /\ script import_module rst css parse [] = ([], Raise ValueError).
Proof. repeat split. Qed.

Lemma page_order : order_laws page_compare.
Proof.
  unfold page_compare.
  apply pair_order; [apply pair_order|]; apply string_order.
Qed.

(** X23. The index does not depend on the order in which the pages are
    given. *)
Theorem index_independent_of_page_order import_module rst out pages pages' :
  Permutation pages pages' ->
  write_html_index import_module rst out pages
  = write_html_index import_module rst out pages'.
Proof.
  intros H. unfold write_html_index.
  rewrite (sorted_permutation page_order H). reflexivity.
Qed.

Lemma for_each_raises A S (body : A -> S -> result S) e0 l x :
  (forall y s e, body y s = Raise e -> e = e0) ->
  In x l -> (forall s, body x s = Raise e0) ->
  forall s, for_each l body s = Raise e0.
Proof.
  intros Hb Hin Hx. induction l as [|y l IH]; intros s; [destruct Hin|].
  cbn [for_each]. destruct (body y s) as [s'|e] eqn:E.
  - cbn [bind]. destruct Hin as [->|Hin]; [rewrite Hx in E; discriminate|].
    apply IH. exact Hin.
  - cbn [bind]. f_equal. eapply Hb. exact E.
Qed.

(** X22. A page that is neither a module page nor a job page makes
    [write_html_index] fail on its assertion before anything is written,
    wherever the page stands in the list. *)
Theorem index_rejects_unknown_page_type import_module rst out pages
    page_type title file_name :
  In (page_type, title, file_name) pages ->
  page_type <> "module" -> page_type <> "job" ->
  write_html_index import_module rst out pages = ([], Raise AssertionError).
Proof.
  intros Hin Hm Hj. unfold write_html_index.
  erewrite for_each_raises; [reflexivity | | |].
  - intros [[t n] f] [mp jp] e. 
    destruct (t =? "module"); [discriminate|].
    destruct (t =? "job"); [discriminate|]. congruence.
  - apply (proj2 (in_sorted page_compare _ _)). exact Hin.
  - intros [mp jp]. cbv beta iota.
    apply String.eqb_neq in Hm, Hj. rewrite Hm, Hj. reflexivity.
Qed.

Lemma for_each_invariant A S (body : A -> S -> result S) (I : S -> Prop) l :
  (forall x s, In x l -> I s -> exists s', body x s = Ok s' /\ I s') ->
  forall s, I s -> exists s', for_each l body s = Ok s' /\ I s'.
Proof.
  induction l as [|x l IH]; intros Hb s Hs.
  - exists s. split; [reflexivity | exact Hs].
  - destruct (Hb x s (or_introl eq_refl) Hs) as (s1 & E & H1).
    cbn [for_each]. rewrite E. cbn [bind]. apply IH; [|exact H1].
    intros y t Hy. apply Hb. right. exact Hy.
Qed.

Section IndexAfterPages.

Variable import_module : string -> option module_object.
Variable rst_to_element : string -> result Element.

Lemma build_module_html_ok jobs results m root :
  build_module_html import_module rst_to_element jobs results m = Ok root ->
  exists mo body,
    import import_module m = Ok mo
    /\ append_docstring rst_to_element
         (Elem "body" [] None [Elem "h1" [] (Some m) []]) (module_doc mo)
       = Ok body
    /\ tag root = "html" /\ attrib root = [].
Proof.
  unfold build_module_html. intros H.
  apply bind_ok in H as (mo & Hm & H).
  apply bind_ok in H as (body & Hb & H).
  apply bind_ok in H as (table & _ & H). injection H as <-.
  exists mo, body. auto.
Qed.

Lemma append_docstring_any e e' doc x :
  append_docstring rst_to_element e doc = Ok x ->
  exists y, append_docstring rst_to_element e' doc = Ok y.
Proof.
  unfold append_docstring. destruct doc as [s|]; [|eauto].
  intros H. apply bind_ok in H as (d & -> & _). cbn [bind]. eauto.
Qed.

(** X20. The index can always be written after the pages: on the pages
    that [write_html_pages] returns, [write_html_index] raises nothing and
    writes [index.xhtml] and nothing else. *)
Theorem index_follows_pages out results log pages :
  write_html_pages import_module rst_to_element out results
  = (log, Ok pages) ->
  exists root,
    write_html_index import_module rst_to_element out pages
    = ([WriteXml out "index.xhtml" root], Ok tt).
Proof.
  intros H. apply write_html_pages_ok in H.
  destruct H as (cats & mlog & jlog & _ & _ & -> & Hm & _).
  set (ms := Py.sorted (Py.leb_of String.compare)
               (Py.set_of String.eqb (map module_name results))) in *.
  unfold write_html_index.
  set (known := fun p : string * string =>
                  exists mo y,
                    import import_module (fst p) = Ok mo
                    /\ append_docstring rst_to_element (element "dd")
                         (module_doc mo) = Ok y).
  assert (K : forall m, In m ms -> known (m, m ++ ".xhtml")).
  { intros m Hin.
    destruct (forall2_in_l _ Hm Hin) as (e & _ & cols & root & _ & Hb & _).
    apply build_module_html_ok in Hb as (mo & body & Hi & Hd & _).
    apply (append_docstring_any _ (element "dd")) in Hd as [y Hy].
    exists mo, y. auto. }
  assert (exists lists,
            for_each
              (Py.sorted (Py.leb_of page_compare)
                 (map module_page ms ++ map job_page (paged_jobs results)))
              (fun (p : page) (lists : list (string * string)
                                       * list (string * string)) =>
                 let '(page_type, title, file_name) := p in
                 let '(module_pages, job_pages) := lists in
                 if page_type =? "module" then
                   Ok ((module_pages ++ [(title, file_name)])%list, job_pages)
                 else if page_type =? "job" then
                   Ok (module_pages, (job_pages ++ [(title, file_name)])%list)
                 else Raise AssertionError)
              ([], [])
            = Ok lists /\ Forall known (fst lists)) as ([mp jp] & E & Hmp).
  { apply (for_each_invariant _ (fun lists => Forall known (fst lists)));
      [|constructor].
    intros [[t n] f] [mp jp] Hin Hk.
    apply (proj1 (in_sorted page_compare _ _)) in Hin.
    apply in_app_or in Hin as [Hin|Hin];
      apply in_map_iff in Hin as (x & Ex & Hx); injection Ex as <- <- <-.
    - cbn [String.eqb Ascii.eqb Bool.eqb]. eexists. split; [reflexivity|].
      cbn [fst] in *.
      apply Forall_app. split; [exact Hk|]. constructor; [|constructor].
      apply K. exact Hx.
    - cbn [String.eqb Ascii.eqb Bool.eqb]. eexists.
      split; [reflexivity|]. exact Hk. }
  rewrite E. cbn [lift io_bind app fst] in *.
  assert (S : Forall known
                (Py.sorted
                   (Py.leb_of (Py.pair_compare String.compare String.compare))
                   mp)).
  { apply Forall_forall. intros p Hp.
    apply (proj1 (in_sorted _ _ _)) in Hp.
    revert p Hp. apply Forall_forall. exact Hmp. }
  match goal with
  | |- context [for_each ?l ?b ?s] =>
      assert (exists dl, for_each l b s = Ok dl /\ True) as (dl & E2 & _)
  end.
  { apply (for_each_invariant _ (fun _ => True)); [|exact I].
    intros [m f] dl Hin _.
    assert (known (m, f)) as (mo & y & Hi & Hy).
    { revert Hin. apply Forall_forall. exact S. }
    cbn [fst] in Hi. rewrite Hi. cbn [bind]. rewrite Hy. cbn [bind].
    eexists. split; [reflexivity | exact I]. }
  rewrite E2. cbn [lift io_bind app]. unfold write_xml_file, emit.
  eexists. reflexivity.
Qed.

End IndexAfterPages.

Lemma index_split_loop l : forall mp jp lists,
  for_each l
    (fun (p : page) (lists : list (string * string) * list (string * string)) =>
       let '(page_type, title, file_name) := p in
       let '(module_pages, job_pages) := lists in
       if page_type =? "module" then
         Ok ((module_pages ++ [(title, file_name)])%list, job_pages)
       else if page_type =? "job" then
         Ok (module_pages, (job_pages ++ [(title, file_name)])%list)
       else Raise AssertionError)
    (mp, jp) = Ok lists ->
  lists = ((mp ++ pages_of_type "module" l)%list,
           (jp ++ pages_of_type "job" l)%list).
Proof.
  unfold pages_of_type.
  induction l as [|[[t n] f] l IH]; intros mp jp lists H.
  - cbn in H. injection H as <-. cbn [filter map]. rewrite !app_nil_r.
    reflexivity.
  - cbn [for_each] in H. cbn [filter fst snd].
    destruct (String.eqb_spec t "module") as [->|Nm].
    + cbn [bind] in H. apply IH in H. subst lists.
      change ("module" =? "job") with false. cbn [map fst snd].
      rewrite <- app_assoc. reflexivity.
    + destruct (String.eqb_spec t "job") as [->|Nj]; [|discriminate].
      cbn [bind] in H. apply IH in H. subst lists. cbn [map fst snd].
      rewrite <- app_assoc. reflexivity.
Qed.

Lemma pages_of_type_sorted t pages :
  Permutation
    (pages_of_type t (Py.sorted (Py.leb_of page_compare) pages))
    (pages_of_type t pages).
Proof.
  unfold pages_of_type. apply Permutation_map. apply filter_permutation.
  apply sorted_perm.
Qed.

Section IndexContent.

Variable import_module : string -> option module_object.
Variable rst_to_element : string -> result Element.

Lemma index_module_loop l : forall dl dl',
  for_each l
    (fun (p : string * string) dl =>
       let '(module_name, file_name) := p in
       module <- import import_module module_name ;;
       let dt :=
         Elem "dt" [] None
           [Elem "a" [("href", "./" ++ file_name)] (Some module_name) []] in
       dd <- append_docstring rst_to_element (element "dd")
               (module_doc module) ;;
       Ok (append (append dl dt) dd))
    dl = Ok dl' ->
  exists dds,
    List.length dds = List.length l
    /\ Forall (fun dd => tag dd = "dd") dds
    /\ dl' = with_children dl
               (children dl
                ++ List.concat (map index_module_item (combine l dds)))%list.
Proof.
  induction l as [|[m f] l IH]; intros dl dl' H.
  - cbn in H. injection H as <-. exists []. split; [reflexivity|].
    split; [constructor|]. cbn [combine map List.concat].
    rewrite app_nil_r. destruct dl. reflexivity.
  - cbn [for_each] in H. apply bind_ok in H as (dl1 & H1 & H).
    apply bind_ok in H1 as (mo & _ & H1).
    apply bind_ok in H1 as (dd & Hdd & H1). injection H1 as <-.
    apply IH in H as (dds & Hlen & Hall & ->).
    exists (dd :: dds). split; [cbn [List.length]; congruence|]. split.
    + constructor; [|exact Hall]. unfold append_docstring in Hdd.
      destruct (module_doc mo) as [s|].
      * apply bind_ok in Hdd as (e & _ & Hdd). injection Hdd as <-.
        reflexivity.
      * injection Hdd as <-. reflexivity.
    + destruct dl as [t a x c]. unfold with_children, append.
      cbn [tag attrib text children combine map List.concat
           index_module_item fst snd app].
      rewrite <- !app_assoc. reflexivity.
Qed.

(** X21. An index that is written lists every module page once, in the
    order of the titles and then of the file names, each as a term with a
    link followed by a description, and every job page once, in the same
    order, each as a list item with a link. *)
Theorem index_lists_every_page_once out pages log :
  write_html_index import_module rst_to_element out pages = (log, Ok tt) ->
  exists modules descriptions jobs,
    Permutation modules (pages_of_type "module" pages)
    /\ StronglySorted
         (le_of (Py.pair_compare String.compare String.compare)) modules
    /\ List.length descriptions = List.length modules
    /\ Forall (fun dd => tag dd = "dd") descriptions
    /\ Permutation jobs (pages_of_type "job" pages)
    /\ StronglySorted
         (le_of (Py.pair_compare String.compare String.compare)) jobs
    /\ log
       = [ WriteXml out "index.xhtml"
             (with_namespace
                (Elem "html" [] None
                   [ page_head "irctest dashboard";
                     Elem "body" [] None
                       [ Elem "h1" [] (Some "irctest dashboard") [];
                         Elem "h2" []
                           (Some "Tests by command/specification") [];
                         Elem "dl" [("class", "module-index")] None
                           (List.concat
                              (map index_module_item
                                 (combine modules descriptions)));
                         Elem "h2" [] (Some "Tests by implementation") [];
                         Elem "ul" [("class", "job-index")] None
                           (map index_job_item jobs) ] ])) ].
Proof.
  unfold write_html_index. intros H.
  apply io_bind_ok in H as ([mp jp] & w0 & w1 & H0 & H & ->).
  apply io_bind_ok in H as (dl & w2 & w3 & H2 & H & ->).
  unfold lift in H0, H2. injection H0 as <- H0. injection H2 as <- H2.
  unfold write_xml_file, emit in H. injection H as <-.
  apply index_split_loop in H0. injection H0 as -> ->.
  cbn [app] in *.
  apply index_module_loop in H2 as (dds & Hlen & Hall & ->).
  pose proof (pair_order string_order string_order) as L.
  eexists _, dds, _.
  split; [|split; [apply (sorted_sorted L)|]].
  { etransitivity; [apply sorted_perm | apply pages_of_type_sorted]. }
  split; [exact Hlen|]. split; [exact Hall|].
  split; [|split; [apply (sorted_sorted L)|]].
  { etransitivity; [apply sorted_perm | apply pages_of_type_sorted]. }
  match goal with
  | |- context [map ?f (Py.sorted ?o (pages_of_type "job" ?l))] =>
      rewrite (map_ext f index_job_item) by (intros [? ?]; reflexivity)
  end.
  reflexivity.
Qed.

End IndexContent.

Lemma forall2_map_l A B C (f : A -> B) (P : B -> C -> Prop) l l' :
  Forall2 (fun x y => P (f x) y) l l' -> Forall2 P (map f l) l'.
Proof. induction 1; constructor; assumption. Qed.

Lemma forall2_impl A B (P Q : A -> B -> Prop) l l' :
  (forall x y, P x y -> Q x y) -> Forall2 P l l' -> Forall2 Q l l'.
Proof. intros H. induction 1; constructor; auto. Qed.

(** X19. When the pages are written to the end, the output directory is
    created first, and then one document is written for each page that is
    returned, in the same order and to the file [<title>.xhtml] of the
    page; every document is an [html] element whose only attribute is the
    XHTML namespace, and every page is a module page or a job page. *)
Theorem pages_are_the_files_written import_module rst out results log pages :
  write_html_pages import_module rst out results = (log, Ok pages) ->
  exists documents,
    log = Mkdir out :: documents
    /\ Forall2
         (fun (p : page) e =>
            let '(page_type, title, file_name) := p in
            (page_type = "module" \/ page_type = "job")
            /\ file_name = title ++ ".xhtml"
            /\ exists root,
                 e = WriteXml out file_name root
                 /\ tag root = "html"
                 /\ attrib root = [("xmlns", xhtml_namespace)])
         pages documents.
Proof.
  intros H. apply write_html_pages_ok in H.
  destruct H as (cats & mlog & jlog & _ & -> & -> & Hm & Hj).
  exists (mlog ++ jlog)%list. split; [reflexivity|].
  apply Forall2_app; apply forall2_map_l.
  - revert Hm. apply forall2_impl. intros m e (cols & root & _ & Hb & ->).
    apply build_module_html_ok in Hb as (mo & body & _ & _ & Ht & Ha).
    cbn. split; [auto|]. split; [reflexivity|].
    exists (with_namespace root). split; [reflexivity|].
    destruct root as [t a x c]. cbn in Ht, Ha. subst. split; reflexivity.
  - revert Hj. apply forall2_impl. intros j e (root & Hb & ->).
    apply build_job_html_ok in Hb as (table & _ & ->).
    cbn. split; [auto|]. split; [reflexivity|].
    eexists. split; [reflexivity|]. split; reflexivity.
Qed.

Lemma io_for_each_raises A S (body : A -> S -> io S) l x :
  In x l -> (forall s, is_ok (snd (body x s)) = false) ->
  forall s, is_ok (snd (io_for_each l body s)) = false.
Proof.
  intros Hin Hx. induction l as [|y l IH]; intros s; [destruct Hin|].
  cbn [io_for_each]. destruct (body y s) as [w [s'|e]] eqn:E; cbn [io_bind].
  - destruct Hin as [->|Hin].
    + specialize (Hx s). rewrite E in Hx. discriminate.
    + specialize (IH Hin s'). destruct (io_for_each l body s') as [w' r'].
      exact IH.
  - reflexivity.
Qed.

Lemma write_html_pages_two import_module rst out results
    before r1 between r2 after :
  results = (before ++ r1 :: between ++ r2 :: after)%list ->
  module_name r1 = module_name r2 -> class_name r1 = class_name r2 ->
  test_name r1 = test_name r2 -> job r1 = job r2 ->
  skipped r1 = false ->
  is_ok (snd (write_html_pages import_module rst out results)) = false.
Proof.
  intros Hr Hm Hc Ht Hj Hs.
  assert (Hin : In r1 results) by (subst results; apply in_two).
  unfold write_html_pages. cbn [emit io_bind].
  destruct (for_each (jobs_of results) (classify results) []) as [cats|e]
    eqn:Ec; cbn [lift io_bind]; [|reflexivity].
  match goal with
  | |- context [io_for_each ?l ?b ?s] =>
      pose proof
        (io_for_each_raises b l
           (module_name r1, module_results_of results (module_name r1)))
        as R; specialize (fun H1 H2 => R H1 H2 s);
      destruct (io_for_each l b s) as [w [ps|e]]
  end; [|reflexivity].
  exfalso. cbn [snd is_ok] in R.
  assert (true = false); [|discriminate]. apply R.
  - apply (in_sorted_group_by String.eqb String.eqb_spec String.compare
             module_name results r1 Hin).
  - intros ps'. unfold write_module_page.
    destruct (module_jobs_of results (jobs_of results) cats (module_name r1))
      as [cols|e] eqn:Em; cbn [lift io_bind]; [|reflexivity].
    assert (In (job r1) cols) as Hcol.
    { apply (proj2 (module_jobs_of_ok results (module_name r1) Ec Em (job r1))).
      assert (In (job r1) (jobs_of results)) as Hjob.
      { apply (proj2 (in_jobs_of results (job r1))). exists r1. auto. }
      split; [exact Hjob|].
      destruct (classified results (job r1) Ec Hjob) as (c & Hcat & _).
      exists r1, c. unfold category_is. auto. }
    assert (is_ok (build_module_html import_module rst cols
                     (module_results_of results (module_name r1))
                     (module_name r1)) = false) as F.
    { unfold build_module_html.
      destruct (import import_module (module_name r1)) as [mo|];
        [|reflexivity].
      cbn [bind].
      destruct (append_docstring rst _ (module_doc mo)); [|reflexivity].
      cbn [bind]. apply bind_not_ok.
      destruct (filter_two (fun r => module_name r =? module_name r1)
                  before r1 between r2 after) as (a' & b' & c' & F).
      { apply String.eqb_refl. }
      { rewrite Hm. apply String.eqb_refl. }
      unfold module_results_of. rewrite Hr, F.
      eapply build_test_table_two; try reflexivity; assumption. }
    destruct (build_module_html import_module rst cols
                (module_results_of results (module_name r1)) (module_name r1));
      [discriminate | reflexivity].
Qed.

(** X16. Two results for the same test of the same class and module in
    the same job cannot be rendered: no matrix with that job as a column is
    built from them, and when the first is not skipped the pages are not
    written to the end. *)
Theorem duplicate_results_fail import_module rst out results
    before r1 between r2 after :
  results = (before ++ r1 :: between ++ r2 :: after)%list ->
  module_name r1 = module_name r2 -> class_name r1 = class_name r2 ->
  test_name r1 = test_name r2 -> job r1 = job r2 ->
  (forall jobs, In (job r1) jobs ->
     is_ok (build_test_table import_module rst jobs results) = false)
  /\ (skipped r1 = false ->
      is_ok (snd (write_html_pages import_module rst out results)) = false).
Proof.
  intros Hr Hm Hc Ht Hj. split.
  - intros jobs Hin. eapply build_test_table_two; eassumption.
  - intros Hs. eapply write_html_pages_two; eassumption.
Qed.

(** X27. The first record that cannot be read or parsed ends the run with
    its exception, without any output, whatever records follow it. *)
Theorem first_bad_record_stops_the_run import_module rst css parse out
    before filename after results e :
  read_results parse before = Ok results ->
  match parse filename with
  | Ok root => iter_job_results filename root = Raise e
  | Raise e' => e' = e
  end ->
  main import_module rst css parse out (before ++ filename :: after)%list
  = ([], Raise e).
Proof.
  intros Hb Hf. unfold main. rewrite read_results_app, Hb. cbn [bind].
  cbn [read_results]. destruct (parse filename) as [root|e'].
  - cbn [bind]. rewrite Hf. reflexivity.
  - subst e'. reflexivity.
Qed.

Lemma write_html_index_log import_module rst out pages w :
  write_html_index import_module rst out pages = (w, Ok tt) ->
  exists root, w = [WriteXml out "index.xhtml" root].
Proof.
  unfold write_html_index. intros H.
  apply io_bind_ok in H as ([mp jp] & w0 & w1 & H0 & H & ->).
  apply io_bind_ok in H as (dl & w2 & w3 & H2 & H & ->).
  unfold lift in H0, H2. injection H0 as <- _. injection H2 as <- _.
  unfold write_xml_file, emit in H. injection H as <-.
  eexists. reflexivity.
Qed.

(** X28. A run that completes returns 0 and has written, in this order:
    the pages, the index, the captured outputs and, last, the stylesheet. *)
Theorem a_complete_run_writes_in_order import_module rst css parse out
    filenames log n :
  main import_module rst css parse out filenames = (log, Ok n) ->
  n = 0
  /\ exists results pages page_log index output_log,
       read_results parse filenames = Ok results
       /\ write_html_pages import_module rst out results
          = (page_log, Ok pages)
       /\ write_html_index import_module rst out pages
          = ([WriteXml out "index.xhtml" index], Ok tt)
       /\ write_test_outputs out results = (output_log, Ok tt)
       /\ log = (page_log ++ WriteXml out "index.xhtml" index
                 :: output_log ++ [WriteText out "style.css" css])%list.
Proof.
  unfold main. intros H.
  apply io_bind_ok in H as (results & w0 & w1 & Hr & H & ->).
  apply io_bind_ok in H as (pages & w2 & w3 & Hp & H & ->).
  apply io_bind_ok in H as ([] & w4 & w5 & Hi & H & ->).
  apply io_bind_ok in H as ([] & w6 & w7 & Ho & H & ->).
  apply io_bind_ok in H as ([] & w8 & w9 & Ha & H & ->).
  unfold io_ret in H. injection H as <- <-.
  unfold write_assets, emit in Ha. injection Ha as <-.
  unfold lift in Hr. injection Hr as <- Hr.
  destruct (write_html_index_log _ _ _ _ Hi) as (index & ->).
  split; [reflexivity|].
  exists results, pages, w2, index, w6.
  repeat (split; [assumption|]).
  reflexivity.
Qed.

(** ** The properties at work on small inputs *)

(** C1 on a server with one passing result. *)
Lemma C1_witness :
  In "foo" (jobs_of two_servers)
  /\ job_category two_servers "foo" = Ok server.
Proof.
  assert (H : In "foo" (jobs_of two_servers)) by (left; reflexivity).
  split; [exact H|].
  destruct (@C1_classifier_reads_all_results plain_catalog plain_rst "out"
              two_servers "foo" H) as (_ & _ & _ & H4).
  rewrite H4; [reflexivity | discriminate].
Defined.

(** C3 on a case whose first captured output ends in an empty line, which
    the second one does not have. *)
Lemma C3_witness :
  let first := "setup" ++ String "010" (String "010" "") in
  let second := "setup" ++ String "010" "teardown" in
  let o1 := Elem "system-out" [] (Some first) [] in
  let sk := Elem "skipped" [("type", "pytest.skip")] None [] in
  let o2 := Elem "system-out" [] (Some second) [] in
  children teardown_case = ([] ++ o1 :: [sk] ++ o2 :: [])%list
  /\ forallb is_outcome ([] ++ [sk] ++ [])%list = true
  /\ tag o1 = "system-out" /\ tag o2 = "system-out"
  /\ Py.startswith second first = false
  /\ carries_on first second
  /\ exists w,
       for_each (children teardown_case) child_step case_vars_init = Ok w
       /\ v_system_out w = Some second.
Proof.
  cbv zeta. repeat (split; [reflexivity|]).
  assert (C : carries_on ("setup" ++ String "010" (String "010" ""))
                ("setup" ++ String "010" "teardown")).
  { exists "setup", (String "010" "teardown"). split; [|reflexivity].
    exists (String "010" (String "010" "")). repeat split. }
  split; [exact C|].
  exact (proj1 (proj1 (@C3_second_system_out scenario_path teardown_case
                         "test_g" [] [_] [] _ _ eq_refl eq_refl eq_refl
                         eq_refl)) C).
Defined.

(** C4 on a server and the same server with services. *)
Lemma C4_witness :
  let run := write_html_pages plain_catalog plain_rst "out" two_servers in
  let pages := [ module_page "irctest.server_tests.x"; job_page "foo" ] in
  run = (fst run, Ok pages)
  /\ In "foo-atheme" (jobs_of two_servers)
  /\ category_is two_servers "foo-atheme" server_with_services
  /\ forall f, ~ In ("job", "foo-atheme", f) pages.
Proof.
  cbv zeta.
  assert (Hrun : write_html_pages plain_catalog plain_rst "out" two_servers
                 = (fst (write_html_pages plain_catalog plain_rst "out"
                           two_servers),
                    Ok [ module_page "irctest.server_tests.x";
                         job_page "foo" ]))
    by (vm_compute; reflexivity).
  assert (Hin : In "foo-atheme" (jobs_of two_servers))
    by (right; left; reflexivity).
  assert (Hcat : category_is two_servers "foo-atheme" server_with_services)
    by reflexivity.
  split; [exact Hrun|]. split; [exact Hin|]. split; [exact Hcat|].
  exact (proj1 (proj2 (@C4_job_pages _ _ _ _ _ _ _ Hrun Hin)) Hcat).
Defined.

(** C5 on an expected failure. *)
Lemma C5_witness :
  let cell := Elem "td" [("class", "expected-failure")] (Some "X") [] in
  build_cell [("foo-server", [xfail_result])] "foo-server" = Ok cell
  /\ cell_class cell = Some "expected-failure"
  /\ cell_marker cell = Some "X".
Proof.
  cbv zeta.
  assert (H : build_cell [("foo-server", [xfail_result])] "foo-server"
              = Ok (Elem "td" [("class", "expected-failure")] (Some "X") []))
    by reflexivity.
  split; [exact H|].
  destruct (@C5_cell_classification _ _ _ H) as (r & Hr & Hcell).
  injection Hr as <-. exact Hcell.
Defined.

(** C6 on the file name of the scenario. *)
Lemma C6_witness :
  children scenario_root = [scenario_suite]
  /\ In scenario_case (children scenario_suite)
  /\ get scenario_case "name" = Some "test_a"
  /\ forall rs, iter_job_results scenario_path scenario_root = Ok rs ->
     forall r, In r rs ->
     Re.group "name" [("name", "foo-server")] = Some (job r)
     /\ job_file_shape scenario_path (job r).
Proof.
  assert (H1 : children scenario_root = [scenario_suite]) by reflexivity.
  assert (H2 : In scenario_case (children scenario_suite))
    by (left; reflexivity).
  assert (H3 : get scenario_case "name" = Some "test_a") by reflexivity.
  split; [exact H1|]. split; [exact H2|]. split; [exact H3|].
  pose proof (proj1 (@C6_job_from_file_name scenario_path scenario_root
                       scenario_suite scenario_case "test_a" H1 H2 H3)) as T.
  exact T.
Defined.

(** C7 on the page of a server module. *)
Lemma C7_witness :
  let run := write_html_pages plain_catalog plain_rst "out" two_servers in
  run = (fst run, Ok [ module_page "irctest.server_tests.x"; job_page "foo" ])
  /\ In "irctest.server_tests.x" (map module_name two_servers)
  /\ exists cats cols,
       for_each (jobs_of two_servers) (classify two_servers) [] = Ok cats
       /\ module_jobs_of two_servers (jobs_of two_servers) cats
            "irctest.server_tests.x" = Ok cols
       /\ forall j, In j cols -> ~ category_is two_servers j client.
Proof.
  cbv zeta.
  assert (Hrun : write_html_pages plain_catalog plain_rst "out" two_servers
                 = (fst (write_html_pages plain_catalog plain_rst "out"
                           two_servers),
                    Ok [ module_page "irctest.server_tests.x";
                         job_page "foo" ]))
    by (vm_compute; reflexivity).
  assert (Hin : In "irctest.server_tests.x" (map module_name two_servers))
    by (left; reflexivity).
  split; [exact Hrun|]. split; [exact Hin|].
  destruct (@C7_module_columns _ _ _ _ _ _ _ Hrun Hin)
    as (cats & cols & root & Hcats & Hcols & _ & _ & _ & _ & _ & Hserver).
  exists cats, cols. split; [exact Hcats|]. split; [exact Hcols|].
  apply Hserver. reflexivity.
Defined.

(** C8 on two results taken in both orders. *)
Lemma C8_witness :
  let a := sample_result "foo" "irctest.server_tests.x" "T" "test_a" in
  let b := sample_result "bar" "irctest.server_tests.y" "U" "test_b" in
  Permutation [a; b] [b; a]
  /\ write_html_pages plain_catalog plain_rst "out" [a; b]
     = write_html_pages plain_catalog plain_rst "out" [b; a].
Proof.
  cbv zeta. split; [apply perm_swap|].
  exact (proj1 (@C8_pages_independent_of_input_order plain_catalog plain_rst
                  "out" _ _ (perm_swap _ _ []))).
Defined.


(** C10 on a result whose captured output is empty. *)
Lemma C10_witness :
  let log := [WriteText "out"
                "foo-server_irctest.server_tests.x.T.test_a.txt" ""] in
  write_test_outputs "out" [silent_result] = (log, Ok tt)
  /\ In silent_result [silent_result]
  /\ system_out silent_result = Some ""
  /\ (exists f, output_filename silent_result = Ok f
                /\ In (WriteText "out" f "") log)
  /\ forall cell,
       build_cell [("foo-server", [silent_result])] "foo-server" = Ok cell ->
       children cell = [] /\ cell_link cell = None
       /\ text cell = cell_marker cell /\ text cell <> None.
Proof.
  cbv zeta.
  assert (H1 : write_test_outputs "out" [silent_result]
               = ([WriteText "out"
                     "foo-server_irctest.server_tests.x.T.test_a.txt" ""],
                  Ok tt)) by (vm_compute; reflexivity).
  assert (H2 : In silent_result [silent_result]) by (left; reflexivity).
  assert (H3 : system_out silent_result = Some "") by reflexivity.
  split; [exact H1|]. split; [exact H2|]. split; [exact H3|].
  destruct (@C10_empty_output_written_not_linked _ _ _ _ H1 H2 H3)
    as [Hf Hc].
  split; [exact Hf|].
  intros cell Hcell.
  exact (Hc [("foo-server", [silent_result])] "foo-server" cell eq_refl Hcell).
Defined.

(** ** The further properties at work on small inputs *)

(** X2 on a record with an element that is no case and two cases. *)
Lemma results_follow_named_cases_witness :
  let rs := [scenario_result; skipped_result] in
  iter_job_results scenario_path mixed_root = Ok rs
  /\ exists suite,
       children mixed_root = [suite]
       /\ map test_name rs = case_names (children suite)
       /\ List.length rs = List.length (filter has_name (children suite)).
Proof.
  cbv zeta.
  assert (H : iter_job_results scenario_path mixed_root
              = Ok [scenario_result; skipped_result])
    by (vm_compute; reflexivity).
  split; [exact H|].
  exact (@results_follow_named_cases scenario_path mixed_root _ H).
Defined.

(** X3 on the same record. *)
Lemma class_names_split_at_last_dot_witness :
  let rs := [scenario_result; skipped_result] in
  iter_job_results scenario_path mixed_root = Ok rs
  /\ exists suite,
       children mixed_root = [suite]
       /\ Forall2
            (fun case r =>
               get case "classname"
               = Some (module_name r ++ "." ++ class_name r)
               /\ Py.mem_char "." (class_name r) = false)
            (filter has_name (children suite)) rs.
Proof.
  cbv zeta.
  assert (H : iter_job_results scenario_path mixed_root
              = Ok [scenario_result; skipped_result])
    by (vm_compute; reflexivity).
  split; [exact H|].
  exact (@class_names_split_at_last_dot scenario_path mixed_root _ H).
Defined.

(** X4 on the skipped result of the same record. *)
Lemma skipped_results_are_successes_witness :
  let rs := [scenario_result; skipped_result] in
  iter_job_results scenario_path mixed_root = Ok rs
  /\ In skipped_result rs
  /\ (skipped skipped_result = true -> success skipped_result = true)
  /\ (success skipped_result = true -> details skipped_result = None).
Proof.
  cbv zeta.
  assert (H : iter_job_results scenario_path mixed_root
              = Ok [scenario_result; skipped_result])
    by (vm_compute; reflexivity).
  assert (Hin : In skipped_result [scenario_result; skipped_result])
    by (right; left; reflexivity).
  split; [exact H|]. split; [exact Hin|].
  exact (@skipped_results_are_successes scenario_path mixed_root _ _ H Hin).
Defined.

(** X5 on the skipped case, whose output is captured twice. *)
Lemma captured_output_is_the_last_one_witness :
  case_result scenario_path skipped_case "test_b" = Ok skipped_result
  /\ system_out skipped_result = last_output (children skipped_case).
Proof.
  assert (H : case_result scenario_path skipped_case "test_b"
              = Ok skipped_result) by (vm_compute; reflexivity).
  split; [exact H|].
  exact (@captured_output_is_the_last_one scenario_path skipped_case
           "test_b" _ H).
Defined.

(** X6 on a case with a [properties] child. *)
Lemma unknown_child_aborts_witness :
  let child := Elem "properties" [] None [] in
  let suite := Elem "testsuite" [] None [odd_case] in
  children (record_of odd_case) = [suite]
  /\ In odd_case (children suite)
  /\ get odd_case "name" = Some "test_d"
  /\ In child (children odd_case)
  /\ known_child child = false
  /\ is_ok (iter_job_results scenario_path (record_of odd_case)) = false.
Proof.
  cbv zeta.
  assert (H2 : In odd_case (children (Elem "testsuite" [] None [odd_case])))
    by (left; reflexivity).
  assert (H4 : In (Elem "properties" [] None []) (children odd_case))
    by (left; reflexivity).
  split; [reflexivity|]. split; [exact H2|]. split; [reflexivity|].
  split; [exact H4|]. split; [reflexivity|].
  exact (@unknown_child_aborts scenario_path (record_of odd_case) _ odd_case
           "test_d" _ eq_refl H2 eq_refl H4 eq_refl).
Defined.

(** X7 on a skip with a [reason] attribute. *)
Lemma foreign_attribute_aborts_witness :
  let c := Elem "skipped" [("type", "pytest.skip"); ("reason", "later")]
             None [] in
  children annotated_case = ([] ++ c :: [])%list
  /\ is_outcome c = true
  /\ forallb (fun x => negb (is_outcome x)) [] = true
  /\ forallb result_field (attrib c) = false
  /\ is_ok (case_result scenario_path annotated_case "test_e") = false.
Proof.
  cbv zeta. repeat (split; [reflexivity|]).
  exact (@foreign_attribute_aborts scenario_path annotated_case "test_e"
           [] _ [] eq_refl eq_refl eq_refl eq_refl).
Defined.

(** X8 on a case whose class name is a bare [T]. *)
Lemma classname_needs_a_dot_witness :
  let suite := Elem "testsuite" [] None [flat_case] in
  children (record_of flat_case) = [suite]
  /\ In flat_case (children suite)
  /\ get flat_case "name" = Some "test_f"
  /\ get flat_case "classname" = Some "T"
  /\ Py.mem_char "." "T" = false
  /\ is_ok (iter_job_results scenario_path (record_of flat_case)) = false.
Proof.
  cbv zeta.
  assert (H2 : In flat_case (children (Elem "testsuite" [] None [flat_case])))
    by (left; reflexivity).
  split; [reflexivity|]. split; [exact H2|]. repeat (split; [reflexivity|]).
  exact (@classname_needs_a_dot scenario_path (record_of flat_case) _
           flat_case "test_f" eq_refl H2 eq_refl eq_refl).
Defined.

(** X9 on the record of the scenario, read twice. *)
Lemma results_are_read_in_file_order_witness :
  let results := [scenario_result; scenario_result] in
  read_results sample_parse [scenario_path; scenario_path] = Ok results
  /\ exists per_file,
       results = List.concat per_file
       /\ Forall2
            (fun filename rs =>
               exists root,
                 sample_parse filename = Ok root
                 /\ iter_job_results filename root = Ok rs)
            [scenario_path; scenario_path] per_file.
Proof.
  cbv zeta.
  assert (H : read_results sample_parse [scenario_path; scenario_path]
              = Ok [scenario_result; scenario_result])
    by (vm_compute; reflexivity).
  split; [exact H|].
  exact (@results_are_read_in_file_order sample_parse _ _ H).
Defined.

(** X12 and X13 on a name with a colon among its parameters and with
    letters after the closing bracket. *)
Lemma output_filename_is_clean_witness :
  let r := sample_result "j" "m" "C" "test_a[x:y]zzz" in
  let f := "j_m.C.test_a[2tPVBBUHRRqUsy4FdDgkGQ==].txt" in
  output_filename r = Ok f
  /\ exists name,
       f = file_name_of r name
       /\ Py.intersects name NETLIFY_CHAR_BLACKLIST = false.
Proof.
  cbv zeta.
  assert (H : output_filename (sample_result "j" "m" "C" "test_a[x:y]zzz")
              = Ok "j_m.C.test_a[2tPVBBUHRRqUsy4FdDgkGQ==].txt")
    by (vm_compute; reflexivity).
  split; [exact H|].
  exact (@output_filename_is_clean _ _ H).
Defined.

Lemma output_filename_ignores_tail_witness :
  let r := sample_result "j" "m" "C" "test_a[x:y]zzz" in
  needs_shortening (test_name r) = true
  /\ bracketed (test_name r) "test_a" "x:y" "zzz"
  /\ Py.mem_char "]" "zzz" = false
  /\ output_filename r
     = Ok (file_name_of r ("test_a" ++ "[" ++ md5sum "x:y" ++ "]")).
Proof.
  cbv zeta.
  assert (Hb : bracketed
                 (test_name (sample_result "j" "m" "C" "test_a[x:y]zzz"))
                 "test_a" "x:y" "zzz").
  { unfold bracketed, no_line_feed.
    repeat split; try discriminate; reflexivity. }
  split; [reflexivity|]. split; [exact Hb|]. split; [reflexivity|].
  exact (@output_filename_ignores_tail
           (sample_result "j" "m" "C" "test_a[x:y]zzz") "test_a" "x:y" "zzz"
           eq_refl Hb eq_refl).
Defined.

(** X15 on the matrix of a server and the same server with services. *)
Lemma table_rows_have_one_cell_per_job_witness :
  exists table,
    build_test_table plain_catalog plain_rst ["foo"; "foo-atheme"]
      two_servers = Ok table
    /\ tag table = "table"
    /\ forall row, In row (children table) ->
         tag row = "tr"
         /\ (List.length (children row) = 3
             \/ exists th,
                  children row = [th]
                  /\ get th "colspan" = Some (Py.str_of_nat (2 + 1))).
Proof.
  destruct (build_test_table plain_catalog plain_rst ["foo"; "foo-atheme"]
              two_servers) as [table|e] eqn:E;
    [|vm_compute in E; discriminate].
  exists table. split; [reflexivity|].
  exact (@table_rows_have_one_cell_per_job plain_catalog plain_rst
           ["foo"; "foo-atheme"] two_servers table E).
Defined.

(** X16 on the result of the scenario given twice. *)
Lemma duplicate_results_fail_witness :
  let r := scenario_result in
  [r; r] = ([] ++ r :: [] ++ r :: [])%list
  /\ In (job r) ["foo-server"]
  /\ skipped r = false
  /\ is_ok (build_test_table plain_catalog plain_rst ["foo-server"] [r; r])
     = false
  /\ is_ok (snd (write_html_pages plain_catalog plain_rst "out" [r; r]))
     = false.
Proof.
  cbv zeta.
  assert (Hin : In (job scenario_result) ["foo-server"])
    by (left; reflexivity).
  destruct (@duplicate_results_fail plain_catalog plain_rst "out"
              [scenario_result; scenario_result] [] scenario_result []
              scenario_result [] eq_refl eq_refl eq_refl eq_refl eq_refl)
    as [T R].
  split; [reflexivity|]. split; [exact Hin|]. split; [reflexivity|].
  split; [exact (T _ Hin) | exact (R eq_refl)].
Defined.

(** X17 and X18 on a failure with a log and a message. *)
Lemma cell_title_is_the_message_witness :
  exists cell,
    Py.dict_get String.eqb "foo-server" [("foo-server", [logged_result])]
    = Some [logged_result]
    /\ build_cell [("foo-server", [logged_result])] "foo-server" = Ok cell
    /\ get cell "title" = Some "boom".
Proof.
  destruct (build_cell [("foo-server", [logged_result])] "foo-server")
    as [cell|e] eqn:E; [|vm_compute in E; discriminate].
  exists cell. split; [reflexivity|]. split; [reflexivity|].
  exact (@cell_title_is_the_message [("foo-server", [logged_result])]
           "foo-server" logged_result cell eq_refl E).
Defined.

Lemma cell_links_to_the_written_output_witness :
  let f := "foo-server_irctest.server_tests.x.T.test_a.txt" in
  let log := [WriteText "out" f "log"] in
  let cell :=
    Elem "td" [("class", "failure"); ("title", "boom")] None
      [Elem "a" [("href", "./" ++ f)] (Some "f") []] in
  write_test_outputs "out" [logged_result] = (log, Ok tt)
  /\ In logged_result [logged_result]
  /\ Py.dict_get String.eqb "foo-server" [("foo-server", [logged_result])]
     = Some [logged_result]
  /\ build_cell [("foo-server", [logged_result])] "foo-server" = Ok cell
  /\ cell_link cell = Some ("./" ++ f)
  /\ exists f' content,
       "./" ++ f = "./" ++ f' /\ output_filename logged_result = Ok f'
       /\ system_out logged_result = Some content /\ content <> ""
       /\ In (WriteText "out" f' content) log.
Proof.
  cbv zeta.
  assert (Hin : In logged_result [logged_result]) by (left; reflexivity).
  split; [reflexivity|]. split; [exact Hin|]. repeat (split; [reflexivity|]).
  exact (@cell_links_to_the_written_output "out" [logged_result] _
           logged_result [("foo-server", [logged_result])] "foo-server" _ _
           eq_refl Hin eq_refl eq_refl eq_refl).
Defined.

(** X19, X20 on a server and the same server with services. *)
Lemma pages_are_the_files_written_witness :
  let run := write_html_pages plain_catalog plain_rst "out" two_servers in
  let pages := [ module_page "irctest.server_tests.x"; job_page "foo" ] in
  run = (fst run, Ok pages)
  /\ exists documents,
       fst run = Mkdir "out" :: documents
       /\ List.length documents = List.length pages.
Proof.
  cbv zeta.
  assert (Hrun : write_html_pages plain_catalog plain_rst "out" two_servers
                 = (fst (write_html_pages plain_catalog plain_rst "out"
                           two_servers),
                    Ok [ module_page "irctest.server_tests.x";
                         job_page "foo" ]))
    by (vm_compute; reflexivity).
  split; [exact Hrun|].
  destruct (@pages_are_the_files_written _ _ _ _ _ _ Hrun)
    as (documents & Hl & HF).
  exists documents. split; [exact Hl|].
  symmetry. exact (Forall2_length HF).
Defined.

Lemma index_follows_pages_witness :
  let run := write_html_pages plain_catalog plain_rst "out" two_servers in
  let pages := [ module_page "irctest.server_tests.x"; job_page "foo" ] in
  run = (fst run, Ok pages)
  /\ exists root,
       write_html_index plain_catalog plain_rst "out" pages
       = ([WriteXml "out" "index.xhtml" root], Ok tt).
Proof.
  cbv zeta.
  assert (Hrun : write_html_pages plain_catalog plain_rst "out" two_servers
                 = (fst (write_html_pages plain_catalog plain_rst "out"
                           two_servers),
                    Ok [ module_page "irctest.server_tests.x";
                         job_page "foo" ]))
    by (vm_compute; reflexivity).
  split; [exact Hrun|].
  exact (@index_follows_pages _ _ _ _ _ _ Hrun).
Defined.

(** X21 on a module page and a job page. *)
Lemma index_lists_every_page_once_witness :
  let pages := [ job_page "foo"; module_page "irctest.server_tests.x" ] in
  exists log,
    write_html_index plain_catalog plain_rst "out" pages = (log, Ok tt)
    /\ exists modules jobs,
         Permutation modules (pages_of_type "module" pages)
         /\ Permutation jobs (pages_of_type "job" pages).
Proof.
  cbv zeta.
  destruct (write_html_index plain_catalog plain_rst "out"
              [ job_page "foo"; module_page "irctest.server_tests.x" ])
    as [log [[]|e]] eqn:E; [|vm_compute in E; discriminate].
  exists log. split; [reflexivity|].
  destruct (@index_lists_every_page_once plain_catalog plain_rst "out" _ _ E)
    as (modules & descriptions & jobs & Hm & _ & _ & _ & Hj & _).
  exists modules, jobs. split; [exact Hm | exact Hj].
Defined.

(** X22 on a page of an unknown type. *)
Lemma index_rejects_unknown_page_type_witness :
  let pages := [ job_page "foo"; ("misc", "notes", "notes.xhtml") ] in
  In ("misc", "notes", "notes.xhtml") pages
  /\ "misc" <> "module" /\ "misc" <> "job"
  /\ write_html_index plain_catalog plain_rst "out" pages
     = ([], Raise AssertionError).
Proof.
  cbv zeta.
  assert (Hin : In ("misc", "notes", "notes.xhtml")
                  [ job_page "foo"; ("misc", "notes", "notes.xhtml") ])
    by (right; left; reflexivity).
  assert (Hm : "misc" <> "module") by discriminate.
  assert (Hj : "misc" <> "job") by discriminate.
  split; [exact Hin|]. split; [exact Hm|]. split; [exact Hj|].
  exact (@index_rejects_unknown_page_type plain_catalog plain_rst "out" _
           "misc" "notes" "notes.xhtml" Hin Hm Hj).
Defined.

(** X23 on two pages taken in both orders. *)
Lemma index_independent_of_page_order_witness :
  let a := module_page "irctest.server_tests.x" in
  let b := job_page "foo" in
  Permutation [a; b] [b; a]
  /\ write_html_index plain_catalog plain_rst "out" [a; b]
     = write_html_index plain_catalog plain_rst "out" [b; a].
Proof.
  cbv zeta. split; [apply perm_swap|].
  exact (@index_independent_of_page_order plain_catalog plain_rst "out" _ _
           (perm_swap _ _ [])).
Defined.

(** X24 on a result without output between two with one. *)
Lemma outputs_are_written_in_order_witness :
  let results := [silent_result; scenario_result; logged_result] in
  let f := "foo-server_irctest.server_tests.x.T.test_a.txt" in
  let log := [WriteText "out" f ""; WriteText "out" f "log"] in
  write_test_outputs "out" results = (log, Ok tt)
  /\ Forall2
       (fun r e =>
          exists f content,
            system_out r = Some content /\ output_filename r = Ok f
            /\ e = WriteText "out" f content)
       (filter has_output results) log.
Proof.
  cbv zeta.
  assert (H : write_test_outputs "out"
                [silent_result; scenario_result; logged_result]
              = ([ WriteText "out"
                     "foo-server_irctest.server_tests.x.T.test_a.txt" "";
                   WriteText "out"
                     "foo-server_irctest.server_tests.x.T.test_a.txt" "log" ],
                 Ok tt)) by reflexivity.
  split; [exact H|].
  exact (@outputs_are_written_in_order "out" _ _ H).
Defined.

(** X25 on a result whose name holds a colon and no bracket. *)
Lemma outputs_stop_at_first_failure_witness :
  let f := "foo-server_irctest.server_tests.x.T.test_a.txt" in
  write_test_outputs "out" [silent_result] = ([WriteText "out" f ""], Ok tt)
  /\ system_out unnameable_result = Some "log"
  /\ output_filename unnameable_result = Raise AssertionError
  /\ write_test_outputs "out"
       ([silent_result] ++ unnameable_result :: [logged_result])%list
     = ([WriteText "out" f ""], Raise AssertionError).
Proof.
  cbv zeta. repeat (split; [reflexivity|]).
  exact (@outputs_stop_at_first_failure "out" [silent_result]
           unnameable_result [logged_result] _ "log" AssertionError
           eq_refl eq_refl eq_refl).
Defined.

(** X27 on a record without any suite that follows the record of the
    scenario. *)
Lemma first_bad_record_stops_the_run_witness :
  read_results sample_parse [scenario_path] = Ok [scenario_result]
  /\ sample_parse "other.xml" = Ok (Elem "testsuites" [] None [])
  /\ iter_job_results "other.xml" (Elem "testsuites" [] None [])
     = Raise ValueError
  /\ main plain_catalog plain_rst "" sample_parse "out"
       ([scenario_path] ++ "other.xml" :: [scenario_path])%list
     = ([], Raise ValueError).
Proof.
  assert (H : read_results sample_parse [scenario_path]
              = Ok [scenario_result]) by (vm_compute; reflexivity).
  split; [exact H|]. split; [reflexivity|]. split; [reflexivity|].
  exact (@first_bad_record_stops_the_run plain_catalog plain_rst ""
           sample_parse "out" [scenario_path] "other.xml" [scenario_path]
           _ ValueError H eq_refl).
Defined.

(** X28 on the record of the scenario. *)
Lemma a_complete_run_writes_in_order_witness :
  let run := main plain_catalog plain_rst "" sample_parse "out"
               [scenario_path] in
  run = (fst run, Ok 0)
  /\ exists page_log index,
       fst run
       = (page_log ++ WriteXml "out" "index.xhtml" index
          :: [] ++ [WriteText "out" "style.css" ""])%list.
Proof.
  cbv zeta.
  assert (Hrun : main plain_catalog plain_rst "" sample_parse "out"
                   [scenario_path]
                 = (fst (main plain_catalog plain_rst "" sample_parse "out"
                           [scenario_path]), Ok 0))
    by (vm_compute; reflexivity).
  split; [exact Hrun|].
  destruct (@a_complete_run_writes_in_order _ _ _ _ _ _ _ _ Hrun)
    as (_ & results & pages & page_log & index & output_log
        & Hr & _ & _ & Ho & Hlog).
  assert (results = [scenario_result]) as ->.
  { vm_compute in Hr. injection Hr as <-. reflexivity. }
  assert (output_log = []) as ->.
  { vm_compute in Ho. injection Ho as <-. reflexivity. }
  exists page_log, index. exact Hlog.
Defined.
